(** * lecroy-reader: a shallow embedding of [lecroyreader/lecroy.py]

    The file follows the source top-down: the Python runtime pieces the
    reader relies on ([bytes.find], slicing, list indexing, [dict]), the
    [struct] module restricted to the format characters of the descriptor
    table, the NumPy calls ([fromstring], [reshape], scalar arithmetic,
    [arange]), then [lecroy_format], [read], [Trace] and
    [pretty_metadata].  Theorems about the reader come last.

    The semantics is that of Python 3 ([/] on integers is true division,
    a [dict] keeps insertion order) with a NumPy whose [fromstring] still
    reads binary data.  Floats are IEEE binary64 numbers, with the
    arithmetic of Rocq's primitive floats.  The machine enters through
    its byte order ([host]) and through the size of the largest array it
    can allocate ([room]). *)

From Stdlib Require Import ZArith List Strings.String Strings.Ascii Strings.Byte Bool Lia.
From Stdlib Require Import DecimalString Floats.
Import ListNotations.
Open Scope Z_scope.
Set Warnings "-register-all".

(** ** Python runtime *)

Module Py.

(** Exception classes the reader can meet.  [exn_name] is the class name as
    Python prints it. *)
Inductive exn :=
| StructError
| IndexError
| ValueError
| TypeError
| KeyError
| AttributeError
| OverflowError
| MemoryError.

Definition exn_name (e : exn) : string :=
  match e with
  | StructError => "struct.error"
  | IndexError => "IndexError"
  | ValueError => "ValueError"
  | TypeError => "TypeError"
  | KeyError => "KeyError"
  | AttributeError => "AttributeError"
  | OverflowError => "OverflowError"
  | MemoryError => "MemoryError"
  end.

Inductive result (A : Type) : Type :=
| Ok (a : A)
| Raise (e : exn).
Arguments Ok {A} a.
Arguments Raise {A} e.

Definition bind {A B} (r : result A) (k : A -> result B) : result B :=
  match r with
  | Ok a => k a
  | Raise e => Raise e
  end.

Declare Scope py_scope.
Delimit Scope py_scope with py.
Notation "x <- r ;; k" := (bind r (fun x => k))
  (at level 61, r at next level, right associativity) : py_scope.
Notation "' pat <- r ;; k" := (bind r (fun x => match x with pat => k end))
  (at level 61, pat pattern, r at next level, right associativity) : py_scope.
Open Scope py_scope.

(** A [for] loop threading the loop's state, stopping at the first raise. *)
Fixpoint for_each {A S : Type} (body : S -> A -> result S) (l : list A) (s : S)
  : result S :=
  match l with
  | [] => Ok s
  | a :: l' => s' <- body s a ;; for_each body l' s'
  end.

(** Values stored in the metadata dictionary. *)
Inductive value :=
| VInt (z : Z)
| VFloat (f : float)
| VBytes (b : list byte)
| VStr (s : string)
| VTuple (l : list value)
| VList (l : list value).

(** [float(z)] for an integer (exact below 2^53 in magnitude, which covers
    every sample and every array length the reader handles). *)
Definition float_of_int (z : Z) : float :=
  SF2Prim (match z with
           | Z0 => S754_zero false
           | Zpos p => S754_finite false p 0
           | Zneg p => S754_finite true p 0
           end).

(** [a == b].  Numbers compare by value, with IEEE equality on floats;
    values of different kinds are unequal: a tuple never equals an
    integer. *)
Fixpoint py_eq (a b : value) : bool :=
  let fix all_eq (xs ys : list value) : bool :=
    match xs, ys with
    | [], [] => true
    | x :: xs', y :: ys' => py_eq x y && all_eq xs' ys'
    | _, _ => false
    end in
  match a, b with
  | VInt x, VInt y => x =? y
  | VFloat x, VFloat y => PrimFloat.eqb x y
  | VInt x, VFloat y | VFloat y, VInt x => PrimFloat.eqb (float_of_int x) y
  | VBytes x, VBytes y =>
      if list_eq_dec Byte.byte_eq_dec x y then true else false
  | VStr x, VStr y => String.eqb x y
  | VTuple xs, VTuple ys => all_eq xs ys
  | VList xs, VList ys => all_eq xs ys
  | _, _ => false
  end.

(** Truth value of an object in a condition. *)
Definition truthy (v : value) : bool :=
  match v with
  | VInt z => negb (z =? 0)
  | VFloat f => negb (PrimFloat.eqb f PrimFloat.zero)
  | VBytes b => negb (Nat.eqb (List.length b) 0)
  | VStr s => negb (String.eqb s "")
  | VTuple l | VList l => negb (Nat.eqb (List.length l) 0)
  end.

Definition as_int (v : value) : result Z :=
  match v with VInt z => Ok z | _ => Raise TypeError end.

Definition as_float (v : value) : result float :=
  match v with VFloat f => Ok f | _ => Raise TypeError end.

Definition as_bytes (v : value) : result (list byte) :=
  match v with VBytes b => Ok b | _ => Raise TypeError end.

(** [list(v)] for a tuple or a list. *)
Definition to_list (v : value) : result (list value) :=
  match v with
  | VTuple l | VList l => Ok l
  | _ => Raise TypeError
  end.

Section Sequences.
Context {A : Type}.

Definition len (l : list A) : Z := Z.of_nat (List.length l).

(** Slice bounds are clamped the way CPython's [PySlice_AdjustIndices]
    does for step 1: a negative bound counts from the end, then the bound
    is clipped to [0, len]. *)
Definition clamp (n i : Z) : Z :=
  if i <? 0 then Z.max (i + n) 0 else Z.min i n.

(** [l[a:b]] *)
Definition slice (l : list A) (a b : Z) : list A :=
  let a' := clamp (len l) a in
  let b' := clamp (len l) b in
  firstn (Z.to_nat (b' - a')) (skipn (Z.to_nat a') l).

(** [l[a:]] *)
Definition slice_from (l : list A) (a : Z) : list A :=
  skipn (Z.to_nat (clamp (len l) a)) l.

(** [l[:b]] *)
Definition slice_to (l : list A) (b : Z) : list A :=
  firstn (Z.to_nat (clamp (len l) b)) l.

(** [l[i]]: a negative index counts from the end, anything outside
    [-len, len) raises [IndexError]. *)
Definition getitem (l : list A) (i : Z) : result A :=
  let j := if i <? 0 then i + len l else i in
  if j <? 0 then Raise IndexError
  else match nth_error l (Z.to_nat j) with
       | Some x => Ok x
       | None => Raise IndexError
       end.
End Sequences.

(** [bytes.find]: lowest index at which [sub] occurs in [s], or [-1]. *)
Fixpoint starts_with (sub s : list byte) : bool :=
  match sub, s with
  | [], _ => true
  | _ :: _, [] => false
  | x :: sub', y :: s' => Byte.eqb x y && starts_with sub' s'
  end.

Fixpoint find_from (sub s : list byte) (i : Z) : Z :=
  if starts_with sub s then i
  else match s with
       | [] => -1
       | _ :: s' => find_from sub s' (i + 1)
       end.

Definition find (s sub : list byte) : Z := find_from sub s 0.

(** [bytes.strip(chars)] with a single stripped byte. *)
Fixpoint lstrip (c : byte) (s : list byte) : list byte :=
  match s with
  | x :: s' => if Byte.eqb x c then lstrip c s' else s
  | [] => []
  end.

Definition strip (c : byte) (s : list byte) : list byte :=
  rev (lstrip c (rev (lstrip c s))).

(** [str(n)] for an integer. *)
Definition str_of_int (n : Z) : string := NilZero.string_of_int (Z.to_int n).

(** A [dict] with string keys, in insertion order. *)
Definition dict (V : Type) := list (string * V).

Section Dict.
Context {V : Type}.

Fixpoint dict_find (k : string) (d : dict V) : option V :=
  match d with
  | [] => None
  | (k', v) :: d' => if String.eqb k k' then Some v else dict_find k d'
  end.

(** [d[k]] *)
Definition dict_get (d : dict V) (k : string) : result V :=
  match dict_find k d with
  | Some v => Ok v
  | None => Raise KeyError
  end.

(** [d[k] = v]: an existing key keeps its place, a new key goes last. *)
Fixpoint dict_set (k : string) (v : V) (d : dict V) : dict V :=
  match d with
  | [] => [(k, v)]
  | (k', v') :: d' =>
      if String.eqb k k' then (k, v) :: d' else (k', v') :: dict_set k v d'
  end.

Definition keys (d : dict V) : list string := map fst d.
End Dict.

End Py.
Import Py.

(** ** The [struct] module

    Only what the descriptor table uses: the format characters [s], [b],
    [h], [i], [f], [d], an optional repeat count, and the byte-order
    prefixes [<] and [>].  A format without prefix is native: host byte
    order, with each item aligned to its size. *)

Module Struct.

Inductive endian := Little | Big.

Inductive code := Cs (n : nat) | Cb | Ch | Ci | Cf | Cd.

Definition code_size (c : code) : Z :=
  match c with
  | Cs n => Z.of_nat n
  | Cb => 1
  | Ch => 2
  | Ci | Cf => 4
  | Cd => 8
  end.

Definition code_align (c : code) : Z :=
  match c with
  | Cs _ | Cb => 1
  | Ch => 2
  | Ci | Cf => 4
  | Cd => 8
  end.

Definition digit_of (c : ascii) : option nat :=
  let n := nat_of_ascii c in
  if (48 <=? n)%nat && (n <=? 57)%nat then Some (n - 48)%nat else None.

Definition items_of (count : option nat) (c : ascii) : option (list code) :=
  let n := match count with Some n => n | None => 1%nat end in
  if Ascii.eqb c "s" then Some [Cs n]
  else if Ascii.eqb c "b" then Some (repeat Cb n)
  else if Ascii.eqb c "h" then Some (repeat Ch n)
  else if Ascii.eqb c "i" then Some (repeat Ci n)
  else if Ascii.eqb c "f" then Some (repeat Cf n)
  else if Ascii.eqb c "d" then Some (repeat Cd n)
  else None.

Fixpoint parse_items (s : string) (count : option nat) : option (list code) :=
  match s with
  | EmptyString => match count with None => Some [] | Some _ => None end
  | String c s' =>
      match digit_of c with
      | Some d =>
          parse_items s'
            (Some (10 * match count with Some n => n | None => 0 end + d)%nat)
      | None =>
          match items_of count c, parse_items s' None with
          | Some cs, Some rest => Some (cs ++ rest)
          | _, _ => None
          end
      end
  end.

(** The byte order a format asks for ([None]: native) and its items. *)
Definition parse (fmt : string) : option (option endian * list code) :=
  match fmt with
  | String "<" s => option_map (pair (Some Little)) (parse_items s None)
  | String ">" s => option_map (pair (Some Big)) (parse_items s None)
  | _ => option_map (pair None) (parse_items fmt None)
  end.

Definition align_up (off a : Z) : Z := (off + a - 1) / a * a.

(** Offset at which item [c] starts when the previous one ended at [off]. *)
Definition item_start (native : bool) (off : Z) (c : code) : Z :=
  if native then align_up off (code_align c) else off.

Definition size_of_items (native : bool) (cs : list code) : Z :=
  fold_left (fun off c => item_start native off c + code_size c) cs 0.

Definition is_native (o : option endian) : bool :=
  match o with None => true | Some _ => false end.

(** [struct.Struct(fmt).size] *)
Definition calcsize (fmt : string) : result Z :=
  match parse fmt with
  | Some (o, cs) => Ok (size_of_items (is_native o) cs)
  | None => Raise StructError
  end.

(** Integers from bytes. *)
Definition byte_val (b : byte) : Z := Z.of_N (Byte.to_N b).

Definition unsigned_le (bs : list byte) : Z :=
  fold_right (fun b acc => byte_val b + 256 * acc) 0 bs.

Definition unsigned (e : endian) (bs : list byte) : Z :=
  match e with
  | Little => unsigned_le bs
  | Big => unsigned_le (rev bs)
  end.

(** Two's complement reading of a [bits]-bit pattern. *)
Definition to_signed (bits : Z) (u : Z) : Z :=
  if u <? 2 ^ (bits - 1) then u else u - 2 ^ bits.

Definition signed (e : endian) (bs : list byte) : Z :=
  to_signed (8 * len bs) (unsigned e bs).

(** The IEEE 754 number with the given bit pattern, for a format with
    [mant] fraction bits and [ebits] exponent bits, as a binary64 (every
    binary32 value is one). *)
Definition float_of_bits (mant ebits : Z) (u : Z) : float :=
  let m := Z.land u (2 ^ mant - 1) in
  let e := Z.land (Z.shiftr u mant) (2 ^ ebits - 1) in
  let s := Z.testbit u (mant + ebits) in
  let bias := 2 ^ (ebits - 1) - 1 in
  SF2Prim
    (if e =? 2 ^ ebits - 1 then
       if m =? 0 then S754_infinity s else S754_nan
     else if e =? 0 then
       match m with
       | Zpos p => S754_finite s p (1 - bias - mant)
       | _ => S754_zero s
       end
     else
       match m + 2 ^ mant with
       | Zpos p => S754_finite s p (e - bias - mant)
       | _ => S754_zero s
       end).

Definition binary32 (e : endian) (bs : list byte) : float :=
  float_of_bits 23 8 (unsigned e bs).

Definition binary64 (e : endian) (bs : list byte) : float :=
  float_of_bits 52 11 (unsigned e bs).

Definition decode (e : endian) (c : code) (bs : list byte) : value :=
  match c with
  | Cs _ => VBytes bs
  | Cb | Ch | Ci => VInt (signed e bs)
  | Cf => VFloat (binary32 e bs)
  | Cd => VFloat (binary64 e bs)
  end.

Fixpoint unpack_items (e : endian) (native : bool) (cs : list code) (off : Z)
    (buf : list byte) : list value :=
  match cs with
  | [] => []
  | c :: cs' =>
      let start := item_start native off c in
      let stop := start + code_size c in
      decode e c (slice buf start stop) :: unpack_items e native cs' stop buf
  end.

Section Host.
(** Byte order of the machine the reader runs on. *)
Variable host : endian.

(** [struct.unpack(fmt, buf)]: the items of the returned tuple.  The
    buffer must have exactly the size of the format. *)
Definition unpack (fmt : string) (buf : list byte) : result (list value) :=
  match parse fmt with
  | None => Raise StructError
  | Some (o, cs) =>
      let native := is_native o in
      if len buf =? size_of_items native cs then
        Ok (unpack_items (match o with Some e => e | None => host end)
              native cs 0 buf)
      else Raise StructError
  end.
End Host.

End Struct.

(** ** NumPy

    One- and two-dimensional arrays of integers or of binary64 floats.  The
    elements are kept in row-major (C) logical order: for a two-dimensional
    array with [c] columns, element [(i, j)] is element [i * c + j] of
    [elems]. *)

Module Np.
Import Struct.

Inductive dtype := int8 | int16 | float64.

Definition itemsize (d : dtype) : Z :=
  match d with
  | int8 => 1
  | int16 => 2
  | float64 => 8
  end.

Inductive items :=
| Ints (l : list Z)
| Floats (l : list float).

Record ndarray := NDArray { dt : dtype; shape : list Z; elems : items }.

Definition count_items (x : items) : Z :=
  match x with
  | Ints l => len l
  | Floats l => len l
  end.

Definition size (a : ndarray) : Z := count_items (elems a).

(** The first [count] consecutive groups of [n] bytes of [s]. *)
Fixpoint chunks (n count : nat) (s : list byte) : list (list byte) :=
  match count with
  | O => []
  | S count' => firstn n s :: chunks n count' (skipn n s)
  end.

(** Picks one element out of every [k], the first one after [skip]
    elements: [l[skip]], [l[skip + k]], [l[skip + 2k]], ... *)
Fixpoint every {A : Type} (k skip : nat) (l : list A) : list A :=
  match l with
  | [] => []
  | x :: l' =>
      match skip with
      | O => x :: every k (k - 1) l'
      | S skip' => every k skip' l'
      end
  end.

(** Row-major listing of the [rows]-row matrix that is filled column by
    column from [l] (Fortran order): row [r] holds [l[r]], [l[r + rows]],
    ... *)
Definition by_columns {A : Type} (rows : nat) (l : list A) : list A :=
  flat_map (fun r => every rows r l) (seq 0 rows).

Inductive order := C | F.

Definition regroup (o : order) (rows : Z) (x : items) : items :=
  match o with
  | C => x
  | F =>
      match x with
      | Ints l => Ints (by_columns (Z.to_nat rows) l)
      | Floats l => Floats (by_columns (Z.to_nat rows) l)
      end
  end.

(** [a.reshape(rows, -1, order=o)] for a one-dimensional [a]. *)
Definition reshape (a : ndarray) (rows : Z) (o : order) : result ndarray :=
  if rows <=? 0 then Raise ValueError
  else if size a mod rows =? 0 then
    Ok (NDArray (dt a) [rows; size a / rows] (regroup o rows (elems a)))
  else Raise ValueError.

(** [a * x] for a Python float [x]: the result is a float64 array. *)
Definition mul_scalar (a : ndarray) (x : float) : ndarray :=
  NDArray float64 (shape a)
    (Floats match elems a with
            | Ints l => map (fun v => PrimFloat.mul (float_of_int v) x) l
            | Floats l => map (fun v => PrimFloat.mul v x) l
            end).

(** [a += x] for a Python float [x]: in place, so an integer array cannot
    take the result. *)
Definition iadd_scalar (a : ndarray) (x : float) : result ndarray :=
  match elems a with
  | Floats l =>
      Ok (NDArray (dt a) (shape a) (Floats (map (fun v => PrimFloat.add v x) l)))
  | Ints _ => Raise TypeError
  end.

(** Smallest integer not below a finite float. *)
Definition ceil (f : float) : option Z :=
  match Prim2SF f with
  | S754_zero _ => Some 0
  | S754_finite s m e =>
      let n := if 0 <=? e then Zpos m * 2 ^ e
               else if s then Zpos m / 2 ^ (- e)
               else - (- Zpos m / 2 ^ (- e)) in
      Some (if s then - n else n)
  | S754_infinity _ | S754_nan => None
  end.

Section Host.
Variable host : endian.

Definition decode_items (d : dtype) (cs : list (list byte)) : items :=
  match d with
  | int8 | int16 => Ints (map (signed host) cs)
  | float64 => Floats (map (binary64 host) cs)
  end.

(** [np.fromstring(s, dtype=d, count=count)] in binary mode: a negative
    count takes the whole string, which must then hold whole items;
    otherwise the string must hold at least [count] items. *)
Definition fromstring (s : list byte) (d : dtype) (count : Z)
  : result ndarray :=
  n <- (if count <? 0 then
          if len s mod itemsize d =? 0 then Ok (len s / itemsize d)
          else Raise ValueError
        else if len s <? count * itemsize d then Raise ValueError
        else Ok count) ;;
  Ok (NDArray d [n]
        (decode_items d (chunks (Z.to_nat (itemsize d)) (Z.to_nat n) s))).
End Host.

(** [np.arange(stop)] for a float [stop]: the floats 0, 1, 2, ... below
    [stop].  The length is the ceiling of [stop] turned into a machine
    integer.  NumPy raises [ValueError] for a NaN ("cannot compute
    length") and for a ceiling that is infinite or outside [-2^63, 2^63]
    (its [OverflowError] is caught and raised again as [ValueError],
    "Maximum allowed size exceeded").  The bound is tested on doubles, so
    that 2^63 itself goes through; its conversion to a 64-bit integer
    gives -2^63 (x86-64), and a length below 1 gives the empty array.  An
    array of 2^60 doubles or more is refused as too big, with
    [ValueError], and one of more than [room] doubles, [room] being what
    the machine can allocate, with [MemoryError]. *)
Definition arange (room : N) (stop : float) : result ndarray :=
  if PrimFloat.is_nan stop then Raise ValueError
  else
    match ceil stop with
    | None => Raise ValueError
    | Some n =>
        if (n <? - 2 ^ 63) || (2 ^ 63 <? n) then Raise ValueError
        else
          let n := if n =? 2 ^ 63 then - 2 ^ 63 else n in
          let n := Z.max n 0 in
          if 2 ^ 63 <=? 8 * n then Raise ValueError
          else if Z.of_N room <? n then Raise MemoryError
          else
            Ok (NDArray float64 [n]
                  (Floats (map (fun i => float_of_int (Z.of_nat i))
                             (seq 0 (Z.to_nat n)))))
    end.

End Np.

(** ** The reader ([lecroy.py]) *)

Module Lecroy.
Import Struct Np.
#[local] Open Scope string_scope.

(** Field name, offset from the descriptor start, [struct] format. *)
Definition lecroy_format : dict (Z * string) :=
  [
    ("descriptor_name", (0, "16s"));
    ("template_name", (16, "16s"));
    ("comm_type", (32, "h"));
    ("comm_order", (34, "h"));
    ("wave_descriptor", (36, "i"));
    ("user_text", (40, "i"));
    ("res_desc1", (44, "i"));
    ("trig_time_array", (48, "i"));
    ("ris_time_array", (52, "i"));
    ("res_array1", (56, "i"));
    ("wave_array1", (60, "i"));
    ("wave_array2", (64, "i"));
    ("res_array2", (68, "i"));
    ("res_array3", (72, "i"));
    ("instrument_name", (76, "16s"));
    ("instrument_number", (92, "i"));
    ("trace_label", (96, "16s"));
    ("reserved1", (112, "h"));
    ("reserved2", (114, "h"));
    ("wave_array_count", (116, "i"));
    ("points_per_screen", (120, "i"));
    ("first_valid_point", (124, "i"));
    ("last_valid_point", (128, "i"));
    ("first_point", (132, "i"));
    ("sparsing_factor", (136, "i"));
    ("segment_index", (140, "i"));
    ("subarray_count", (144, "i"));
    ("sweeps_per_acq", (148, "i"));
    ("points_per_pair", (152, "h"));
    ("pair_offset", (154, "h"));
    ("vertical_gain", (156, "f"));
    ("vertical_offset", (160, "f"));
    ("max_value", (164, "f"));
    ("min_value", (168, "f"));
    ("nominal_bits", (172, "h"));
    ("nom_subarray_count", (174, "h"));
    ("horiz_interval", (176, "f"));
    ("horiz_offset", (180, "d"));
    ("pixel_offset", (188, "d"));
    ("vert_unit", (196, "48s"));
    ("horiz_unit", (244, "48s"));
    ("horiz_uncertainty", (292, "f"));
    ("trigger_time", (296, "dbbbbhh"));
    ("acq_duration", (312, "f"));
    ("record_type", (316, "h"));
    ("processing_done", (318, "h"));
    ("reserved5", (320, "h"));
    ("ris_sweeps", (322, "h"));
    ("time_base", (324, "h"));
    ("vert_coupling", (326, "h"));
    ("probe_att", (328, "f"));
    ("fixed_vert_gain", (332, "h"));
    ("bandwidth_limit", (334, "h"));
    ("vertical_vernier", (336, "f"));
    ("acq_vert_offset", (340, "f"));
    ("wave_source", (344, "h"))
  ].

Definition WAVEDESC : list byte :=
  Eval cbv in list_byte_of_string "WAVEDESC".

(** Lookup tables of the pretty-formatting step. *)
Definition record_types : list string :=
  ["single sweep"; "interleaved"; "histogram"; "graph"; "filter coefficient";
   "complex"; "extrema"; "sequence obsolete"; "centered RIS"; "peak detect"].

Definition processings : list string :=
  ["no processing"; "fir filter"; "interpolated"; "sparsed"; "autoscaled";
   "no result"; "rolling"; "cumulative"].

Definition couplings : list string :=
  ["DC 50 Ohm"; "ground"; "DC 1 MOhm"; "ground"; "AC 1 MOhm"].

Definition magnitudes : list Z := [1; 2; 5; 10; 20; 50; 100; 200; 500].

Definition time_prefixes : list string := ["p"; "n"; "u"; "m"; ""; "k"].

Definition gain_prefixes : list string := ["u"; "m"; ""; "k"].

(** What [read] returns: the metadata alone, or the metadata with the
    trigger times and the samples. *)
Inductive read_result :=
| Metadata (metadata : dict value)
| Full (metadata : dict value) (trigtimes data : ndarray).

(** Last character of a string ([s[-1]]). *)
Fixpoint last_char (s : string) : result ascii :=
  match s with
  | EmptyString => Raise IndexError
  | String c EmptyString => Ok c
  | String _ s' => last_char s'
  end.

Definition get_int (metadata : dict value) (field : string) : result Z :=
  v <- dict_get metadata field ;; as_int v.

Definition get_float (metadata : dict value) (field : string) : result float :=
  v <- dict_get metadata field ;; as_float v.

(** [table[metadata[field]]] stored back under [field]. *)
Definition translate (table : list string) (field : string)
    (metadata : dict value) : result (dict value) :=
  code <- get_int metadata field ;;
  label <- getitem table code ;;
  Ok (dict_set field (VStr label) metadata).

(** ['{} {}<unit>'.format(magnitudes[code % 9], prefixes[code // 9])] *)
Definition engineering (prefixes : list string) (unit : string) (code : Z)
  : result string :=
  val <- getitem magnitudes (code mod 9) ;;
  prefix <- getitem prefixes (code / 9) ;;
  Ok (str_of_int val ++ " " ++ prefix ++ unit).

Definition time_base_label (tb : value) : result string :=
  if py_eq tb (VInt 100) then Ok "external"
  else code <- as_int tb ;; engineering time_prefixes "s/div" code.

Definition fixed_vert_gain_label (fvt : value) : result string :=
  code <- as_int fvt ;; engineering gain_prefixes "V/div" code.

(** [list(t)[:-1]] followed by [.reverse()] *)
Definition trigger_time_list (t : value) : result value :=
  l <- to_list t ;; Ok (VList (rev (slice_to l (-1)))).

(** The block commented "pretty format various metadata". *)
Definition pretty_format (metadata : dict value) : result (dict value) :=
  t <- dict_get metadata "trigger_time" ;;
  tl <- trigger_time_list t ;;
  let metadata := dict_set "trigger_time" tl metadata in
  metadata <- translate record_types "record_type" metadata ;;
  metadata <- translate processings "processing_done" metadata ;;
  metadata <- translate couplings "vert_coupling" metadata ;;
  tb <- dict_get metadata "time_base" ;;
  tbs <- time_base_label tb ;;
  let metadata := dict_set "time_base" (VStr tbs) metadata in
  fvt <- dict_get metadata "fixed_vert_gain" ;;
  fvts <- fixed_vert_gain_label fvt ;;
  Ok (dict_set "fixed_vert_gain" (VStr fvts) metadata).

Section Reader.
(** Byte order of the machine the reader runs on: the native [struct]
    format of the [comm_order] test and the NumPy dtypes use it. *)
Variable host : endian.

(** First loop of [read]: the raw bytes of every field. *)
Definition raw_fields (raw : list byte) (startpos : Z)
  : result (dict value) :=
  for_each
    (fun metadata '(field, (off, fmt)) =>
       fieldlen <- calcsize fmt ;;
       Ok (dict_set field
             (VBytes (slice raw (startpos + off) (startpos + off + fieldlen)))
             metadata))
    lecroy_format [].

(** Byte order character, read from COMM_ORDER: the tuple that
    [struct.unpack] returns is compared with [0]. *)
Definition byte_order_char (metadata : dict value) : result string :=
  v <- dict_get metadata "comm_order" ;;
  b <- as_bytes v ;;
  t <- unpack host "h" b ;;
  Ok (if py_eq (VTuple t) (VInt 0) then ">" else "<").

(** Body of the second loop. *)
Definition unpack_field (boc field : string) (rawval : value)
  : result value :=
  '(_, fmt) <- dict_get lecroy_format field ;;
  b <- as_bytes rawval ;;
  t <- unpack host (boc ++ fmt) b ;;
  val <- (if negb (String.eqb field "trigger_time") then getitem t 0
          else Ok (VTuple t)) ;;
  c <- last_char fmt ;;
  if Ascii.eqb c "s" then
    match val with
    | VBytes s => Ok (VBytes (strip x00 s))
    | _ => Raise AttributeError
    end
  else Ok val.

(** Second loop of [read]: every field unpacked, stored back under its
    key. *)
Definition unpack_fields (boc : string) (metadata : dict value)
  : result (dict value) :=
  for_each
    (fun md '(field, rawval) =>
       val <- unpack_field boc field rawval ;;
       Ok (dict_set field val md))
    metadata metadata.

(** [read] up to the comment "pretty format various metadata": the
    descriptor position and the unpacked fields. *)
Definition unpack_header (raw : list byte) : result (Z * dict value) :=
  let startpos := find raw WAVEDESC in
  metadata <- raw_fields raw startpos ;;
  boc <- byte_order_char metadata ;;
  metadata <- unpack_fields boc metadata ;;
  Ok (startpos, metadata).

(** [read] up to the [if readdata:] test. *)
Definition read_metadata (raw : list byte) : result (Z * dict value) :=
  '(startpos, metadata) <- unpack_header raw ;;
  metadata <- pretty_format metadata ;;
  Ok (startpos, metadata).

Definition trigtimes_startpos (startpos : Z) (metadata : dict value)
  : result Z :=
  wave_descriptor <- get_int metadata "wave_descriptor" ;;
  user_text <- get_int metadata "user_text" ;;
  Ok (startpos + wave_descriptor + user_text).

(** The flat trigger-time array, before pairing.  [int(n / 8)] truncates
    towards zero. *)
Definition read_trigtimes_flat (raw : list byte) (startpos : Z)
    (metadata : dict value) : result ndarray :=
  tpos <- trigtimes_startpos startpos metadata ;;
  trig_time_array <- get_int metadata "trig_time_array" ;;
  fromstring host (slice_from raw tpos) float64 (Z.quot trig_time_array 8).

Definition read_trigtimes (raw : list byte) (startpos : Z)
    (metadata : dict value) : result ndarray :=
  trigtimes <- read_trigtimes_flat raw startpos metadata ;;
  reshape trigtimes 2 F.

(** The samples as stored: [np.int16] if COMM_TYPE is nonzero, else
    [np.int8]. *)
Definition read_samples (raw : list byte) (startpos : Z)
    (metadata : dict value) : result ndarray :=
  tpos <- trigtimes_startpos startpos metadata ;;
  comm_type <- dict_get metadata "comm_type" ;;
  let number_type := if truthy comm_type then int16 else int8 in
  trig_time_array <- get_int metadata "trig_time_array" ;;
  let data_startpos := tpos + trig_time_array in
  wave_array_count <- get_int metadata "wave_array_count" ;;
  fromstring host (slice_from raw data_startpos) number_type wave_array_count.

(** [if scale: data = data * gain; data += offset] *)
Definition scale_data (scale : bool) (metadata : dict value) (data : ndarray)
  : result ndarray :=
  if scale then
    vertical_gain <- get_float metadata "vertical_gain" ;;
    let data := mul_scalar data vertical_gain in
    vertical_offset <- get_float metadata "vertical_offset" ;;
    iadd_scalar data vertical_offset
  else Ok data.

(** [if subarray_count > 1: data = data.reshape(subarray_count, -1)] *)
Definition segment_data (metadata : dict value) (data : ndarray)
  : result ndarray :=
  subarray_count <- get_int metadata "subarray_count" ;;
  if subarray_count >? 1 then reshape data subarray_count C else Ok data.

Definition read_data (raw : list byte) (startpos : Z) (scale : bool)
    (metadata : dict value) : result ndarray :=
  data <- read_samples raw startpos metadata ;;
  data <- scale_data scale metadata data ;;
  segment_data metadata data.

(** [read(fn, readdata, scale)], with the content [raw] of file [fn]. *)
Definition read (raw : list byte) (readdata scale : bool)
  : result read_result :=
  '(startpos, metadata) <- read_metadata raw ;;
  if readdata then
    trigtimes <- read_trigtimes raw startpos metadata ;;
    data <- read_data raw startpos scale metadata ;;
    Ok (Full metadata trigtimes data)
  else Ok (Metadata metadata).

(** *** class Trace *)

Record Trace := mkTrace {
  trace_readdata : bool;
  trace_scale : bool;
  trace_metadata : dict value;
  trace_trigtimes : ndarray;
  trace_data : ndarray;
  trace_time : ndarray
}.

(** Number of doubles of the largest array the machine can allocate.
    Only the time axis is checked against it: its length is set freely by
    the file, where the arrays cut out of the file are no larger than a
    few times the file, which is in memory already. *)
Variable room : N.

(** [Trace.get_times], on the attributes it reads. *)
Definition get_times (data : ndarray) (metadata : dict value)
  : result ndarray :=
  points <- getitem (shape data) (-1) ;;
  dt <- get_float metadata "horiz_interval" ;;
  offset <- get_float metadata "horiz_offset" ;;
  arange room (PrimFloat.add (PrimFloat.mul (float_of_int points) dt) offset).

(** [Trace.__init__]: the three-way unpacking of what [read] returns
    fails on a bare metadata dictionary, which has more than three keys. *)
Definition Trace_init (raw : list byte) (readdata scale : bool)
  : result Trace :=
  r <- read raw readdata scale ;;
  match r with
  | Full metadata trigtimes data =>
      time <- get_times data metadata ;;
      Ok (mkTrace readdata scale metadata trigtimes data time)
  | Metadata _ => Raise ValueError
  end.
End Reader.

End Lecroy.

(** ** Presentation ([pretty_metadata] and [Trace.__repr__])

    What is printed is kept as the list of the [print] calls made, each
    with its three arguments: the key, the padding and the value. *)

Module Pretty.
Import Struct Np Lecroy.
#[local] Open Scope string_scope.

(** The arguments of one [print] call. *)
Definition line : Type := list value.

(** What a function has printed, and how it ended. *)
Definition printing (A : Type) : Type := list line * result A.

Definition main_keys : list string :=
  ["instrument_name"; "trigger_time"; "vert_coupling";
   "time_base"; "horiz_interval"; "horiz_offset";
   "fixed_vert_gain"; "vertical_gain"; "vertical_offset";
   "wave_array_count"; "subarray_count"].

(** [n * ' ']: empty when [n] is not positive. *)
Definition spaces (n : Z) : string :=
  string_of_list_ascii (repeat " "%char (Z.to_nat n)).

(** [len(v)] *)
Definition py_len (v : value) : result Z :=
  match v with
  | VStr s => Ok (Z.of_nat (String.length s))
  | VBytes b => Ok (len b)
  | VTuple l | VList l => Ok (len l)
  | VInt _ | VFloat _ => Raise TypeError
  end.

(** Whether a value can be a dictionary key: lists cannot, nor tuples that
    hold one. *)
Fixpoint hashable (v : value) : bool :=
  match v with
  | VList _ => false
  | VTuple l => forallb hashable l
  | _ => true
  end.

(** [metadata[key]] for any object [key]: the keys of the dictionary are
    strings, and nothing that is not a string equals one. *)
Definition lookup (metadata : dict value) (key : value) : result value :=
  match key with
  | VStr k => dict_get metadata k
  | _ => if hashable key then Raise KeyError else Raise TypeError
  end.

(** The items a [for] loop draws from an object: the items of a list or
    tuple, the one-character strings of a string, the integers of a bytes
    object. *)
Definition iterate (v : value) : result (list value) :=
  match v with
  | VList l | VTuple l => Ok l
  | VStr s => Ok (map (fun c => VStr (String c "")) (list_ascii_of_string s))
  | VBytes b => Ok (map (fun x => VInt (byte_val x)) b)
  | VInt _ | VFloat _ => Raise TypeError
  end.

(** [print(key, (20 - len(key)) * ' ', metadata[key])] *)
Definition print_field (metadata : dict value) (key : value) : result line :=
  n <- py_len key ;;
  v <- lookup metadata key ;;
  Ok [key; VStr (spaces (20 - n)); v].

(** The loop [for key in keys]: what was printed before a raise stays
    printed. *)
Fixpoint print_fields (metadata : dict value) (keys : list value)
  : printing unit :=
  match keys with
  | [] => ([], Ok tt)
  | key :: keys' =>
      match print_field metadata key with
      | Ok l =>
          let '(out, r) := print_fields metadata keys' in (l :: out, r)
      | Raise e => ([], Raise e)
      end
  end.

(** [pretty_metadata(metadata, include)] *)
Definition pretty_metadata (metadata : dict value) (include : value)
  : printing unit :=
  if py_eq include (VList []) then
    print_fields metadata (map VStr (keys metadata))
  else if py_eq include (VStr "main") then
    print_fields metadata (map VStr main_keys)
  else
    match iterate include with
    | Ok keys => print_fields metadata keys
    | Raise e => ([], Raise e)
    end.

(** [repr(trace)]: [Trace.__repr__] returns what [pretty_metadata]
    returns, which is [None] and not a string. *)
Definition Trace_repr (trace : Trace) : printing string :=
  match pretty_metadata (trace_metadata trace) (VStr "main") with
  | (out, Ok _) => (out, Raise TypeError)
  | (out, Raise e) => (out, Raise e)
  end.

End Pretty.

(** ** Sample files

    Trace files built in memory: a 346-byte descriptor that starts with the
    marker, little-endian fields written at the offsets of
    [lecroy_format], followed by the trigger-time and sample bytes. *)

Module Samples.
Import Struct Np Lecroy.

Definition byte_of (z : Z) : byte :=
  match Byte.of_N (Z.to_N (z mod 256)) with
  | Some b => b
  | None => x00
  end.

(** [n] little-endian bytes of [z] (two's complement for a negative [z]). *)
Fixpoint le_bytes (n : nat) (z : Z) : list byte :=
  match n with
  | O => []
  | S n' => byte_of z :: le_bytes n' (z / 256)
  end.

(** Overwrites [buf] from offset [off] on with [bs]. *)
Definition poke (buf : list byte) (off : nat) (bs : list byte) : list byte :=
  firstn off buf ++ bs ++ skipn (off + List.length bs) buf.

Definition descriptor (fields : list (nat * list byte)) : list byte :=
  fold_left (fun buf '(off, bs) => poke buf off bs) fields
    (poke (repeat x00 346) 0 WAVEDESC).

Definition i16 (z : Z) : list byte := le_bytes 2 z.
Definition i32 (z : Z) : list byte := le_bytes 4 z.

(** Bit patterns of a few binary32 and binary64 numbers. *)
Definition f32_half : list byte := i32 0x3f000000.
Definition f32_one : list byte := i32 0x3f800000.
Definition f32_two : list byte := i32 0x40000000.
Definition f32_nan : list byte := i32 0x7fc00000.
Definition f64_one : list byte := le_bytes 8 0x3ff0000000000000.
Definition f64_two : list byte := le_bytes 8 0x4000000000000000.
Definition f64_three : list byte := le_bytes 8 0x4008000000000000.
Definition f64_four : list byte := le_bytes 8 0x4010000000000000.

(** The scenario of the specification: marker at offset 0, [comm_order]
    1, byte samples 1, 2, 3, 4, gain 2.0 and offset 1.0, one segment. *)
Definition scenario : list byte :=
  descriptor [(34, i16 1); (36, i32 346); (116, i32 4); (144, i32 1);
              (156, f32_two); (160, f32_one)]%nat
  ++ [x01; x02; x03; x04].

(** The scenario with a gain that is not a number. *)
Definition nan_gain : list byte :=
  descriptor [(34, i16 1); (36, i32 346); (116, i32 4); (144, i32 1);
              (156, f32_nan); (160, f32_one)]%nat
  ++ [x01; x02; x03; x04].

(** A descriptor written big-endian: [comm_order] 0 and a descriptor length
    of 346 stored most significant byte first. *)
Definition big_endian_file : list byte :=
  descriptor [(34, [x00; x00]); (36, rev (i32 346))]%nat.

(** Forty bytes without the marker. *)
Definition no_marker : list byte := repeat x00 40.

(** Descriptors that differ from an all-zero one in a single code. *)
Definition with_record_type (code : Z) : list byte :=
  descriptor [(34, i16 1); (36, i32 346); (316, i16 code)]%nat.

Definition with_time_base (code : Z) : list byte :=
  descriptor [(34, i16 1); (36, i32 346); (324, i16 code)]%nat.

Definition with_fixed_vert_gain (code : Z) : list byte :=
  descriptor [(34, i16 1); (36, i32 346); (332, i16 code)]%nat.

(** Trigger time 1.0 s, minute 2, hour 3, day 4, month 5, year 2024, and 7
    in the last short. *)
Definition dated : list byte :=
  descriptor [(34, i16 1); (36, i32 346);
              (296, f64_one ++ [x02; x03; x04; x05] ++ i16 2024 ++ i16 7)]%nat.

(** One segment-less trace with the four trigger-time doubles 1, 2, 3, 4
    and no samples. *)
Definition four_times : list byte :=
  descriptor [(34, i16 1); (36, i32 346); (48, i32 32)]%nat
  ++ f64_one ++ f64_two ++ f64_three ++ f64_four.

(** The same descriptor announcing three doubles. *)
Definition three_times : list byte :=
  descriptor [(34, i16 1); (36, i32 346); (48, i32 24)]%nat
  ++ f64_one ++ f64_two ++ f64_three.

(** Two segments announced for three samples. *)
Definition uneven : list byte :=
  descriptor [(34, i16 1); (36, i32 346); (116, i32 3); (144, i32 2)]%nat
  ++ [x01; x02; x03].

(** Two segments of three 16-bit samples, gain 2.0 and offset 1.0. *)
Definition two_segments : list byte :=
  descriptor [(32, i16 1); (34, i16 1); (36, i32 346); (116, i32 6);
              (144, i32 2); (156, f32_two); (160, f32_one)]%nat
  ++ i16 1 ++ i16 2 ++ i16 3 ++ i16 (-1) ++ i16 (-2) ++ i16 300.

(** A sample count of -1, two segments, four bytes of samples. *)
Definition negative_count : list byte :=
  descriptor [(34, i16 1); (36, i32 346); (116, i32 (-1)); (144, i32 2)]%nat
  ++ [x01; x02; x03; x04].

(** Four samples, one every 0.5 s from 1.0 s on. *)
Definition timed : list byte :=
  descriptor [(34, i16 1); (36, i32 346); (116, i32 4); (144, i32 1);
              (156, f32_two); (160, f32_one); (176, f32_half);
              (180, f64_one)]%nat
  ++ [x01; x02; x03; x04].

End Samples.

(** ** Vocabulary of the statements *)

Module Notions.
Import Struct Np Lecroy.

(** [sub] occurs in [s]. *)
Definition occurs (sub s : list byte) : Prop :=
  exists pre post, s = pre ++ sub ++ post.

(** A code is outside a table of [n] entries when Python's indexing finds
    nothing at it, from either end. *)
Definition out_of_range (n code : Z) : Prop := code < - n \/ n <= code.

(** Entry that Python's indexing selects for [code] in [-len, len). *)
Definition label_at (table : list string) (code : Z) : string :=
  nth (Z.to_nat (code mod len table)) table ""%string.

(** The string "<value> <prefix>s/div" with the value picked by
    [code mod 9] and the prefix by [code div 9]. *)
Definition time_base_text (code : Z) : string :=
  (str_of_int (nth (Z.to_nat (code mod 9))
                 [1; 2; 5; 10; 20; 50; 100; 200; 500] 0)
   ++ " "
   ++ nth (Z.to_nat (code / 9)) ["p"; "n"; "u"; "m"; ""; "k"] ""
   ++ "s/div")%string.

(** The (start, duration) pairs a two-row array holds: column [j] of the
    array whose row-major listing is [l], with [cols] columns. *)
Definition columns {A : Type} (cols : nat) (l : list A) : list (A * A) :=
  combine (firstn cols l) (skipn cols l).

(** Pairing by alternation: elements 0 and 1, elements 2 and 3, ... *)
Fixpoint alternate {A : Type} (l : list A) : list (A * A) :=
  match l with
  | x :: y :: l' => (x, y) :: alternate l'
  | _ => []
  end.

(** Pairing the way the specification words it: the sequence is split into
    two equal halves, which are zipped by index. *)
Definition halves {A : Type} (l : list A) : list (A * A) :=
  combine (firstn (List.length l / 2) l) (skipn (List.length l / 2) l).

(** The sample [v] in voltage units. *)
Definition scaled (gain offset : float) (v : Z) : float :=
  PrimFloat.add (PrimFloat.mul (float_of_int v) gain) offset.

(** A loop that replaces every value of a dictionary by its image, as one
    traversal. *)
Fixpoint map_items {V : Type} (f : string -> V -> result V) (d : dict V)
  : result (dict V) :=
  match d with
  | [] => Ok []
  | (k, v) :: d' =>
      v' <- f k v ;; r <- map_items f d' ;; Ok ((k, v') :: r)
  end.

(** Size of a format of the table ([0] stands for a format that does not
    parse; the table has none). *)
Definition fieldlen (fmt : string) : Z :=
  match calcsize fmt with Ok n => n | Raise _ => 0 end.

Definition field_bytes (raw : list byte) (startpos : Z)
    (entry : string * (Z * string)) : string * value :=
  let '(field, (off, fmt)) := entry in
  (field, VBytes (slice raw (startpos + off) (startpos + off + fieldlen fmt))).

(** The metadata of what [read] returns. *)
Definition metadata_of (r : read_result) : dict value :=
  match r with
  | Metadata metadata => metadata
  | Full metadata _ _ => metadata
  end.

(** [z] is a signed integer of [bits] bits. *)
Definition fits (bits z : Z) : Prop := - 2 ^ (bits - 1) <= z < 2 ^ (bits - 1).

(** [code] indexes a table of [n] entries, from the start or from the
    end. *)
Definition indexes (n code : Z) : Prop := - n <= code < n.

(** The string "<value> <prefix>V/div" with the value picked by
    [code mod 9] and the prefix by [code div 9]. *)
Definition fixed_vert_gain_text (code : Z) : string :=
  (str_of_int (nth (Z.to_nat (code mod 9))
                 [1; 2; 5; 10; 20; 50; 100; 200; 500] 0)
   ++ " "
   ++ nth (Z.to_nat (code / 9)) ["u"; "m"; ""; "k"] ""
   ++ "V/div")%string.

(** The fields that [pretty_format] assigns. *)
Definition translated : list string :=
  ["trigger_time"; "record_type"; "processing_done";
   "vert_coupling"; "time_base"; "fixed_vert_gain"]%string.

(** The five codes with which the pretty-formatting step goes through:
    each one indexes its table, [time_base] through [code div 9] unless it
    is 100, [fixed_vert_gain] through [code div 9]. *)
Definition valid_codes (record_type processing_done vert_coupling time_base
    fixed_vert_gain : Z) : Prop :=
  indexes 10 record_type /\ indexes 8 processing_done
  /\ indexes 5 vert_coupling
  /\ (time_base = 100 \/ indexes 54 time_base)
  /\ indexes 36 fixed_vert_gain.

(** What [read] returns, without the sample values: the metadata, the
    trigger times and the shape of the sample array. *)
Definition outline (r : result read_result)
  : result (dict value * option (ndarray * list Z)) :=
  match r with
  | Ok (Metadata metadata) => Ok (metadata, None)
  | Ok (Full metadata trigtimes data) =>
      Ok (metadata, Some (trigtimes, shape data))
  | Raise e => Raise e
  end.

(** The line that [pretty_metadata] prints for an entry of the
    dictionary: the key, spaces up to column 20, the value. *)
Definition field_line (entry : string * value) : Pretty.line :=
  let '(k, v) := entry in
  [VStr k; VStr (Pretty.spaces (20 - Z.of_nat (String.length k))); v].

End Notions.

(** * Properties

    Supporting lemmas come with the part of the reader they describe.  The
    claims are settled by
    - C1: [comm_order_zero_is_read_little_endian];
    - C2: [read_without_marker];
    - C3: [enum_code_translation];
    - C4: [trigger_times_pairing];
    - C5: [scaling_is_linear];
    - C6: [segments_need_exact_division];
    - C7: [time_base_translation];
    - C8: [trigger_time_exposed];
    - C9: [time_axis_of_four_samples];
    - C10: [odd_trigger_count_raises]. *)

Import Struct Np Lecroy Samples Notions.

(** ** Results *)

Section ResultFacts.
Context {A B : Type}.

Lemma bind_Ok (r : result A) (k : A -> result B) (b : B) :
  bind r k = Ok b -> exists a, r = Ok a /\ k a = Ok b.
Proof.
  destruct r as [a | e]; simpl; intros H.
  - exists a. split; [reflexivity | exact H].
  - discriminate H.
Qed.

Lemma bind_Raise (r : result A) (k : A -> result B) (e : exn) :
  r = Raise e -> bind r k = Raise e.
Proof. intros ->. reflexivity. Qed.
End ResultFacts.

(** Splits a hypothesis [x <- r ;; k = Ok b] into its two steps. *)
Ltac bind_inv H :=
  let a := fresh "a" in
  let Ha := fresh "Hstep" in
  apply bind_Ok in H; destruct H as (a & Ha & H).

Ltac bind_inv_as H a Ha :=
  apply bind_Ok in H; destruct H as (a & Ha & H).

(** ** Slices and search *)

Section SliceFacts.
Context {A : Type}.
Implicit Types l : list A.

Lemma len_nonneg l : 0 <= len l.
Proof. unfold len. lia. Qed.

Lemma clamp_range (n i : Z) : 0 <= n -> 0 <= clamp n i <= n.
Proof. unfold clamp. destruct (i <? 0) eqn:E; lia. Qed.

Lemma len_slice l a b :
  len (slice l a b) = Z.max 0 (clamp (len l) b - clamp (len l) a).
Proof.
  unfold slice.
  pose proof (clamp_range (len l) a (len_nonneg l)) as Ha.
  pose proof (clamp_range (len l) b (len_nonneg l)) as Hb.
  unfold len in *. rewrite length_firstn, length_skipn. lia.
Qed.

Lemma len_slice_from l a : len (slice_from l a) = len l - clamp (len l) a.
Proof.
  unfold slice_from.
  pose proof (clamp_range (len l) a (len_nonneg l)) as Ha.
  unfold len in *. rewrite length_skipn. lia.
Qed.

(** In range, indexing is [nth_error]. *)
Lemma getitem_nonneg l (i : Z) :
  0 <= i < len l ->
  exists x, getitem l i = Ok x /\ nth_error l (Z.to_nat i) = Some x.
Proof.
  intros Hi. unfold getitem.
  destruct (i <? 0) eqn:E; [lia |]. rewrite E.
  destruct (nth_error l (Z.to_nat i)) as [x |] eqn:N.
  - exists x. auto.
  - apply nth_error_None in N. unfold len in Hi. lia.
Qed.

(** A negative index in [-len, 0) wraps around to [i + len]. *)
Lemma getitem_wraps l (i : Z) :
  - len l <= i < 0 -> getitem l i = getitem l (i + len l).
Proof.
  intros Hi. unfold getitem. cbv zeta.
  destruct (i <? 0) eqn:E; [| lia].
  destruct (i + len l <? 0) eqn:E'; [lia |]. rewrite E'. reflexivity.
Qed.

Lemma getitem_out_of_range l (i : Z) :
  i < - len l \/ len l <= i -> getitem l i = Raise IndexError.
Proof.
  intros Hi. unfold getitem.
  destruct (i <? 0) eqn:E.
  - destruct (i + len l <? 0) eqn:E'; [reflexivity | lia].
  - rewrite E.
    destruct (nth_error l (Z.to_nat i)) as [x |] eqn:N; [| reflexivity].
    assert (nth_error l (Z.to_nat i) <> None) as N' by congruence.
    apply nth_error_Some in N'. unfold len in Hi. lia.
Qed.
End SliceFacts.

Lemma byte_eqb_eq (x y : byte) : Byte.eqb x y = true <-> x = y.
Proof.
  split.
  - apply Byte.byte_dec_bl.
  - apply Byte.byte_dec_lb.
Qed.

Lemma starts_with_spec (sub s : list byte) :
  starts_with sub s = true <-> exists post, s = sub ++ post.
Proof.
  revert s. induction sub as [| x sub IH]; intros s; simpl.
  - split; [intros _; exists s; reflexivity | reflexivity].
  - destruct s as [| y s].
    + split; [discriminate | intros [post H]; discriminate H].
    + rewrite andb_true_iff, byte_eqb_eq, IH. split.
      * intros [-> [post ->]]. exists post. reflexivity.
      * intros [post H]. injection H as -> ->. split; [reflexivity | eauto].
  Qed.

Lemma find_from_bounds (sub s : list byte) (i : Z) :
  find_from sub s i = -1 \/ i <= find_from sub s i.
Proof.
  revert i. induction s as [| y s IH]; intros i; simpl.
  - destruct (starts_with sub []); [right; lia | left; reflexivity].
  - destruct (starts_with sub (y :: s)); [right; lia |].
    destruct (IH (i + 1)) as [H | H]; [left; exact H | right; lia].
Qed.

Lemma find_from_absent (sub s : list byte) (i : Z) :
  0 <= i ->
  (find_from sub s i = -1 <-> forall k, starts_with sub (skipn k s) = false).
Proof.
  revert i. induction s as [| y s IH]; intros i Hi; simpl.
  - destruct (starts_with sub []) eqn:E.
    + split; [lia |]. intros H. specialize (H 0%nat). simpl in H. congruence.
    + split; [| reflexivity]. intros _ k. destruct k; exact E.
  - destruct (starts_with sub (y :: s)) eqn:E.
    + split; [lia |]. intros H. specialize (H 0%nat). simpl in H. congruence.
    + rewrite IH by lia. split.
      * intros H k. destruct k as [| k]; [exact E | apply H].
      * intros H k. apply (H (S k)).
Qed.

(** [find] answers [-1] exactly when the marker does not occur. *)
Lemma find_absent (s sub : list byte) :
  find s sub = -1 <-> ~ occurs sub s.
Proof.
  unfold find. rewrite find_from_absent by lia. split.
  - intros H (pre & post & E).
    specialize (H (List.length pre)).
    assert (starts_with sub (skipn (List.length pre) s) = true) as T.
    { apply starts_with_spec. exists post. subst s.
      rewrite skipn_app, skipn_all, Nat.sub_diag. reflexivity. }
    congruence.
  - intros H k. destruct (starts_with sub (skipn k s)) eqn:E; [| reflexivity].
    exfalso. apply H. apply starts_with_spec in E. destruct E as [post E].
    exists (firstn k s), post. rewrite <- E. symmetry. apply firstn_skipn.
Qed.

(** ** Dictionaries *)

Section DictFacts.
Context {V : Type}.
Implicit Types d : dict V.

Lemma dict_find_set_same k v d : dict_find k (dict_set k v d) = Some v.
Proof.
  induction d as [| [k' v'] d IH]; simpl.
  - rewrite String.eqb_refl. reflexivity.
  - destruct (String.eqb k k') eqn:E; simpl.
    + rewrite String.eqb_refl. reflexivity.
    + rewrite E. exact IH.
Qed.

Lemma dict_find_set_other k k' v d :
  k <> k' -> dict_find k (dict_set k' v d) = dict_find k d.
Proof.
  intros Hk. induction d as [| [k0 v0] d IH]; simpl.
  - apply String.eqb_neq in Hk. rewrite Hk. reflexivity.
  - destruct (String.eqb k' k0) eqn:E; simpl.
    + apply String.eqb_eq in E. subst k0.
      apply String.eqb_neq in Hk. rewrite Hk. reflexivity.
    + rewrite IH. reflexivity.
Qed.

Lemma dict_get_set_other k k' v d :
  k <> k' -> dict_get (dict_set k' v d) k = dict_get d k.
Proof. intros Hk. unfold dict_get. rewrite dict_find_set_other; auto. Qed.

Lemma dict_set_app_fresh k v v' (done todo : dict V) :
  ~ In k (keys done) ->
  dict_set k v' (done ++ (k, v) :: todo) = done ++ (k, v') :: todo.
Proof.
  induction done as [| [k0 v0] done IH]; simpl; intros Hk.
  - rewrite String.eqb_refl. reflexivity.
  - destruct (String.eqb k k0) eqn:E.
    + apply String.eqb_eq in E. exfalso. apply Hk. left. congruence.
    + rewrite IH; [reflexivity | tauto].
Qed.

Lemma for_each_update_app (f : string -> V -> result V) (todo done : dict V) :
  NoDup (keys (done ++ todo)) ->
  for_each (fun md '(k, v) => v' <- f k v ;; Ok (dict_set k v' md))
    todo (done ++ todo)
  = (r <- map_items f todo ;; Ok (done ++ r)).
Proof.
  revert done. induction todo as [| [k v] todo IH]; intros done ND; simpl.
  - reflexivity.
  - destruct (f k v) as [v' | e]; simpl; [| reflexivity].
    assert (~ In k (keys done)) as Hk.
    { unfold keys in *. rewrite map_app in ND. simpl in ND.
      apply NoDup_remove_2 in ND. intros Hin. apply ND.
      apply in_or_app. left. exact Hin. }
    rewrite dict_set_app_fresh by exact Hk.
    replace (done ++ (k, v') :: todo) with ((done ++ [(k, v')]) ++ todo)
      by (rewrite <- app_assoc; reflexivity).
    rewrite IH.
    + destruct (map_items f todo) as [r | e]; simpl; [| reflexivity].
      rewrite <- app_assoc. reflexivity.
    + unfold keys in *. rewrite <- app_assoc, map_app. simpl.
      rewrite map_app in ND. exact ND.
Qed.

Lemma for_each_update (f : string -> V -> result V) d :
  NoDup (keys d) ->
  for_each (fun md '(k, v) => v' <- f k v ;; Ok (dict_set k v' md)) d d
  = map_items f d.
Proof.
  intros ND. pose proof (for_each_update_app f d [] ND) as H.
  simpl in H. rewrite H. destruct (map_items f d); reflexivity.
Qed.

Lemma map_items_find f d d' k v :
  map_items f d = Ok d' -> dict_find k d = Some v ->
  exists v', f k v = Ok v' /\ dict_find k d' = Some v'.
Proof.
  revert d'. induction d as [| [k0 v0] d IH]; intros d' H F; simpl in *.
  - discriminate F.
  - bind_inv H. bind_inv H. injection H as <-. simpl.
    destruct (String.eqb k k0) eqn:E.
    + apply String.eqb_eq in E. subst k0. injection F as ->. eauto.
    + eapply IH; eauto.
Qed.

Lemma map_items_keys f d d' : map_items f d = Ok d' -> keys d' = keys d.
Proof.
  revert d'. induction d as [| [k0 v0] d IH]; intros d' H; simpl in *.
  - injection H as <-. reflexivity.
  - bind_inv H. bind_inv H. injection H as <-. simpl. f_equal. eauto.
Qed.
End DictFacts.

(** ** The header decoder *)

Section HeaderFacts.
#[local] Open Scope string_scope.
Variable host : endian.

Lemma raw_fields_eq raw startpos :
  raw_fields raw startpos = Ok (map (field_bytes raw startpos) lecroy_format).
Proof. reflexivity. Qed.

Lemma lecroy_format_keys_nodup : NoDup (keys lecroy_format).
Proof.
  apply (NoDup_count_occ' string_dec).
  intros k Hk.
  repeat (destruct Hk as [<- | Hk]; [vm_compute; reflexivity |]).
  destruct Hk.
Qed.

Lemma field_bytes_keys raw startpos :
  keys (map (field_bytes raw startpos) lecroy_format) = keys lecroy_format.
Proof.
  unfold keys. rewrite map_map. apply map_ext.
  intros [field [off fmt]]. reflexivity.
Qed.

(** The test on COMM_ORDER compares a tuple with an integer, so it never
    selects [">"]. *)
Lemma byte_order_char_little metadata boc :
  byte_order_char host metadata = Ok boc -> boc = "<".
Proof.
  unfold byte_order_char. intros H.
  bind_inv H. bind_inv H. bind_inv H. injection H as <-. reflexivity.
Qed.
End HeaderFacts.

Section MetadataFacts.
#[local] Open Scope string_scope.
Variable host : endian.

(** [unpack_header] with its two loops written as traversals and the byte
    order character replaced by the only one the test can select. *)
Lemma unpack_header_eq raw :
  unpack_header host raw =
  (let startpos := find raw WAVEDESC in
   let metadata := map (field_bytes raw startpos) lecroy_format in
   _ <- byte_order_char host metadata ;;
   metadata <- map_items (unpack_field host "<") metadata ;;
   Ok (startpos, metadata)).
Proof.
  unfold unpack_header. cbv zeta. rewrite raw_fields_eq.
  unfold bind at 1.
  destruct (byte_order_char host _) as [boc |] eqn:B; [| reflexivity].
  apply byte_order_char_little in B. subst boc.
  unfold bind at 1 3. unfold unpack_fields.
  rewrite for_each_update; [reflexivity |].
  rewrite field_bytes_keys. apply lecroy_format_keys_nodup.
Qed.

Lemma comm_order_bytes raw startpos :
  dict_get (map (field_bytes raw startpos) lecroy_format) "comm_order"
  = Ok (VBytes (slice raw (startpos + 34) (startpos + 34 + 2))).
Proof. reflexivity. Qed.

Lemma byte_order_char_eq raw startpos :
  byte_order_char host (map (field_bytes raw startpos) lecroy_format) =
  if (len (slice raw (startpos + 34) (startpos + 34 + 2)) =? 2)%Z
  then Ok "<" else Raise StructError.
Proof.
  unfold byte_order_char. rewrite comm_order_bytes.
  cbn [bind as_bytes]. unfold unpack.
  change (parse "h") with (Some (@None endian, [Ch])).
  cbn [is_native].
  change (size_of_items true [Ch]) with 2.
  destruct (len _ =? 2)%Z; reflexivity.
Qed.
End MetadataFacts.


Section FieldFacts.
#[local] Open Scope string_scope.
Variable host : endian.

Lemma dict_find_In {V : Type} (d : dict V) k v :
  dict_find k d = Some v -> In (k, v) d.
Proof.
  induction d as [| [k0 v0] d IH]; simpl; [discriminate |].
  destruct (String.eqb k k0) eqn:E.
  - apply String.eqb_eq in E. intros [= ->]. left. congruence.
  - intros H. right. auto.
Qed.

Lemma field_bytes_find raw startpos field off fmt :
  dict_find field lecroy_format = Some (off, fmt) ->
  dict_find field (map (field_bytes raw startpos) lecroy_format)
  = Some (VBytes (slice raw (startpos + off) (startpos + off + fieldlen fmt))).
Proof.
  intros H. pose proof (dict_find_In _ _ _ H) as Hin.
  repeat (destruct Hin as [Hin | Hin];
          [injection Hin as <- <- <-; reflexivity |]).
  destruct Hin.
Qed.

(** What [unpack_header] stores under a field of the table. *)
Lemma unpack_header_field raw startpos metadata field off fmt :
  unpack_header host raw = Ok (startpos, metadata) ->
  dict_find field lecroy_format = Some (off, fmt) ->
  startpos = find raw WAVEDESC
  /\ exists v,
      unpack_field host "<" field
        (VBytes (slice raw (startpos + off) (startpos + off + fieldlen fmt)))
      = Ok v
      /\ dict_find field metadata = Some v.
Proof.
  intros H Hf. rewrite unpack_header_eq in H. cbv zeta in H.
  bind_inv H. bind_inv H. injection H as <- <-.
  split; [reflexivity |].
  eapply map_items_find; [eassumption |].
  apply field_bytes_find. exact Hf.
Qed.

Lemma slice_whole {A : Type} (l : list A) n : len l = n -> slice l 0 n = l.
Proof.
  intros <-. unfold slice, clamp.
  pose proof (len_nonneg l).
  destruct (len l <? 0)%Z eqn:E; [lia |].
  change (0 <? 0)%Z with false. cbv iota.
  rewrite Z.min_id, Z.min_l by lia. simpl.
  rewrite Z.sub_0_r. unfold len. rewrite Nat2Z.id. apply firstn_all.
Qed.

(** A field whose format is a single number. *)
Lemma unpack_field_scalar field off fmt c (b : list byte) v :
  dict_find field lecroy_format = Some (off, fmt) ->
  parse ("<" ++ fmt) = Some (Some Little, [c]) ->
  last_char fmt <> Ok "s"%char ->
  field <> "trigger_time" ->
  unpack_field host "<" field (VBytes b) = Ok v ->
  len b = code_size c /\ v = decode Little c b.
Proof.
  intros Hf Hp Hl Hn H. unfold unpack_field, dict_get in H.
  rewrite Hf in H. cbn [bind as_bytes] in H. unfold unpack in H.
  rewrite Hp in H. cbn [is_native] in H.
  change (size_of_items false [c]) with (0 + code_size c)%Z in H.
  rewrite Z.add_0_l in H.
  destruct (len b =? code_size c)%Z eqn:E; [| discriminate H].
  apply Z.eqb_eq in E. split; [exact E |].
  apply String.eqb_neq in Hn. rewrite Hn in H.
  cbn [negb bind unpack_items item_start] in H.
  rewrite Z.add_0_l, (slice_whole b _ E) in H.
  change (getitem [decode Little c b] 0) with (Ok (decode Little c b)) in H.
  cbn [bind] in H.
  destruct (last_char fmt) as [ch |] eqn:L; [| discriminate H].
  cbn [bind] in H.
  destruct (Ascii.eqb ch "s") eqn:Es.
  - apply Ascii.eqb_eq in Es. subst ch. contradiction.
  - injection H as <-. reflexivity.
Qed.

(** Integer fields ([h] and [i]) hold the little-endian two's complement
    reading of their bytes. *)
Lemma header_int_field raw startpos metadata field off fmt :
  unpack_header host raw = Ok (startpos, metadata) ->
  dict_find field lecroy_format = Some (off, fmt) ->
  fmt = "h" \/ fmt = "i" ->
  get_int metadata field
  = Ok (signed Little
          (slice raw (startpos + off) (startpos + off + fieldlen fmt))).
Proof.
  intros H Hf Hfmt.
  destruct (unpack_header_field _ _ _ _ _ _ H Hf) as (_ & v & U & F).
  assert (field <> "trigger_time") as Hn.
  { intros ->. destruct Hfmt; subst fmt; discriminate Hf. }
  unfold get_int, dict_get. rewrite F. cbn [bind].
  destruct Hfmt; subst fmt.
  - destruct (unpack_field_scalar _ _ _ Ch _ _ Hf eq_refl
                ltac:(discriminate) Hn U) as [_ ->].
    reflexivity.
  - destruct (unpack_field_scalar _ _ _ Ci _ _ Hf eq_refl
                ltac:(discriminate) Hn U) as [_ ->].
    reflexivity.
Qed.

(** Float fields ([f] and [d]). *)
Lemma header_float_field raw startpos metadata field off fmt :
  unpack_header host raw = Ok (startpos, metadata) ->
  dict_find field lecroy_format = Some (off, fmt) ->
  fmt = "f" \/ fmt = "d" ->
  exists x, get_float metadata field = Ok x.
Proof.
  intros H Hf Hfmt.
  destruct (unpack_header_field _ _ _ _ _ _ H Hf) as (_ & v & U & F).
  assert (field <> "trigger_time") as Hn.
  { intros ->. destruct Hfmt; subst fmt; discriminate Hf. }
  unfold get_float, dict_get. rewrite F. cbn [bind].
  destruct Hfmt; subst fmt.
  - destruct (unpack_field_scalar _ _ _ Cf _ _ Hf eq_refl
                ltac:(discriminate) Hn U) as [_ ->].
    eexists. reflexivity.
  - destruct (unpack_field_scalar _ _ _ Cd _ _ Hf eq_refl
                ltac:(discriminate) Hn U) as [_ ->].
    eexists. reflexivity.
Qed.
End FieldFacts.

Section PrettyFacts.
#[local] Open Scope string_scope.

(** [pretty_format] with every lookup made in the dictionary it starts
    from: the six assignments touch six different keys. *)
Lemma pretty_format_eq metadata :
  pretty_format metadata =
  (t <- dict_get metadata "trigger_time" ;;
   tl <- trigger_time_list t ;;
   c1 <- get_int metadata "record_type" ;;
   l1 <- getitem record_types c1 ;;
   c2 <- get_int metadata "processing_done" ;;
   l2 <- getitem processings c2 ;;
   c3 <- get_int metadata "vert_coupling" ;;
   l3 <- getitem couplings c3 ;;
   tb <- dict_get metadata "time_base" ;;
   tbs <- time_base_label tb ;;
   fvt <- dict_get metadata "fixed_vert_gain" ;;
   fvts <- fixed_vert_gain_label fvt ;;
   Ok (dict_set "fixed_vert_gain" (VStr fvts)
         (dict_set "time_base" (VStr tbs)
            (dict_set "vert_coupling" (VStr l3)
               (dict_set "processing_done" (VStr l2)
                  (dict_set "record_type" (VStr l1)
                     (dict_set "trigger_time" tl metadata))))))).
Proof.
  unfold pretty_format, translate, get_int.
  destruct (dict_get metadata "trigger_time") as [t |]; [| reflexivity].
  cbn [bind].
  destruct (trigger_time_list t) as [tl |]; [| reflexivity].
  cbn [bind].
  rewrite dict_get_set_other by discriminate.
  destruct (dict_get metadata "record_type") as [v1 |]; [| reflexivity].
  cbn [bind].
  destruct (as_int v1) as [c1 |]; [| reflexivity]. cbn [bind].
  destruct (getitem record_types c1) as [l1 |]; [| reflexivity].
  cbn [bind].
  rewrite !dict_get_set_other by discriminate.
  destruct (dict_get metadata "processing_done") as [v2 |]; [| reflexivity].
  cbn [bind].
  destruct (as_int v2) as [c2 |]; [| reflexivity]. cbn [bind].
  destruct (getitem processings c2) as [l2 |]; [| reflexivity].
  cbn [bind].
  rewrite !dict_get_set_other by discriminate.
  destruct (dict_get metadata "vert_coupling") as [v3 |]; [| reflexivity].
  cbn [bind].
  destruct (as_int v3) as [c3 |]; [| reflexivity]. cbn [bind].
  destruct (getitem couplings c3) as [l3 |]; [| reflexivity].
  cbn [bind].
  rewrite !dict_get_set_other by discriminate.
  destruct (dict_get metadata "time_base") as [tb |]; [| reflexivity].
  cbn [bind].
  destruct (time_base_label tb) as [tbs |]; [| reflexivity].
  cbn [bind].
  rewrite !dict_get_set_other by discriminate.
  reflexivity.
Qed.

(** Fields that [pretty_format] does not assign keep their value. *)
Lemma pretty_format_keeps metadata metadata' field :
  pretty_format metadata = Ok metadata' ->
  ~ In field ["trigger_time"; "record_type"; "processing_done";
              "vert_coupling"; "time_base"; "fixed_vert_gain"] ->
  dict_find field metadata' = dict_find field metadata.
Proof.
  intros H Hn. rewrite pretty_format_eq in H.
  repeat bind_inv H. injection H as <-.
  simpl in Hn.
  rewrite !dict_find_set_other by (intros ->; tauto).
  reflexivity.
Qed.

Lemma pretty_format_keeps_int metadata metadata' field :
  pretty_format metadata = Ok metadata' ->
  ~ In field ["trigger_time"; "record_type"; "processing_done";
              "vert_coupling"; "time_base"; "fixed_vert_gain"] ->
  get_int metadata' field = get_int metadata field.
Proof.
  intros H Hn. unfold get_int, dict_get.
  rewrite (pretty_format_keeps _ _ _ H Hn). reflexivity.
Qed.

Lemma pretty_format_keeps_float metadata metadata' field :
  pretty_format metadata = Ok metadata' ->
  ~ In field ["trigger_time"; "record_type"; "processing_done";
              "vert_coupling"; "time_base"; "fixed_vert_gain"] ->
  get_float metadata' field = get_float metadata field.
Proof.
  intros H Hn. unfold get_float, dict_get.
  rewrite (pretty_format_keeps _ _ _ H Hn). reflexivity.
Qed.

Lemma read_metadata_inv host raw startpos metadata :
  read_metadata host raw = Ok (startpos, metadata) ->
  exists unpacked,
    unpack_header host raw = Ok (startpos, unpacked)
    /\ pretty_format unpacked = Ok metadata.
Proof.
  unfold read_metadata. intros H. bind_inv H. destruct a as [s md1].
  bind_inv H. injection H as <- <-. eauto.
Qed.

(** The [trigger_time] field is unpacked as the seven items of its format
    and kept as a tuple. *)
Lemma header_trigger_time host raw startpos metadata :
  unpack_header host raw = Ok (startpos, metadata) ->
  dict_find "trigger_time" metadata
  = Some (VTuple (unpack_items Little false [Cd; Cb; Cb; Cb; Cb; Ch; Ch] 0
                    (slice raw (startpos + 296) (startpos + 296 + 16)))).
Proof.
  intros H.
  destruct (unpack_header_field host raw startpos metadata
              "trigger_time" 296 "dbbbbhh" H eq_refl) as (_ & v & U & F).
  rewrite F. f_equal.
  unfold unpack_field in U.
  change (dict_get lecroy_format "trigger_time")
    with (Ok (296, "dbbbbhh")) in U.
  cbn [bind as_bytes] in U. unfold unpack in U.
  change (parse ("<" ++ "dbbbbhh"))
    with (Some (Some Little, [Cd; Cb; Cb; Cb; Cb; Ch; Ch])) in U.
  cbn [is_native] in U.
  change (size_of_items false [Cd; Cb; Cb; Cb; Cb; Ch; Ch]) with 16 in U.
  change (fieldlen "dbbbbhh") with 16 in U.
  destruct (len _ =? 16)%Z; [| discriminate U].
  cbn [bind] in U.
  change (negb ("trigger_time" =? "trigger_time")) with false in U.
  cbv iota in U. cbn [bind] in U.
  change (last_char "dbbbbhh") with (Ok "h"%char) in U.
  cbn [bind] in U.
  change (Ascii.eqb "h" "s") with false in U. cbv iota in U.
  injection U as <-. reflexivity.
Qed.
End PrettyFacts.

(** ** The locator and the byte order *)

Section LocatorAndByteOrder.
#[local] Open Scope string_scope.

Lemma descriptor_name_first raw startpos :
  map (field_bytes raw startpos) lecroy_format =
  ("descriptor_name", VBytes (slice raw (startpos + 0) (startpos + 0 + 16)))
    :: map (field_bytes raw startpos) (tl lecroy_format).
Proof. reflexivity. Qed.

Lemma unpack_descriptor_name_short host (b : list byte) :
  len b <> 16 ->
  unpack_field host "<" "descriptor_name" (VBytes b) = Raise StructError.
Proof.
  intros Hb. unfold unpack_field.
  change (dict_get lecroy_format "descriptor_name") with (Ok (0, "16s")).
  cbn [bind as_bytes]. unfold unpack.
  change (parse ("<" ++ "16s")) with (Some (Some Little, [Cs 16])).
  cbn [is_native]. change (size_of_items false [Cs 16]) with 16.
  apply Z.eqb_neq in Hb. rewrite Hb. reflexivity.
Qed.

(** C1 on the code.  The byte order test of [read] compares the tuple that
    [struct.unpack] returns with the integer 0, which is never equal:
    whatever [comm_order] holds, the fields are unpacked with ["<"], and
    every integer field is the little-endian reading of its bytes.  On a
    big-endian descriptor whose [comm_order] is 0 and whose
    [wave_descriptor] bytes spell 346, the reader returns 1510014976. *)
Theorem comm_order_zero_is_read_little_endian :
  (forall host raw,
      unpack_header host raw =
      (let startpos := find raw WAVEDESC in
       metadata <- raw_fields raw startpos ;;
       _ <- byte_order_char host metadata ;;
       metadata <- unpack_fields host "<" metadata ;;
       Ok (startpos, metadata)))
  /\ (forall host raw startpos metadata field off fmt,
         unpack_header host raw = Ok (startpos, metadata) ->
         dict_find field lecroy_format = Some (off, fmt) ->
         fmt = "h" \/ fmt = "i" ->
         get_int metadata field
         = Ok (signed Little
                 (slice raw (startpos + off) (startpos + off + fieldlen fmt))))
  /\ (forall host,
         exists metadata,
           read host big_endian_file false false = Ok (Metadata metadata)
           /\ dict_find "comm_order" metadata = Some (VInt 0)
           /\ dict_find "wave_descriptor" metadata = Some (VInt 1510014976))
  /\ signed Big (slice big_endian_file 36 40) = 346.
Proof.
  split; [| split; [| split]].
  - intros host raw. unfold unpack_header. cbv zeta.
    destruct (raw_fields raw _) as [md |]; [| reflexivity].
    cbn [bind].
    destruct (byte_order_char host md) as [boc |] eqn:B; [| reflexivity].
    apply byte_order_char_little in B. subst boc. reflexivity.
  - intros host raw startpos metadata field off fmt.
    apply header_int_field.
  - intros host. eexists. split; [| split].
    + destruct host; vm_compute; reflexivity.
    + reflexivity.
    + reflexivity.
  - reflexivity.
Qed.

(** C2, as the code has it.  When the marker does not occur, [find]
    returns -1 without raising, the field slices are taken from that
    position, and [read] fails with [struct.error] while unpacking them:
    nothing is returned. *)
Theorem read_without_marker host raw readdata scale :
  ~ occurs WAVEDESC raw ->
  find raw WAVEDESC = -1
  /\ read host raw readdata scale = Raise StructError.
Proof.
  intros Habs. apply find_absent in Habs. split; [exact Habs |].
  unfold read, read_metadata. rewrite unpack_header_eq. cbv zeta.
  rewrite Habs.
  rewrite byte_order_char_eq.
  destruct (len (slice raw (-1 + 34) (-1 + 34 + 2)) =? 2)%Z eqn:E;
    [| reflexivity].
  cbn [bind]. rewrite descriptor_name_first. cbn [map_items].
  rewrite unpack_descriptor_name_short; [reflexivity |].
  apply Z.eqb_eq in E. rewrite len_slice in *.
  pose proof (len_nonneg raw). unfold clamp in *. simpl in *. lia.
Qed.

(** Forty zero bytes: no marker, position -1, [struct.error]. *)
Lemma read_without_marker_witness :
  ~ occurs WAVEDESC no_marker
  /\ find no_marker WAVEDESC = -1
  /\ read Little no_marker true true = Raise StructError.
Proof.
  assert (~ occurs WAVEDESC no_marker) as H
      by (apply find_absent; reflexivity).
  split; [exact H |].
  exact (read_without_marker Little no_marker true true H).
Defined.

(** C2 as stated fails: on forty bytes without the marker the exception
    is not a [FormatError]. *)
Lemma missing_marker_is_not_format_error :
  ~ occurs WAVEDESC no_marker
  /\ ~ (exists e, read Little no_marker false true = Raise e
                  /\ exn_name e = "FormatError").
Proof.
  split.
  - apply find_absent. reflexivity.
  - intros (e & H & N). vm_compute in H. injection H as <-.
    discriminate N.
Qed.
End LocatorAndByteOrder.

Section TranslatorTheorems.
#[local] Open Scope string_scope.

Lemma getitem_in_range {A : Type} (l : list A) (d : A) (i : Z) :
  - len l <= i < len l ->
  getitem l i = Ok (nth (Z.to_nat (i mod len l)) l d).
Proof.
  intros Hi.
  assert (forall j, 0 <= j < len l ->
                    getitem l j = Ok (nth (Z.to_nat j) l d)) as Hpos.
  { intros j Hj. destruct (getitem_nonneg l j Hj) as (x & -> & N).
    f_equal. symmetry. apply nth_error_nth. exact N. }
  destruct (Z_lt_ge_dec i 0) as [Hneg | Hnn].
  - rewrite getitem_wraps by lia.
    replace (i mod len l) with (i + len l).
    + apply Hpos. lia.
    + apply Z.mod_unique with (q := -1); lia.
  - rewrite Z.mod_small by lia. apply Hpos. lia.
Qed.

Lemma getitem_Ok_range {A : Type} (l : list A) (i : Z) (x : A) :
  getitem l i = Ok x -> - len l <= i < len l.
Proof.
  intros H.
  destruct (Z_lt_ge_dec i (- len l)) as [Hlo | Hlo].
  - rewrite getitem_out_of_range in H by lia. discriminate H.
  - destruct (Z_lt_ge_dec i (len l)) as [Hhi | Hhi]; [lia |].
    rewrite getitem_out_of_range in H by lia. discriminate H.
Qed.

(** C3, as the code has it.  The three enum fields are translated by
    plain list indexing.  A code at or above the table length, or below
    minus the length, makes [read] raise [IndexError]; whenever the
    metadata is returned, each code lies in [-len, len) and the label is
    the table entry Python's indexing selects, so a negative code wraps
    around to entry [code + len] and no default is ever substituted. *)
Theorem enum_code_translation host raw startpos unpacked c1 c2 c3 :
  unpack_header host raw = Ok (startpos, unpacked) ->
  get_int unpacked "record_type" = Ok c1 ->
  get_int unpacked "processing_done" = Ok c2 ->
  get_int unpacked "vert_coupling" = Ok c3 ->
  (len record_types = 10 /\ len processings = 8 /\ len couplings = 5)
  /\ (out_of_range 10 c1 \/ out_of_range 8 c2 \/ out_of_range 5 c3 ->
      forall readdata scale,
        read host raw readdata scale = Raise IndexError)
  /\ (forall metadata,
         read_metadata host raw = Ok (startpos, metadata) ->
         (-10 <= c1 < 10
          /\ dict_find "record_type" metadata
             = Some (VStr (label_at record_types c1)))
         /\ (-8 <= c2 < 8
             /\ dict_find "processing_done" metadata
                = Some (VStr (label_at processings c2)))
         /\ (-5 <= c3 < 5
             /\ dict_find "vert_coupling" metadata
                = Some (VStr (label_at couplings c3)))).
Proof.
  intros H H1 H2 H3. split; [repeat split |]. split.
  - intros Hout readdata scale.
    unfold read, read_metadata. rewrite H. cbn [bind].
    rewrite pretty_format_eq. unfold dict_get.
    rewrite (header_trigger_time _ _ _ _ H). cbn [bind trigger_time_list to_list].
    rewrite H1. cbn [bind].
    destruct (Z_lt_ge_dec c1 (-10)) as [L1 | L1];
      [rewrite getitem_out_of_range by (left; exact L1); reflexivity |].
    destruct (Z_lt_ge_dec c1 10) as [U1 | U1];
      [| rewrite getitem_out_of_range by (right; change (len record_types) with 10; lia);
         reflexivity].
    rewrite (getitem_in_range record_types "" c1)
      by (change (len record_types) with 10; lia).
    cbn [bind]. rewrite H2. cbn [bind].
    destruct (Z_lt_ge_dec c2 (-8)) as [L2 | L2];
      [rewrite getitem_out_of_range by (left; exact L2); reflexivity |].
    destruct (Z_lt_ge_dec c2 8) as [U2 | U2];
      [| rewrite getitem_out_of_range by (right; change (len processings) with 8; lia);
         reflexivity].
    rewrite (getitem_in_range processings "" c2)
      by (change (len processings) with 8; lia).
    cbn [bind]. rewrite H3. cbn [bind].
    rewrite getitem_out_of_range; [reflexivity |].
    change (len couplings) with 5. unfold out_of_range in Hout. lia.
  - intros metadata Hm.
    apply read_metadata_inv in Hm. destruct Hm as (unpacked' & Hu & Hp).
    rewrite H in Hu. injection Hu as <-.
    rewrite pretty_format_eq in Hp.
    bind_inv_as Hp t Ht. bind_inv_as Hp tlist Htl.
    bind_inv_as Hp c1' Hc1. rewrite H1 in Hc1. injection Hc1 as <-.
    bind_inv_as Hp l1 Hl1.
    bind_inv_as Hp c2' Hc2. rewrite H2 in Hc2. injection Hc2 as <-.
    bind_inv_as Hp l2 Hl2.
    bind_inv_as Hp c3' Hc3. rewrite H3 in Hc3. injection Hc3 as <-.
    bind_inv_as Hp l3 Hl3.
    repeat bind_inv Hp. injection Hp as <-.
    pose proof (getitem_Ok_range _ _ _ Hl1) as R1.
    pose proof (getitem_Ok_range _ _ _ Hl2) as R2.
    pose proof (getitem_Ok_range _ _ _ Hl3) as R3.
    rewrite (getitem_in_range _ "" _ R1) in Hl1.
    rewrite (getitem_in_range _ "" _ R2) in Hl2.
    rewrite (getitem_in_range _ "" _ R3) in Hl3.
    injection Hl1 as <-. injection Hl2 as <-. injection Hl3 as <-.
    repeat split; try exact (proj1 R1); try exact (proj2 R1);
      try exact (proj1 R2); try exact (proj2 R2);
      try exact (proj1 R3); try exact (proj2 R3).
    + rewrite !dict_find_set_other by discriminate.
      apply dict_find_set_same.
    + rewrite !dict_find_set_other by discriminate.
      apply dict_find_set_same.
    + rewrite !dict_find_set_other by discriminate.
      apply dict_find_set_same.
Qed.
End TranslatorTheorems.

Section TranslatorWitnesses.
#[local] Open Scope string_scope.

(** A descriptor whose [record_type] is 10. *)
Lemma enum_code_translation_witness :
  exists unpacked,
    unpack_header Little (with_record_type 10) = Ok (0, unpacked)
    /\ get_int unpacked "record_type" = Ok 10
    /\ get_int unpacked "processing_done" = Ok 0
    /\ get_int unpacked "vert_coupling" = Ok 0
    /\ forall readdata scale,
        read Little (with_record_type 10) readdata scale = Raise IndexError.
Proof.
  eexists. split; [vm_compute; reflexivity |].
  split; [reflexivity |]. split; [reflexivity |]. split; [reflexivity |].
  refine (proj1 (proj2 (enum_code_translation Little (with_record_type 10)
                          0 _ 10 0 0 _ _ _ _)) _);
    try (vm_compute; reflexivity).
  left. right. lia.
Defined.

(** The scenario of the specification for [record_type]: codes 3 and 9
    select "graph" and "peak detect". *)
Example record_type_codes_3_and_9 :
  (exists metadata,
      read Little (with_record_type 3) false true = Ok (Metadata metadata)
      /\ dict_find "record_type" metadata = Some (VStr "graph"))
  /\ (exists metadata,
         read Little (with_record_type 9) false true = Ok (Metadata metadata)
         /\ dict_find "record_type" metadata = Some (VStr "peak detect")).
Proof.
  split; eexists; (split; [vm_compute; reflexivity | reflexivity]).
Qed.

(** C3 as stated fails twice: code 10 raises [IndexError], not a
    [FormatError], and code -1 wraps around to the last entry. *)
Lemma enum_lookup_wraps_and_raises_index_error :
  (exists e, read Little (with_record_type 10) false true = Raise e
             /\ exn_name e <> "FormatError")
  /\ (exists metadata,
         read Little (with_record_type (-1)) false true
         = Ok (Metadata metadata)
         /\ dict_find "record_type" metadata = Some (VStr "peak detect")).
Proof.
  split.
  - exists IndexError. split; [vm_compute; reflexivity | discriminate].
  - eexists. split; [vm_compute; reflexivity | reflexivity].
Qed.
End TranslatorWitnesses.

Section TimeBaseAndTriggerTime.
#[local] Open Scope string_scope.

Lemma getitem_nth {A : Type} (l : list A) (d : A) (i : Z) :
  0 <= i < len l -> getitem l i = Ok (nth (Z.to_nat i) l d).
Proof.
  intros Hi. destruct (getitem_nonneg l i Hi) as (x & -> & N).
  f_equal. symmetry. apply nth_error_nth. exact N.
Qed.

Lemma get_int_find metadata field code :
  get_int metadata field = Ok code ->
  dict_find field metadata = Some (VInt code).
Proof.
  unfold get_int, dict_get. intros H.
  destruct (dict_find field metadata) as [v |]; [| discriminate H].
  destruct v; try discriminate H. injection H as ->. reflexivity.
Qed.

Lemma time_base_label_in_range code :
  0 <= code < 54 -> time_base_label (VInt code) = Ok (time_base_text code).
Proof.
  intros Hc. unfold time_base_label. cbn [py_eq].
  destruct (code =? 100)%Z eqn:E; [lia |].
  cbn [as_int bind]. unfold engineering.
  rewrite (getitem_nth magnitudes 0)
    by (change (len magnitudes) with 9; apply Z.mod_pos_bound; lia).
  cbn [bind].
  rewrite (getitem_nth time_prefixes "").
  - reflexivity.
  - change (len time_prefixes) with 6. split.
    + apply Z.div_pos; lia.
    + apply Z.div_lt_upper_bound; lia.
Qed.

Lemma pretty_format_time_base unpacked metadata code :
  get_int unpacked "time_base" = Ok code ->
  pretty_format unpacked = Ok metadata ->
  exists label,
    time_base_label (VInt code) = Ok label
    /\ dict_find "time_base" metadata = Some (VStr label).
Proof.
  intros Hc Hp. apply get_int_find in Hc.
  rewrite pretty_format_eq in Hp.
  bind_inv_as Hp t Ht. bind_inv_as Hp tlist Htl.
  bind_inv_as Hp c1 Hc1. bind_inv_as Hp l1 Hl1.
  bind_inv_as Hp c2 Hc2. bind_inv_as Hp l2 Hl2.
  bind_inv_as Hp c3 Hc3. bind_inv_as Hp l3 Hl3.
  bind_inv_as Hp tb Htb. bind_inv_as Hp tbs Htbs.
  bind_inv_as Hp fvt Hfvt. bind_inv_as Hp fvts Hfvts.
  injection Hp as <-.
  unfold dict_get in Htb. rewrite Hc in Htb. injection Htb as <-.
  exists tbs. split; [exact Htbs |].
  rewrite dict_find_set_other by discriminate.
  apply dict_find_set_same.
Qed.

(** C7.  A [time_base] code of 100 is translated to "external" whatever
    the other fields hold; a code in [0, 54), the range in which
    [code div 9] selects one of the six prefixes, is translated to
    "<value> <prefix>s/div" with the value selected by [code mod 9] and
    the prefix by [code div 9]. *)
Theorem time_base_translation unpacked code :
  get_int unpacked "time_base" = Ok code ->
  (code = 100 ->
     time_base_label (VInt code) = Ok "external"
     /\ forall metadata,
         pretty_format unpacked = Ok metadata ->
         dict_find "time_base" metadata = Some (VStr "external"))
  /\ (0 <= code < 54 ->
        time_base_label (VInt code) = Ok (time_base_text code)
        /\ forall metadata,
            pretty_format unpacked = Ok metadata ->
            dict_find "time_base" metadata
            = Some (VStr (time_base_text code))).
Proof.
  intros Hc. split.
  - intros ->. split; [reflexivity |].
    intros metadata Hp.
    destruct (pretty_format_time_base _ _ _ Hc Hp) as (label & L & F).
    change (time_base_label (VInt 100)) with (Ok "external") in L.
    injection L as <-. exact F.
  - intros Hr. split; [apply time_base_label_in_range; exact Hr |].
    intros metadata Hp.
    destruct (pretty_format_time_base _ _ _ Hc Hp) as (label & L & F).
    rewrite time_base_label_in_range in L by exact Hr.
    injection L as <-. exact F.
Qed.

(** A descriptor whose [time_base] is 100. *)
Lemma time_base_translation_witness :
  exists unpacked metadata,
    unpack_header Little (with_time_base 100) = Ok (0, unpacked)
    /\ get_int unpacked "time_base" = Ok 100
    /\ pretty_format unpacked = Ok metadata
    /\ dict_find "time_base" metadata = Some (VStr "external").
Proof.
  pose (unpacked := match unpack_header Little (with_time_base 100) with
                    | Ok (_, md) => md
                    | Raise _ => []
                    end).
  pose (metadata := match pretty_format unpacked with
                    | Ok md => md
                    | Raise _ => []
                    end).
  assert (get_int unpacked "time_base" = Ok 100) as Hc by reflexivity.
  assert (pretty_format unpacked = Ok metadata) as Hp
      by (vm_compute; reflexivity).
  exists unpacked, metadata.
  split; [vm_compute; reflexivity |].
  split; [exact Hc |]. split; [exact Hp |].
  exact (proj2 (proj1 (time_base_translation unpacked 100 Hc) eq_refl)
           metadata Hp).
Defined.

(** The whole reader on two descriptors: code 100, and code 23, that is
    value index 5 and prefix index 2. *)
Example time_base_codes_100_and_23 :
  (exists metadata,
      read Little (with_time_base 100) false true = Ok (Metadata metadata)
      /\ dict_find "time_base" metadata = Some (VStr "external"))
  /\ (exists metadata,
         read Little (with_time_base 23) false true = Ok (Metadata metadata)
         /\ dict_find "time_base" metadata = Some (VStr "50 us/div")).
Proof.
  split; eexists; (split; [vm_compute; reflexivity | reflexivity]).
Qed.

Lemma slice_to_minus_one {A : Type} (l : list A) :
  slice_to l (-1) = removelast l.
Proof.
  unfold slice_to, clamp. change (-1 <? 0)%Z with true. cbv iota.
  rewrite removelast_firstn_len. f_equal. unfold len. lia.
Qed.

(** C8, as the code has it.  The format [dbbbbhh] of [trigger_time] has
    seven items (one double, four bytes, two shorts).  The tuple is
    exposed as a list without its last item and in reverse order: six
    items. *)
Theorem trigger_time_exposed host raw startpos unpacked metadata :
  unpack_header host raw = Ok (startpos, unpacked) ->
  pretty_format unpacked = Ok metadata ->
  let b := slice raw (startpos + 296) (startpos + 296 + 16) in
  let d := VFloat (binary64 Little (slice b 0 8)) in
  let b1 := VInt (signed Little (slice b 8 9)) in
  let b2 := VInt (signed Little (slice b 9 10)) in
  let b3 := VInt (signed Little (slice b 10 11)) in
  let b4 := VInt (signed Little (slice b 11 12)) in
  let h1 := VInt (signed Little (slice b 12 14)) in
  let h2 := VInt (signed Little (slice b 14 16)) in
  let t := [d; b1; b2; b3; b4; h1; h2] in
  dict_find "trigger_time" unpacked = Some (VTuple t)
  /\ dict_find "trigger_time" metadata = Some (VList (rev (removelast t)))
  /\ rev (removelast t) = [h1; b4; b3; b2; b1; d]
  /\ List.length t = 7%nat
  /\ List.length (rev (removelast t)) = 6%nat.
Proof.
  intros H Hp. cbv zeta.
  pose proof (header_trigger_time _ _ _ _ H) as Ht.
  split; [exact Ht |]. split; [| repeat split].
  rewrite pretty_format_eq in Hp. unfold dict_get in Hp. rewrite Ht in Hp.
  cbn [bind] in Hp. unfold trigger_time_list in Hp at 1.
  cbn [to_list bind] in Hp. rewrite slice_to_minus_one in Hp.
  repeat bind_inv Hp. injection Hp as <-.
  rewrite !dict_find_set_other by discriminate.
  apply dict_find_set_same.
Qed.

(** A dated descriptor: the year comes first, the seconds last, and the 7
    of the last short is gone. *)
Lemma trigger_time_exposed_witness :
  exists unpacked metadata,
    unpack_header Little dated = Ok (0, unpacked)
    /\ pretty_format unpacked = Ok metadata
    /\ dict_find "trigger_time" unpacked
       = Some (VTuple [VFloat 1; VInt 2; VInt 3; VInt 4; VInt 5;
                       VInt 2024; VInt 7])
    /\ dict_find "trigger_time" metadata
       = Some (VList [VInt 2024; VInt 5; VInt 4; VInt 3; VInt 2; VFloat 1]).
Proof.
  pose (unpacked := match unpack_header Little dated with
                    | Ok (_, md) => md
                    | Raise _ => []
                    end).
  pose (metadata := match pretty_format unpacked with
                    | Ok md => md
                    | Raise _ => []
                    end).
  assert (unpack_header Little dated = Ok (0, unpacked)) as Hu
      by (vm_compute; reflexivity).
  assert (pretty_format unpacked = Ok metadata) as Hp
      by (vm_compute; reflexivity).
  exists unpacked, metadata.
  split; [exact Hu |]. split; [exact Hp |].
  destruct (trigger_time_exposed Little dated 0 unpacked metadata Hu Hp)
    as (Ht & Hm & _).
  split; [exact Ht | exact Hm].
Defined.

(** C8 as stated fails on the counts: the unpacked tuple has seven items,
    not eight, and the exposed list six, not seven. *)
Lemma trigger_time_has_seven_items :
  exists unpacked metadata t l,
    unpack_header Little dated = Ok (0, unpacked)
    /\ pretty_format unpacked = Ok metadata
    /\ dict_find "trigger_time" unpacked = Some (VTuple t)
    /\ dict_find "trigger_time" metadata = Some (VList l)
    /\ List.length t <> 8%nat
    /\ List.length l <> 7%nat.
Proof.
  do 4 eexists. split; [vm_compute; reflexivity |].
  split; [vm_compute; reflexivity |].
  split; [reflexivity |]. split; [reflexivity |].
  split; discriminate.
Qed.
End TimeBaseAndTriggerTime.

(** ** Arrays *)

Section ArrayFacts.
Variable host : endian.

Lemma length_chunks n count (s : list byte) :
  List.length (chunks n count s) = count.
Proof.
  revert s. induction count as [| count IH]; intros s; simpl;
    [reflexivity | rewrite IH; reflexivity].
Qed.

Lemma nth_error_chunks n count (s : list byte) k :
  (k < count)%nat ->
  nth_error (chunks n count s) k = Some (firstn n (skipn (k * n) s)).
Proof.
  revert s k. induction count as [| count IH]; intros s k Hk; [lia |].
  destruct k as [| k]; simpl.
  - reflexivity.
  - rewrite IH by lia. rewrite skipn_skipn. do 3 f_equal. lia.
Qed.

Lemma count_decode_items d cs :
  count_items (decode_items host d cs) = len cs.
Proof. destruct d; simpl; unfold len; rewrite length_map; reflexivity. Qed.

Lemma fromstring_Ok s d count :
  0 <= count -> count * itemsize d <= len s ->
  fromstring host s d count
  = Ok (NDArray d [count]
          (decode_items host d
             (chunks (Z.to_nat (itemsize d)) (Z.to_nat count) s))).
Proof.
  intros H0 Hlen. unfold fromstring.
  destruct (count <? 0) eqn:E; [lia |].
  destruct (len s <? count * itemsize d) eqn:E'; [lia |].
  reflexivity.
Qed.

Lemma fromstring_short s d count :
  0 <= count -> len s < count * itemsize d ->
  fromstring host s d count = Raise ValueError.
Proof.
  intros H0 Hlen. unfold fromstring.
  destruct (count <? 0) eqn:E; [lia |].
  destruct (len s <? count * itemsize d) eqn:E'; [reflexivity | lia].
Qed.

(** What [fromstring] returns has the requested dtype, one dimension, as
    many items as its shape says, and for a count that is not negative as
    many as requested. *)
Lemma fromstring_inv s d count a :
  fromstring host s d count = Ok a ->
  exists n,
    a = NDArray d [n]
          (decode_items host d (chunks (Z.to_nat (itemsize d)) (Z.to_nat n) s))
    /\ 0 <= n /\ size a = n /\ (0 <= count -> n = count).
Proof.
  unfold fromstring. intros H. bind_inv_as H n Hn.
  injection H as <-. exists n.
  assert (0 <= n /\ (0 <= count -> n = count)) as [Hn0 Hc].
  { destruct (count <? 0) eqn:E.
    - destruct (len s mod itemsize d =? 0); [| discriminate Hn].
      injection Hn as <-. split; [| lia].
      apply Z.div_pos; [apply len_nonneg | destruct d; simpl; lia].
    - destruct (len s <? count * itemsize d); [discriminate Hn |].
      injection Hn as <-. lia. }
  split; [reflexivity |]. split; [exact Hn0 |]. split; [| exact Hc].
  unfold size. cbn [elems]. rewrite count_decode_items.
  unfold len. rewrite length_chunks. lia.
Qed.

Lemma fromstring_Raise s d count e :
  fromstring host s d count = Raise e -> e = ValueError.
Proof.
  unfold fromstring.
  destruct (count <? 0).
  - destruct (len s mod itemsize d =? 0); cbn [bind]; congruence.
  - destruct (len s <? count * itemsize d); cbn [bind]; congruence.
Qed.

Lemma reshape_Ok a rows o :
  0 < rows -> size a mod rows = 0 ->
  reshape a rows o
  = Ok (NDArray (dt a) [rows; size a / rows] (regroup o rows (elems a))).
Proof.
  intros Hr Hm. unfold reshape.
  destruct (rows <=? 0) eqn:E; [lia |].
  rewrite Hm. reflexivity.
Qed.

Lemma reshape_uneven a rows o :
  0 < rows -> size a mod rows <> 0 -> reshape a rows o = Raise ValueError.
Proof.
  intros Hr Hm. unfold reshape.
  destruct (rows <=? 0) eqn:E; [lia |].
  apply Z.eqb_neq in Hm. rewrite Hm. reflexivity.
Qed.

Lemma reshape_Raise a rows o e :
  reshape a rows o = Raise e -> e = ValueError.
Proof.
  unfold reshape. destruct (rows <=? 0); [congruence |].
  destruct (size a mod rows =? 0); congruence.
Qed.

(** [every k r l] lists [l[r]], [l[r + k]], [l[r + 2k]], ... *)
Lemma nth_error_every {A : Type} (k : nat) (l : list A) :
  (1 <= k)%nat ->
  forall r j, nth_error (every k r l) j = nth_error l (r + j * k).
Proof.
  intros Hk. induction l as [| x l IH]; intros r j.
  - simpl. destruct j; destruct (r + _)%nat; reflexivity.
  - destruct r as [| r]; simpl.
    + destruct j as [| j]; [reflexivity |].
      simpl. rewrite IH.
      replace (k + j * k)%nat with (S (k - 1 + j * k)) by lia.
      reflexivity.
    + apply IH.
Qed.

Lemma length_every_two {A : Type} (m : nat) (l : list A) :
  List.length l = (2 * m)%nat ->
  List.length (every 2 0 l) = m /\ List.length (every 2 1 l) = m.
Proof.
  revert l. induction m as [| m IH]; intros l Hl.
  - destruct l; [split; reflexivity | discriminate Hl].
  - destruct l as [| x [| y l]]; try (simpl in Hl; lia).
    simpl in Hl. destruct (IH l ltac:(lia)) as [H0 H1].
    simpl. split; f_equal; assumption.
Qed.
End ArrayFacts.

Section TriggerTimes.
#[local] Open Scope string_scope.
Variable host : endian.

Lemma combine_every_two {A : Type} (l : list A) :
  combine (every 2 0 l) (every 2 1 l) = alternate l.
Proof.
  assert (forall n (l : list A), (List.length l <= n)%nat ->
            combine (every 2 0 l) (every 2 1 l) = alternate l) as H.
  { induction n as [| n IH]; intros l' Hl.
    - destruct l'; [reflexivity | simpl in Hl; lia].
    - destruct l' as [| x [| y l']]; try reflexivity.
      simpl. f_equal. apply IH. simpl in Hl. lia. }
  apply (H (List.length l)). lia.
Qed.

Lemma columns_by_columns {A : Type} (m : nat) (l : list A) :
  List.length l = (2 * m)%nat -> columns m (by_columns 2 l) = alternate l.
Proof.
  intros Hl. destruct (length_every_two m l Hl) as [H0 H1].
  unfold columns, by_columns. simpl. rewrite app_nil_r.
  rewrite firstn_app, skipn_app, H0, Nat.sub_diag. simpl.
  rewrite firstn_all2, skipn_all2 by lia. rewrite app_nil_r. simpl.
  apply combine_every_two.
Qed.

Lemma read_trigtimes_flat_eq raw startpos metadata wd ut tta :
  get_int metadata "wave_descriptor" = Ok wd ->
  get_int metadata "user_text" = Ok ut ->
  get_int metadata "trig_time_array" = Ok tta ->
  read_trigtimes_flat host raw startpos metadata
  = fromstring host (slice_from raw (startpos + wd + ut)) float64
      (Z.quot tta 8).
Proof.
  intros Hwd Hut Htta. unfold read_trigtimes_flat, trigtimes_startpos.
  rewrite Hwd, Hut. cbn [bind]. rewrite Htta. reflexivity.
Qed.

(** C4, as the code has it.  The trigger times are [trig_time_array / 8]
    doubles read from [base + wave_descriptor + user_text] on; the
    two-row array is filled column by column, so that the pair in column
    [j] is made of doubles [2j] and [2j + 1] of the file: the pairing
    alternates element by element. *)
Theorem trigger_times_pairing raw startpos metadata wd ut tta m :
  read_metadata host raw = Ok (startpos, metadata) ->
  get_int metadata "wave_descriptor" = Ok wd ->
  get_int metadata "user_text" = Ok ut ->
  get_int metadata "trig_time_array" = Ok tta ->
  0 <= tta -> tta / 8 = 2 * m ->
  8 * (tta / 8) <= len (slice_from raw (startpos + wd + ut)) ->
  let tail := slice_from raw (startpos + wd + ut) in
  let flat := map (binary64 host) (chunks 8 (Z.to_nat (tta / 8)) tail) in
  exists rows,
    read_trigtimes host raw startpos metadata
    = Ok (NDArray float64 [2; m] (Floats rows))
    /\ (forall scale metadata' trigtimes data,
           read host raw true scale = Ok (Full metadata' trigtimes data) ->
           trigtimes = NDArray float64 [2; m] (Floats rows))
    /\ len flat = tta / 8
    /\ (forall k, (k < Z.to_nat (tta / 8))%nat ->
           nth_error flat k
           = Some (binary64 host (firstn 8 (skipn (k * 8) tail))))
    /\ columns (Z.to_nat m) rows = alternate flat
    /\ (forall j, (j < Z.to_nat m)%nat ->
           nth_error rows j = nth_error flat (2 * j)
           /\ nth_error rows (Z.to_nat m + j) = nth_error flat (2 * j + 1)).
Proof.
  intros Hm Hwd Hut Htta H0 Heven Hlen. cbv zeta.
  set (tail := slice_from raw (startpos + wd + ut)) in *.
  set (flat := map (binary64 host) (chunks 8 (Z.to_nat (tta / 8)) tail)).
  assert (0 <= m) as Hm0.
  { assert (0 <= tta / 8) by (apply Z.div_pos; lia). lia. }
  assert (List.length flat = (2 * Z.to_nat m)%nat) as Hflat.
  { unfold flat. rewrite length_map, length_chunks. lia. }
  assert (read_trigtimes host raw startpos metadata
          = Ok (NDArray float64 [2; m] (Floats (by_columns 2 flat)))) as Hr.
  { unfold read_trigtimes.
    rewrite (read_trigtimes_flat_eq _ _ _ _ _ _ Hwd Hut Htta).
    rewrite Z.quot_div_nonneg by lia. fold tail.
    rewrite fromstring_Ok by (simpl; lia).
    cbn [bind]. rewrite reshape_Ok.
    - unfold size. cbn [elems dt decode_items count_items regroup].
      change (Z.to_nat (itemsize float64)) with 8%nat. fold flat.
      unfold len. rewrite Hflat.
      replace (Z.of_nat (2 * Z.to_nat m) / 2) with m; [reflexivity |].
      rewrite Nat2Z.inj_mul, Z2Nat.id by lia.
      rewrite Z.mul_comm, Z.div_mul by lia. reflexivity.
    - lia.
    - unfold size. cbn [elems decode_items count_items].
      unfold len. rewrite length_map, length_chunks.
      rewrite Z2Nat.id by lia. rewrite Heven.
      rewrite Z.mul_comm. apply Z.mod_mul. lia. }
  exists (by_columns 2 flat).
  split; [exact Hr |]. split; [| split; [| split; [| split]]].
  - intros scale metadata' trigtimes data Hread.
    unfold read in Hread. rewrite Hm in Hread. cbn [bind] in Hread.
    rewrite Hr in Hread. cbn [bind] in Hread.
    bind_inv Hread. injection Hread as _ <- _. reflexivity.
  - unfold len. rewrite Hflat. lia.
  - intros k Hk. unfold flat.
    rewrite nth_error_map, nth_error_chunks by exact Hk. reflexivity.
  - apply columns_by_columns. exact Hflat.
  - intros j Hj.
    destruct (length_every_two _ _ Hflat) as [L0 L1].
    unfold by_columns. simpl. rewrite app_nil_r. split.
    + rewrite nth_error_app1 by lia.
      rewrite nth_error_every by lia. f_equal. lia.
    + rewrite nth_error_app2 by lia.
      rewrite L0. replace (Z.to_nat m + j - Z.to_nat m)%nat with j by lia.
      rewrite nth_error_every by lia. f_equal. lia.
Qed.
End TriggerTimes.

Section TriggerTimesFailure.
#[local] Open Scope string_scope.
Variable host : endian.

(** Integer fields that [pretty_format] leaves alone are integers in the
    metadata [read] returns. *)
Lemma metadata_int_field raw startpos metadata field off fmt :
  read_metadata host raw = Ok (startpos, metadata) ->
  dict_find field lecroy_format = Some (off, fmt) ->
  fmt = "h" \/ fmt = "i" ->
  ~ In field ["trigger_time"; "record_type"; "processing_done";
              "vert_coupling"; "time_base"; "fixed_vert_gain"] ->
  get_int metadata field
  = Ok (signed Little
          (slice raw (startpos + off) (startpos + off + fieldlen fmt))).
Proof.
  intros Hm Hf Hfmt Hn.
  apply read_metadata_inv in Hm. destruct Hm as (unpacked & Hu & Hp).
  rewrite (pretty_format_keeps_int _ _ _ Hp Hn).
  eapply header_int_field; eassumption.
Qed.

Lemma metadata_float_field raw startpos metadata field off fmt :
  read_metadata host raw = Ok (startpos, metadata) ->
  dict_find field lecroy_format = Some (off, fmt) ->
  fmt = "f" \/ fmt = "d" ->
  exists x, get_float metadata field = Ok x.
Proof.
  intros Hm Hf Hfmt.
  apply read_metadata_inv in Hm. destruct Hm as (unpacked & Hu & Hp).
  rewrite (pretty_format_keeps_float _ _ _ Hp).
  - eapply header_float_field; eassumption.
  - intros Hin. simpl in Hin.
    repeat (destruct Hin as [<- | Hin];
            [destruct Hfmt; subst fmt; discriminate Hf |]).
    exact Hin.
Qed.

(** C10.  When [trig_time_array] is a positive multiple of 8 but not of
    16, the number of doubles is odd and [read] with [readdata] raises
    [ValueError] in the trigger-time step: whenever the doubles are
    read, which is the case when the file holds them, the two-row
    [reshape] is what raises. *)
Theorem odd_trigger_count_raises raw startpos metadata tta scale :
  read_metadata host raw = Ok (startpos, metadata) ->
  get_int metadata "trig_time_array" = Ok tta ->
  0 < tta -> tta mod 8 = 0 -> tta mod 16 <> 0 ->
  read host raw true scale = Raise ValueError
  /\ read_trigtimes host raw startpos metadata = Raise ValueError
  /\ (forall flat,
         read_trigtimes_flat host raw startpos metadata = Ok flat ->
         size flat = tta / 8 /\ size flat mod 2 = 1
         /\ reshape flat 2 F = Raise ValueError)
  /\ (forall wd ut,
         get_int metadata "wave_descriptor" = Ok wd ->
         get_int metadata "user_text" = Ok ut ->
         tta <= len (slice_from raw (startpos + wd + ut)) ->
         exists flat,
           read_trigtimes_flat host raw startpos metadata = Ok flat).
Proof.
  intros Hm Htta Hpos H8 H16.
  pose proof (metadata_int_field raw startpos metadata "wave_descriptor"
                36 "i" Hm eq_refl (or_intror eq_refl)
                ltac:(simpl; intuition discriminate)) as Hwd.
  pose proof (metadata_int_field raw startpos metadata "user_text"
                40 "i" Hm eq_refl (or_intror eq_refl)
                ltac:(simpl; intuition discriminate)) as Hut.
  pose proof (read_trigtimes_flat_eq host raw startpos metadata _ _ _
                Hwd Hut Htta) as Hflat.
  rewrite Z.quot_div_nonneg in Hflat by lia.
  assert (tta = 8 * (tta / 8)) as Hdiv
      by (apply Z.div_exact; [lia | exact H8]).
  assert ((tta / 8) mod 2 = 1) as Hodd.
  { destruct (Z.mod_pos_bound (tta / 8) 2 ltac:(lia)) as [Hlo Hhi].
    assert ((tta / 8) mod 2 <> 0) as Hne.
    { intros Hz. apply H16.
      apply Z.div_exact in Hz; [| lia].
      rewrite Hdiv, Hz, Z.mul_assoc. change (8 * 2) with 16.
      rewrite Z.mul_comm. apply Z.mod_mul. lia. }
    lia. }
  assert (forall flat,
             read_trigtimes_flat host raw startpos metadata = Ok flat ->
             size flat = tta / 8 /\ size flat mod 2 = 1
             /\ reshape flat 2 F = Raise ValueError) as Hre.
  { intros flat Hf. rewrite Hflat in Hf.
    apply fromstring_inv in Hf. destruct Hf as (n & _ & _ & Hsz & Hn).
    assert (0 <= tta / 8) as Hq by (apply Z.div_pos; lia).
    specialize (Hn Hq). rewrite Hn in Hsz.
    split; [exact Hsz |]. split; [rewrite Hsz; exact Hodd |].
    apply reshape_uneven; [lia |]. rewrite Hsz. lia. }
  assert (read_trigtimes host raw startpos metadata = Raise ValueError)
    as Hraise.
  { unfold read_trigtimes.
    destruct (read_trigtimes_flat host raw startpos metadata)
      as [flat | e] eqn:Hf; cbn [bind].
    - apply (Hre flat eq_refl).
    - symmetry in Hflat. apply fromstring_Raise in Hflat. congruence. }
  split; [| split; [exact Hraise | split; [exact Hre |]]].
  - unfold read. rewrite Hm. cbn [bind]. rewrite Hraise. reflexivity.
  - intros wd ut Hwd' Hut' Hlen.
    rewrite Hwd in Hwd'. rewrite Hut in Hut'.
    injection Hwd' as <-. injection Hut' as <-.
    rewrite Hflat. rewrite fromstring_Ok.
    + eexists. reflexivity.
    + apply Z.div_pos; lia.
    + change (itemsize float64) with 8. lia.
Qed.

(** Every error of the trigger-time step is a [ValueError]. *)
Lemma read_trigtimes_Raise raw startpos metadata e :
  read_metadata host raw = Ok (startpos, metadata) ->
  read_trigtimes host raw startpos metadata = Raise e -> e = ValueError.
Proof.
  intros Hm.
  pose proof (metadata_int_field raw startpos metadata "wave_descriptor"
                36 "i" Hm eq_refl (or_intror eq_refl)
                ltac:(simpl; intuition discriminate)) as Hwd.
  pose proof (metadata_int_field raw startpos metadata "user_text"
                40 "i" Hm eq_refl (or_intror eq_refl)
                ltac:(simpl; intuition discriminate)) as Hut.
  pose proof (metadata_int_field raw startpos metadata "trig_time_array"
                48 "i" Hm eq_refl (or_intror eq_refl)
                ltac:(simpl; intuition discriminate)) as Htta.
  unfold read_trigtimes.
  rewrite (read_trigtimes_flat_eq host _ _ _ _ _ _ Hwd Hut Htta).
  destruct (fromstring _ _ _ _) as [flat | e'] eqn:Hf; cbn [bind].
  - apply reshape_Raise.
  - intros [= <-]. eapply fromstring_Raise. exact Hf.
Qed.
End TriggerTimesFailure.

Section TriggerTimesWitnesses.
#[local] Open Scope string_scope.

(** Four doubles 1, 2, 3, 4: the pairs are (1, 2) and (3, 4). *)
Lemma trigger_times_pairing_witness :
  exists rows,
    read_trigtimes Little four_times 0
      match read_metadata Little four_times with
      | Ok (_, md) => md
      | Raise _ => []
      end
    = Ok (NDArray float64 [2; 2] (Floats rows))
    /\ columns 2 rows = [(1, 2); (3, 4)]%float.
Proof.
  pose (metadata := match read_metadata Little four_times with
                    | Ok (_, md) => md
                    | Raise _ => []
                    end).
  assert (read_metadata Little four_times = Ok (0, metadata)) as Hm
      by (vm_compute; reflexivity).
  destruct (trigger_times_pairing Little four_times 0 metadata 346 0 32 2
              Hm eq_refl eq_refl eq_refl ltac:(lia) eq_refl
              ltac:(vm_compute; discriminate))
    as (rows & Hr & _ & _ & _ & Hc & _).
  exists rows. split; [exact Hr |].
  change (Z.to_nat 2) with 2%nat in Hc. rewrite Hc.
  vm_compute. reflexivity.
Defined.

(** Three doubles. *)
Lemma odd_trigger_count_raises_witness :
  read Little three_times true true = Raise ValueError.
Proof.
  pose (metadata := match read_metadata Little three_times with
                    | Ok (_, md) => md
                    | Raise _ => []
                    end).
  assert (read_metadata Little three_times = Ok (0, metadata)) as Hm
      by (vm_compute; reflexivity).
  exact (proj1 (odd_trigger_count_raises Little three_times 0 metadata 24
                  true Hm eq_refl ltac:(lia) eq_refl
                  ltac:(vm_compute; discriminate))).
Defined.

(** C4 as stated fails: with the doubles 1, 2, 3, 4 in the file, the
    pairs are (1, 2) and (3, 4), whereas splitting the sequence into two
    halves and zipping them would give (1, 3) and (2, 4). *)
Lemma trigger_times_are_not_split_in_halves :
  exists metadata trigtimes data rows,
    read Little four_times true true = Ok (Full metadata trigtimes data)
    /\ elems trigtimes = Floats rows
    /\ map (binary64 Little) (chunks 8 4 (slice_from four_times 346))
       = [1; 2; 3; 4]%float
    /\ columns 2 rows = [(1, 2); (3, 4)]%float
    /\ halves [1; 2; 3; 4]%float = [(1, 3); (2, 4)]%float
    /\ columns 2 rows <> halves [1; 2; 3; 4]%float.
Proof.
  do 4 eexists. split; [vm_compute; reflexivity |].
  split; [reflexivity |]. split; [vm_compute; reflexivity |].
  split; [reflexivity |]. split; [reflexivity |].
  intros E.
  apply (f_equal (fun l => match l with
                           | (_, y) :: _ => PrimFloat.eqb y 2
                           | [] => false
                           end)) in E.
  vm_compute in E. discriminate E.
Qed.
End TriggerTimesWitnesses.

Section Scaling.
#[local] Open Scope string_scope.
Variable host : endian.

Lemma read_samples_inv raw startpos metadata a :
  read_samples host raw startpos metadata = Ok a ->
  exists d n wac cs,
    get_int metadata "wave_array_count" = Ok wac
    /\ a = NDArray d [n] (Ints (map (signed host) cs))
    /\ size a = n /\ (0 <= wac -> n = wac).
Proof.
  unfold read_samples. intros H.
  bind_inv_as H tpos Htpos. bind_inv_as H ct Hct.
  bind_inv_as H tta Htta. bind_inv_as H wac Hwac.
  apply fromstring_inv in H. destruct H as (n & Ha & _ & Hsz & Hn).
  destruct (truthy ct); (do 4 eexists; split; [exact Hwac |];
    split; [exact Ha |]; split; [exact Hsz | exact Hn]).
Qed.

Lemma scale_data_Ok scale metadata a samples g o :
  elems a = Ints samples ->
  get_float metadata "vertical_gain" = Ok g ->
  get_float metadata "vertical_offset" = Ok o ->
  scale_data scale metadata a
  = Ok (if scale
        then NDArray float64 (shape a) (Floats (map (scaled g o) samples))
        else a).
Proof.
  intros Ha Hg Ho. unfold scale_data. destruct scale; [| reflexivity].
  rewrite Hg. cbn [bind]. rewrite Ho. cbn [bind].
  unfold iadd_scalar, mul_scalar. cbn [elems dt shape]. rewrite Ha.
  rewrite map_map. reflexivity.
Qed.

Lemma segment_data_elems metadata a data :
  segment_data metadata a = Ok data -> elems data = elems a.
Proof.
  unfold segment_data. intros H. bind_inv_as H n Hn.
  destruct (n >? 1)%Z.
  - unfold reshape in H. destruct (n <=? 0)%Z; [discriminate H |].
    destruct (size a mod n =? 0)%Z; [| discriminate H].
    injection H as <-. reflexivity.
  - injection H as <-. reflexivity.
Qed.

(** C6, as the code has it.  With more than one segment and a sample
    count that is not negative, the samples form [subarray_count] rows of
    [wave_array_count / subarray_count] samples when the division is
    exact, in the order they were read; otherwise [reshape] raises
    [ValueError]. *)
Theorem segments_need_exact_division raw startpos metadata trigtimes a
    scale n wac :
  read_metadata host raw = Ok (startpos, metadata) ->
  read_trigtimes host raw startpos metadata = Ok trigtimes ->
  read_samples host raw startpos metadata = Ok a ->
  get_int metadata "subarray_count" = Ok n -> 1 < n ->
  get_int metadata "wave_array_count" = Ok wac -> 0 <= wac ->
  size a = wac
  /\ (wac mod n = 0 ->
      exists data scaled_a,
        read host raw true scale = Ok (Full metadata trigtimes data)
        /\ scale_data scale metadata a = Ok scaled_a
        /\ shape data = [n; wac / n]
        /\ elems data = elems scaled_a
        /\ size data = wac)
  /\ (wac mod n <> 0 -> read host raw true scale = Raise ValueError).
Proof.
  intros Hm Ht Hs Hn Hn1 Hwac Hwac0.
  destruct (read_samples_inv _ _ _ _ Hs)
    as (d & k & wac' & cs & Hwac' & Ha & Hsz & Hk).
  rewrite Hwac in Hwac'. injection Hwac' as <-.
  specialize (Hk Hwac0). rewrite Hk in Hsz.
  destruct (metadata_float_field host raw startpos metadata
              "vertical_gain" 156 "f" Hm eq_refl (or_introl eq_refl))
    as (g & Hg).
  destruct (metadata_float_field host raw startpos metadata
              "vertical_offset" 160 "f" Hm eq_refl (or_introl eq_refl))
    as (o & Ho).
  assert (elems a = Ints (map (signed host) cs)) as He
      by (rewrite Ha; reflexivity).
  pose proof (scale_data_Ok scale _ _ _ _ _ He Hg Ho) as Hsc.
  set (a' := if scale
             then NDArray float64 (shape a)
                    (Floats (map (scaled g o) (map (signed host) cs)))
             else a) in Hsc.
  assert (size a' = wac) as Hsz'.
  { unfold a'. destruct scale; [| exact Hsz].
    unfold size in *. rewrite He in Hsz. cbn [elems count_items] in *.
    unfold len in *. rewrite length_map. exact Hsz. }
  assert (read host raw true scale
          = (data <- reshape a' n C ;; Ok (Full metadata trigtimes data)))
    as Hread.
  { unfold read. rewrite Hm. cbn [bind]. rewrite Ht. cbn [bind].
    unfold read_data. rewrite Hs. cbn [bind]. rewrite Hsc. cbn [bind].
    unfold segment_data. rewrite Hn. cbn [bind].
    destruct (n >? 1)%Z eqn:E; [reflexivity | lia]. }
  split; [exact Hsz |]. split.
  - intros Hdiv. rewrite Hread.
    rewrite reshape_Ok by (rewrite ?Hsz'; lia). cbn [bind].
    eexists. exists a'. split; [reflexivity |]. split; [exact Hsc |].
    cbn [shape elems regroup]. rewrite Hsz'.
    split; [reflexivity |]. split; [reflexivity |].
    unfold size. cbn [elems]. exact Hsz'.
  - intros Hdiv. rewrite Hread.
    rewrite reshape_uneven by (rewrite ?Hsz'; lia). reflexivity.
Qed.
End Scaling.

Section DataWitnesses.
#[local] Open Scope string_scope.

(** Six 16-bit samples in two segments, scaled. *)
Lemma segments_need_exact_division_witness :
  exists metadata trigtimes data,
    read Little two_segments true true = Ok (Full metadata trigtimes data)
    /\ shape data = [2; 3]
    /\ elems data = Floats [3; 5; 7; -1; -3; 601]%float.
Proof.
  pose (metadata := match read_metadata Little two_segments with
                    | Ok (_, md) => md
                    | Raise _ => []
                    end).
  pose (trigtimes := NDArray float64 [2; 0] (Floats [])).
  pose (a := NDArray int16 [6] (Ints [1; 2; 3; -1; -2; 300])).
  assert (read_metadata Little two_segments = Ok (0, metadata)) as Hm
      by (vm_compute; reflexivity).
  assert (read_trigtimes Little two_segments 0 metadata = Ok trigtimes)
    as Ht by (vm_compute; reflexivity).
  assert (read_samples Little two_segments 0 metadata = Ok a) as Hs
      by (vm_compute; reflexivity).
  destruct (segments_need_exact_division Little two_segments 0 metadata
              trigtimes a true 2 6 Hm Ht Hs eq_refl ltac:(lia) eq_refl
              ltac:(lia))
    as (_ & Hex & _).
  destruct (Hex eq_refl) as (data & a' & Hread & Hsc & Hshape & Hel & _).
  exists metadata, trigtimes, data.
  split; [exact Hread |]. split; [exact Hshape |].
  rewrite Hel.
  assert (Ok (NDArray float64 [6] (Floats [3; 5; 7; -1; -3; 601]%float))
          = Ok a') as E by (rewrite <- Hsc; vm_compute; reflexivity).
  injection E as <-. reflexivity.
Defined.

(** C6 as stated fails twice: three samples in two segments raise
    [ValueError], not a [FormatError]; and with a sample count of -1 the
    reader takes every remaining byte, here four, and the reshape into
    two rows succeeds although -1 is not a multiple of 2. *)
Lemma uneven_segments_raise_value_error :
  (exists e, read Little uneven true true = Raise e
             /\ exn_name e <> "FormatError")
  /\ (exists metadata trigtimes data,
         read Little negative_count true false
         = Ok (Full metadata trigtimes data)
         /\ get_int metadata "subarray_count" = Ok 2
         /\ get_int metadata "wave_array_count" = Ok (-1)
         /\ (-1) mod 2 <> 0
         /\ shape data = [2; 2]
         /\ size data <> -1).
Proof.
  split.
  - exists ValueError. split; [vm_compute; reflexivity | discriminate].
  - do 3 eexists. split; [vm_compute; reflexivity |].
    repeat split; try reflexivity; vm_compute; discriminate.
Qed.
End DataWitnesses.

Section TimeAxis.
#[local] Open Scope string_scope.

(** A stop whose ceiling is a length the machine can allocate. *)
Lemma arange_Ok (room : N) (stop : float) (n : Z) :
  PrimFloat.is_nan stop = false ->
  ceil stop = Some n ->
  0 <= n < 2 ^ 60 ->
  n <= Z.of_N room ->
  arange room stop
  = Ok (NDArray float64 [n]
          (Floats (map (fun i => float_of_int (Z.of_nat i))
                     (seq 0 (Z.to_nat n))))).
Proof.
  intros Hnan Hceil Hn Hroom. unfold arange. rewrite Hnan, Hceil.
  destruct ((n <? - 2 ^ 63) || (2 ^ 63 <? n))%Z eqn:E1.
  { apply orb_true_iff in E1. destruct E1 as [E1 | E1]; lia. }
  destruct (n =? 2 ^ 63)%Z eqn:E2; [lia |].
  cbv zeta. rewrite Z.max_l by lia.
  destruct (2 ^ 63 <=? 8 * n)%Z eqn:E3; [lia |].
  destruct (Z.of_N room <? n)%Z eqn:E4; [lia |].
  reflexivity.
Qed.

(** What [get_times] returns is an index range: element [i] is [i]. *)
Lemma get_times_range (room : N) data metadata time :
  get_times room data metadata = Ok time ->
  exists n,
    time = NDArray float64 [n]
             (Floats (map (fun i => float_of_int (Z.of_nat i))
                        (seq 0 (Z.to_nat n)))).
Proof.
  unfold get_times. intros H.
  bind_inv_as H points Hpoints. bind_inv_as H step Hstep.
  bind_inv_as H offset Hoffset.
  unfold arange in H. destruct (PrimFloat.is_nan _); [discriminate H |].
  destruct (ceil _) as [n |]; [| discriminate H].
  destruct (_ || _); [discriminate H |].
  cbv zeta in H.
  destruct (2 ^ 63 <=? _)%Z; [discriminate H |].
  destruct (Z.of_N room <? _)%Z; [discriminate H |].
  injection H as <-. eexists. reflexivity.
Qed.

(** C9 on the code.  For four samples taken every 0.5 s from 1.0 s on,
    [Trace] computes [np.arange(4 * 0.5 + 1.0)], the three numbers 0, 1,
    2, where [index * horiz_interval + horiz_offset] gives the four
    numbers 1.0, 1.5, 2.0, 2.5.  This is so on every machine that has
    room for the three numbers. *)
Theorem time_axis_of_four_samples (room : N) :
  (3 <= room)%N ->
  exists trace,
    Trace_init Little room timed true true = Ok trace
    /\ get_float (trace_metadata trace) "horiz_interval"
       = Ok 0.5%float
    /\ get_float (trace_metadata trace) "horiz_offset" = Ok 1%float
    /\ shape (trace_data trace) = [4]
    /\ trace_time trace
       = NDArray float64 [3] (Floats [0; 1; 2]%float)
    /\ map (fun i => PrimFloat.add
                       (PrimFloat.mul (float_of_int i) 0.5) 1)%float
         [0; 1; 2; 3]
       = [1; 1.5; 2; 2.5]%float.
Proof.
  intros Hroom.
  pose (metadata := match read_metadata Little timed with
                    | Ok (_, md) => md
                    | Raise _ => []
                    end).
  pose (trigtimes := NDArray float64 [2; 0] (Floats [])).
  pose (data := NDArray float64 [4] (Floats [3; 5; 7; 9]%float)).
  pose (time := NDArray float64 [3] (Floats [0; 1; 2]%float)).
  assert (read Little timed true true = Ok (Full metadata trigtimes data))
    as Hread by (vm_compute; reflexivity).
  assert (get_float metadata "horiz_interval" = Ok 0.5%float) as Hdt
      by (vm_compute; reflexivity).
  assert (get_float metadata "horiz_offset" = Ok 1%float) as Hoffset
      by (vm_compute; reflexivity).
  assert (PrimFloat.add (PrimFloat.mul (float_of_int 4) 0.5) 1 = 3%float)
    as Hstop by (vm_compute; reflexivity).
  exists (mkTrace true true metadata trigtimes data time).
  split.
  - unfold Trace_init. rewrite Hread. cbn [bind]. unfold get_times.
    change (getitem (shape data) (-1)) with (Ok 4 : result Z).
    rewrite Hdt, Hoffset. cbn [bind]. rewrite Hstop.
    rewrite (arange_Ok room 3%float 3);
      [reflexivity | vm_compute; reflexivity | vm_compute; reflexivity
      | lia | lia].
  - cbn [trace_metadata trace_data trace_time].
    split; [exact Hdt |]. split; [exact Hoffset |].
    repeat split; reflexivity.
Qed.
End TimeAxis.

(** A machine with room for three numbers and no more. *)
Lemma time_axis_of_four_samples_witness :
  exists trace,
    Trace_init Little 3 timed true true = Ok trace
    /\ trace_time trace = NDArray float64 [3] (Floats [0; 1; 2]%float).
Proof.
  destruct (time_axis_of_four_samples 3 ltac:(lia))
    as (trace & Hinit & _ & _ & _ & Htime & _).
  exists trace. split; [exact Hinit | exact Htime].
Defined.

(** * Further properties of the reader *)

Import Pretty.

(** ** The header: which files decode *)

Section HeaderDecodes.
#[local] Open Scope string_scope.
Variable host : endian.

Lemma slice_exact {A : Type} (l : list A) (a b : Z) :
  0 <= a -> a <= b -> b <= len l -> len (slice l a b) = b - a.
Proof.
  intros Ha Hab Hb. rewrite len_slice. unfold clamp.
  destruct (a <? 0)%Z eqn:Ea; [lia |].
  destruct (b <? 0)%Z eqn:Eb; [lia |].
  lia.
Qed.

Lemma slice_short {A : Type} (l : list A) (a b : Z) :
  0 <= a -> a < b -> len l < b -> len (slice l a b) < b - a.
Proof.
  intros Ha Hab Hb. rewrite len_slice. unfold clamp.
  destruct (a <? 0)%Z eqn:Ea; [lia |].
  destruct (b <? 0)%Z eqn:Eb; [lia |].
  pose proof (len_nonneg l). lia.
Qed.

(** Unpacking a field whose format parses to the items [c :: cs]: the only
    way to fail is a buffer of the wrong size. *)
Lemma unpack_field_parsed field off fmt c cs ch n (b : list byte) :
  dict_find field lecroy_format = Some (off, fmt) ->
  parse ("<" ++ fmt) = Some (Some Little, c :: cs) ->
  size_of_items false (c :: cs) = n ->
  last_char fmt = Ok ch ->
  (ch = "s"%char -> field <> "trigger_time" /\ exists k, c = Cs k) ->
  (len b = n -> exists v, unpack_field host "<" field (VBytes b) = Ok v)
  /\ (len b <> n ->
      unpack_field host "<" field (VBytes b) = Raise StructError).
Proof.
  intros Hf Hp <- Hl Hs. unfold unpack_field, dict_get. rewrite Hf.
  cbn [bind as_bytes]. unfold unpack. rewrite Hp. cbn [is_native].
  split; intros Hlen.
  - apply Z.eqb_eq in Hlen. rewrite Hlen. cbn [bind unpack_items].
    rewrite Hl.
    destruct (Ascii.eqb ch "s") eqn:E.
    + apply Ascii.eqb_eq in E. destruct (Hs E) as [Hn [k ->]].
      apply String.eqb_neq in Hn. rewrite Hn. cbn [negb].
      change (getitem (?x :: ?t) 0) with (Ok x).
      cbn [bind decode]. rewrite E. eexists. reflexivity.
    + destruct (negb (field =? "trigger_time")).
      * change (getitem (?x :: ?t) 0) with (Ok x).
        cbn [bind]. rewrite E. eexists. reflexivity.
      * cbn [bind]. rewrite E. eexists. reflexivity.
  - apply Z.eqb_neq in Hlen. rewrite Hlen. reflexivity.
Qed.

(** Every entry of the table lies within the 346 bytes of the descriptor,
    and its field is unpacked exactly when it has all its bytes. *)
Lemma unpack_field_table field off fmt (b : list byte) :
  In (field, (off, fmt)) lecroy_format ->
  (0 <= off /\ 0 < fieldlen fmt /\ off + fieldlen fmt <= 346)
  /\ (len b = fieldlen fmt ->
      exists v, unpack_field host "<" field (VBytes b) = Ok v)
  /\ (len b <> fieldlen fmt ->
      unpack_field host "<" field (VBytes b) = Raise StructError).
Proof.
  intros Hin.
  repeat (destruct Hin as [Hin | Hin];
          [injection Hin as <- <- <-;
           split; [vm_compute; repeat split; congruence |];
           eapply unpack_field_parsed;
           [reflexivity | reflexivity | reflexivity | reflexivity |];
           intros E;
           first [discriminate E
                 | split; [discriminate | eexists; reflexivity]] |]).
  destruct Hin.
Qed.

Lemma map_items_all {V : Type} (f : string -> V -> result V) (d : dict V) :
  (forall k v, In (k, v) d -> exists v', f k v = Ok v') ->
  exists d', map_items f d = Ok d'.
Proof.
  induction d as [| [k v] d IH]; intros H; simpl.
  - eexists. reflexivity.
  - destruct (H k v (or_introl eq_refl)) as [v' ->]. cbn [bind].
    destruct IH as [d' ->]; [intros k0 v0 Hin; apply H; right; exact Hin |].
    eexists. reflexivity.
Qed.

Lemma map_items_some_raise {V : Type} (f : string -> V -> result V)
    (d : dict V) (e : exn) :
  (forall k v, In (k, v) d -> (exists v', f k v = Ok v') \/ f k v = Raise e) ->
  (exists k v, In (k, v) d /\ f k v = Raise e) ->
  map_items f d = Raise e.
Proof.
  induction d as [| [k v] d IH]; intros Hall (k0 & v0 & Hin & Hr); simpl.
  - destruct Hin.
  - destruct (Hall k v (or_introl eq_refl)) as [[v' Hv] | Hv]; rewrite Hv;
      [| reflexivity].
    cbn [bind]. rewrite IH; [reflexivity | |].
    + intros k1 v1 H1. apply Hall. right. exact H1.
    + destruct Hin as [Hin | Hin]; [| eauto].
      injection Hin as -> ->. congruence.
Qed.

Lemma in_field_bytes raw startpos k v :
  In (k, v) (map (field_bytes raw startpos) lecroy_format) ->
  exists off fmt,
    In (k, (off, fmt)) lecroy_format
    /\ v = VBytes (slice raw (startpos + off) (startpos + off + fieldlen fmt)).
Proof.
  intros Hin. apply in_map_iff in Hin.
  destruct Hin as ([field [off fmt]] & E & Hin). injection E as <- <-.
  eauto.
Qed.

Lemma find_at_least_minus_one (s sub : list byte) : -1 <= find s sub.
Proof. unfold find. destruct (find_from_bounds sub s 0); lia. Qed.

Lemma unpack_header_complete raw :
  0 <= find raw WAVEDESC -> find raw WAVEDESC + 346 <= len raw ->
  exists metadata, unpack_header host raw = Ok (find raw WAVEDESC, metadata).
Proof.
  set (s := find raw WAVEDESC). intros Hs Hlen.
  rewrite unpack_header_eq. cbv zeta. fold s.
  rewrite byte_order_char_eq.
  rewrite slice_exact by lia.
  replace (s + 34 + 2 - (s + 34)) with 2 by lia.
  change (2 =? 2)%Z with true. cbv iota. cbn [bind].
  destruct (map_items_all (unpack_field host "<")
              (map (field_bytes raw s) lecroy_format)) as [md Hmd].
  - intros k v Hin. apply in_field_bytes in Hin.
    destruct Hin as (off & fmt & Hin & ->).
    destruct (unpack_field_table k off fmt
                (slice raw (s + off) (s + off + fieldlen fmt)) Hin)
      as ((Hoff & Hpos & Hend) & Hv & _).
    apply Hv. rewrite slice_exact by lia. lia.
  - rewrite Hmd. eexists. reflexivity.
Qed.

Lemma unpack_header_short raw :
  find raw WAVEDESC < 0 \/ len raw < find raw WAVEDESC + 346 ->
  unpack_header host raw = Raise StructError.
Proof.
  set (s := find raw WAVEDESC). intros Hs.
  rewrite unpack_header_eq. cbv zeta. fold s.
  rewrite byte_order_char_eq.
  destruct (len (slice raw (s + 34) (s + 34 + 2)) =? 2)%Z; [| reflexivity].
  cbn [bind].
  rewrite (map_items_some_raise (unpack_field host "<") _ StructError);
    [reflexivity | |].
  - intros k v Hin. apply in_field_bytes in Hin.
    destruct Hin as (off & fmt & Hin & ->).
    destruct (unpack_field_table k off fmt
                (slice raw (s + off) (s + off + fieldlen fmt)) Hin)
      as (_ & Hv & Hr).
    destruct (Z.eq_dec
                (len (slice raw (s + off) (s + off + fieldlen fmt)))
                (fieldlen fmt)) as [E | E]; [left | right]; auto.
  - assert (-1 <= s) as Hm by apply find_at_least_minus_one.
    destruct (Z_lt_ge_dec s 0) as [Hneg | Hnn].
    + assert (s = -1) as -> by lia.
      exists "descriptor_name", (VBytes (slice raw (-1 + 0) (-1 + 0 + 16))).
      split; [left; reflexivity |].
      apply unpack_descriptor_name_short.
      rewrite len_slice. pose proof (len_nonneg raw).
      unfold clamp. simpl. lia.
    + exists "wave_source",
        (VBytes (slice raw (s + 344) (s + 344 + fieldlen "h"))).
      split.
      * apply in_map_iff. exists ("wave_source", (344, "h")).
        split; [reflexivity |].
        apply (dict_find_In lecroy_format "wave_source" (344, "h")).
        reflexivity.
      * destruct (unpack_field_table "wave_source" 344 "h"
                    (slice raw (s + 344) (s + 344 + fieldlen "h")))
          as (_ & _ & Hr).
        -- apply (dict_find_In lecroy_format "wave_source" (344, "h")).
           reflexivity.
        -- apply Hr. change (fieldlen "h") with 2.
           pose proof (slice_short raw (s + 344) (s + 344 + 2)).
           lia.
Qed.

(** A decoded header lies within the file. *)
Lemma unpack_header_bounds raw startpos metadata :
  unpack_header host raw = Ok (startpos, metadata) ->
  startpos = find raw WAVEDESC /\ 0 <= startpos /\ startpos + 346 <= len raw.
Proof.
  intros H.
  assert (startpos = find raw WAVEDESC) as ->.
  { rewrite unpack_header_eq in H. cbv zeta in H.
    bind_inv H. bind_inv H. injection H as <- _. reflexivity. }
  split; [reflexivity |].
  destruct (Z_lt_ge_dec (find raw WAVEDESC) 0) as [Hneg | Hnn];
    [rewrite unpack_header_short in H by lia; discriminate H |].
  destruct (Z_lt_ge_dec (len raw) (find raw WAVEDESC + 346)) as [Hsh | Hlong];
    [rewrite unpack_header_short in H by lia; discriminate H |].
  lia.
Qed.

(** X1.  The header is unpacked exactly when the marker occurs and the
    file holds the 346 bytes of the descriptor from the marker on; in
    every other case [read] stops with [struct.error]. *)
Theorem header_needs_346_bytes raw :
  ((exists metadata,
       unpack_header host raw = Ok (find raw WAVEDESC, metadata))
   <-> 0 <= find raw WAVEDESC /\ find raw WAVEDESC + 346 <= len raw)
  /\ (find raw WAVEDESC < 0 \/ len raw < find raw WAVEDESC + 346 ->
      unpack_header host raw = Raise StructError
      /\ forall readdata scale,
          read host raw readdata scale = Raise StructError).
Proof.
  split; [split |].
  - intros [md Hmd]. apply unpack_header_bounds in Hmd. tauto.
  - intros [Hs Hlen]. apply unpack_header_complete; assumption.
  - intros Hs. pose proof (unpack_header_short raw Hs) as Hbad.
    split; [exact Hbad |].
    intros readdata scale. unfold read, read_metadata.
    rewrite Hbad. reflexivity.
Qed.
End HeaderDecodes.

(** ** The metadata dictionary *)

Section MetadataShape.
#[local] Open Scope string_scope.
Variable host : endian.

Lemma keys_dict_set {V : Type} (k : string) (v : V) (d : dict V) :
  In k (keys d) -> keys (dict_set k v d) = keys d.
Proof.
  induction d as [| [k0 v0] d IH]; simpl; intros Hin; [destruct Hin |].
  destruct (String.eqb k k0) eqn:E.
  - apply String.eqb_eq in E. subst k0. reflexivity.
  - simpl. f_equal. apply IH. destruct Hin as [-> | Hin]; [| exact Hin].
    rewrite String.eqb_refl in E. discriminate E.
Qed.

Lemma unpack_header_keys raw startpos metadata :
  unpack_header host raw = Ok (startpos, metadata) ->
  keys metadata = keys lecroy_format.
Proof.
  intros H. rewrite unpack_header_eq in H. cbv zeta in H.
  bind_inv H. bind_inv H. injection H as _ <-.
  rewrite (map_items_keys _ _ _ Hstep0). apply field_bytes_keys.
Qed.

Lemma In_by_eqb (k : string) (l : list string) :
  existsb (String.eqb k) l = true -> In k l.
Proof.
  intros H. apply existsb_exists in H. destruct H as (x & Hin & E).
  apply String.eqb_eq in E. subst x. exact Hin.
Qed.

Lemma keys_dict_set_table (k : string) (v : value) (d : dict value) :
  existsb (String.eqb k) (keys lecroy_format) = true ->
  keys d = keys lecroy_format ->
  keys (dict_set k v d) = keys lecroy_format.
Proof.
  intros Hk Hd. rewrite keys_dict_set; [exact Hd |].
  rewrite Hd. apply In_by_eqb. exact Hk.
Qed.

Lemma pretty_format_keys metadata metadata' :
  keys metadata = keys lecroy_format ->
  pretty_format metadata = Ok metadata' ->
  keys metadata' = keys lecroy_format.
Proof.
  intros Hk H. rewrite pretty_format_eq in H.
  repeat bind_inv H. injection H as <-.
  repeat (apply keys_dict_set_table; [vm_compute; reflexivity |]).
  exact Hk.
Qed.

Lemma read_metadata_keys raw startpos metadata :
  read_metadata host raw = Ok (startpos, metadata) ->
  keys metadata = keys lecroy_format.
Proof.
  intros H. apply read_metadata_inv in H.
  destruct H as (unpacked & Hu & Hp).
  eapply pretty_format_keys; [| exact Hp].
  eapply unpack_header_keys. exact Hu.
Qed.

Lemma read_Ok_metadata raw readdata scale r :
  read host raw readdata scale = Ok r ->
  exists startpos, read_metadata host raw = Ok (startpos, metadata_of r).
Proof.
  unfold read. intros H. bind_inv H. destruct a as [s md].
  exists s. rewrite Hstep. destruct readdata.
  - bind_inv H. bind_inv H. injection H as <-. reflexivity.
  - injection H as <-. reflexivity.
Qed.

(** X2.  Whatever [read] returns, its metadata dictionary has the 56 keys
    of [lecroy_format], each once and in the order of the table: the
    pretty-formatting step overwrites values and adds no key. *)
Theorem metadata_has_the_table_keys raw readdata scale r :
  read host raw readdata scale = Ok r ->
  keys (metadata_of r) = keys lecroy_format
  /\ List.length (metadata_of r) = 56%nat
  /\ NoDup (keys (metadata_of r)).
Proof.
  intros H. apply read_Ok_metadata in H. destruct H as [s H].
  pose proof (read_metadata_keys _ _ _ H) as Hk.
  split; [exact Hk |]. split.
  - transitivity (List.length (keys (metadata_of r))).
    + unfold keys. rewrite length_map. reflexivity.
    + rewrite Hk. reflexivity.
  - rewrite Hk. apply lecroy_format_keys_nodup.
Qed.
End MetadataShape.

(** The scenario of the specification. *)
Lemma metadata_has_the_table_keys_witness :
  exists r,
    read Little scenario true true = Ok r
    /\ keys (metadata_of r) = keys lecroy_format.
Proof.
  pose (r := match read Little scenario true true with
             | Ok r => r
             | Raise _ => Metadata []
             end).
  assert (read Little scenario true true = Ok r) as H
      by (vm_compute; reflexivity).
  exists r. split; [exact H |].
  exact (proj1 (metadata_has_the_table_keys Little scenario true true r H)).
Defined.

(** ** Integer fields *)

Section IntegerFields.
#[local] Open Scope string_scope.
Variable host : endian.

Lemma byte_val_range (b : byte) : 0 <= byte_val b < 256.
Proof.
  unfold byte_val. pose proof (Byte.to_N_bounded b). lia.
Qed.

Lemma unsigned_le_range (bs : list byte) :
  0 <= unsigned_le bs < 2 ^ (8 * len bs).
Proof.
  induction bs as [| b bs IH].
  - simpl. lia.
  - change (unsigned_le (b :: bs)) with (byte_val b + 256 * unsigned_le bs).
    replace (8 * len (b :: bs)) with (8 + 8 * len bs)
      by (unfold len; simpl List.length; lia).
    rewrite Z.pow_add_r by (pose proof (len_nonneg bs); lia).
    change (2 ^ 8) with 256.
    pose proof (byte_val_range b). nia.
Qed.

Lemma unsigned_range (e : endian) (bs : list byte) :
  0 <= unsigned e bs < 2 ^ (8 * len bs).
Proof.
  destruct e; simpl.
  - apply unsigned_le_range.
  - replace (len bs) with (len (rev bs))
      by (unfold len; rewrite length_rev; reflexivity).
    apply unsigned_le_range.
Qed.

(** The two's complement reading of [n] bytes is an [8n]-bit integer. *)
Lemma signed_fits (e : endian) (bs : list byte) :
  0 < len bs -> fits (8 * len bs) (signed e bs).
Proof.
  intros Hn. unfold fits, signed, to_signed.
  pose proof (unsigned_range e bs) as Hu.
  assert (2 ^ (8 * len bs) = 2 * 2 ^ (8 * len bs - 1)) as Hp.
  { rewrite <- Z.pow_succ_r by lia. f_equal. lia. }
  destruct (unsigned e bs <? 2 ^ (8 * len bs - 1))%Z eqn:E.
  - apply Z.ltb_lt in E.
    assert (0 < 2 ^ (8 * len bs - 1)) by (apply Z.pow_pos_nonneg; lia).
    lia.
  - apply Z.ltb_ge in E. lia.
Qed.

Lemma field_in_table field off fmt :
  dict_find field lecroy_format = Some (off, fmt) ->
  0 <= off /\ 0 < fieldlen fmt /\ off + fieldlen fmt <= 346.
Proof.
  intros Hf. apply dict_find_In in Hf.
  exact (proj1 (unpack_field_table host field off fmt [] Hf)).
Qed.

(** The bytes of a field of a decoded header are all there. *)
Lemma field_slice_len raw startpos metadata field off fmt :
  unpack_header host raw = Ok (startpos, metadata) ->
  dict_find field lecroy_format = Some (off, fmt) ->
  len (slice raw (startpos + off) (startpos + off + fieldlen fmt))
  = fieldlen fmt.
Proof.
  intros H Hf. apply unpack_header_bounds in H.
  destruct H as (_ & Hs & Hlen).
  destruct (field_in_table _ _ _ Hf) as (Hoff & Hpos & Hend).
  rewrite slice_exact by lia. lia.
Qed.

(** X3.  Every integer field that is not translated comes out as a Python
    integer within the range of its width: 16 bits for format [h], 32 bits
    for format [i]. *)
Theorem integer_fields_fit raw readdata scale r field off fmt :
  read host raw readdata scale = Ok r ->
  dict_find field lecroy_format = Some (off, fmt) ->
  ~ In field translated ->
  (fmt = "h" ->
   exists z, get_int (metadata_of r) field = Ok z /\ fits 16 z)
  /\ (fmt = "i" ->
      exists z, get_int (metadata_of r) field = Ok z /\ fits 32 z).
Proof.
  intros H Hf Hn. apply read_Ok_metadata in H. destruct H as [s H].
  destruct (read_metadata_inv _ _ _ _ H) as (unpacked & Hu & _).
  pose proof (field_slice_len _ _ _ _ _ _ Hu Hf) as Hlen.
  split; intros ->.
  - rewrite (metadata_int_field host raw s _ field off "h" H Hf
               (or_introl eq_refl) Hn).
    eexists. split; [reflexivity |].
    change 16 with (8 * 2). change (fieldlen "h") with 2 in Hlen.
    rewrite <- Hlen at 1. apply signed_fits. change (fieldlen "h") with 2.
    lia.
  - rewrite (metadata_int_field host raw s _ field off "i" H Hf
               (or_intror eq_refl) Hn).
    eexists. split; [reflexivity |].
    change 32 with (8 * 4). change (fieldlen "i") with 4 in Hlen.
    rewrite <- Hlen at 1. apply signed_fits. change (fieldlen "i") with 4.
    lia.
Qed.
End IntegerFields.

(** A sample count of -1 is stored as the 32-bit integer -1. *)
Lemma integer_fields_fit_witness :
  exists r,
    read Little negative_count true false = Ok r
    /\ get_int (metadata_of r) "wave_array_count" = Ok (-1)
    /\ fits 32 (-1).
Proof.
  pose (r := match read Little negative_count true false with
             | Ok r => r
             | Raise _ => Metadata []
             end).
  assert (read Little negative_count true false = Ok r) as H
      by (vm_compute; reflexivity).
  exists r. split; [exact H |].
  destruct (proj2 (integer_fields_fit Little negative_count true false r
                     "wave_array_count" 116 "i" H eq_refl
                     ltac:(vm_compute; intuition discriminate)) eq_refl)
    as (z & Hz & Hfit).
  assert (Ok (-1) = Ok z) as E by exact Hz.
  injection E as <-. split; [exact Hz | exact Hfit].
Defined.

(** ** String fields *)

Section Strip.

Lemma lstrip_split (c : byte) (s : list byte) :
  exists i, s = repeat c i ++ lstrip c s.
Proof.
  induction s as [| x s IH]; simpl.
  - exists 0%nat. reflexivity.
  - destruct (Byte.eqb x c) eqn:E.
    + apply byte_eqb_eq in E. subst x. destruct IH as [i IH].
      exists (S i). simpl. f_equal. exact IH.
    + exists 0%nat. reflexivity.
Qed.

Lemma lstrip_head (c : byte) (s : list byte) :
  hd_error (lstrip c s) <> Some c.
Proof.
  induction s as [| x s IH]; simpl; [discriminate |].
  destruct (Byte.eqb x c) eqn:E; [exact IH |].
  simpl. intros [= ->].
  assert (Byte.eqb c c = true) as R by (apply byte_eqb_eq; reflexivity).
  congruence.
Qed.

(** [strip] removes a run of [c] at each end and nothing else. *)
Lemma strip_split (c : byte) (s : list byte) :
  exists i j, s = repeat c i ++ strip c s ++ repeat c j.
Proof.
  unfold strip.
  destruct (lstrip_split c s) as [i Hi].
  destruct (lstrip_split c (rev (lstrip c s))) as [j Hj].
  exists i, j. rewrite Hi at 1. f_equal.
  rewrite <- (rev_involutive (lstrip c s)) at 1.
  rewrite Hj at 1. rewrite rev_app_distr, rev_repeat. reflexivity.
Qed.

Lemma strip_ends (c : byte) (s : list byte) :
  hd_error (strip c s) <> Some c /\ hd_error (rev (strip c s)) <> Some c.
Proof.
  split.
  - destruct (strip_split c s) as (i & j & H).
    unfold strip in *.
    destruct (lstrip_split c (rev (lstrip c s))) as [k Hk].
    pose proof (lstrip_head c s) as Hh.
    assert (lstrip c s
            = rev (lstrip c (rev (lstrip c s))) ++ repeat c k) as E.
    { rewrite <- (rev_involutive (lstrip c s)) at 1.
      rewrite Hk at 1. rewrite rev_app_distr, rev_repeat.
      reflexivity. }
    destruct (rev (lstrip c (rev (lstrip c s)))) as [| x t];
      [discriminate |].
    rewrite E in Hh. exact Hh.
  - unfold strip. rewrite rev_involutive. apply lstrip_head.
Qed.

End Strip.

Section StringFields.
#[local] Open Scope string_scope.
Variable host : endian.

(** A field whose format is a string of [n] bytes. *)
Lemma unpack_field_string field off fmt n (b : list byte) v :
  dict_find field lecroy_format = Some (off, fmt) ->
  parse ("<" ++ fmt) = Some (Some Little, [Cs n]) ->
  last_char fmt = Ok "s"%char ->
  field <> "trigger_time" ->
  unpack_field host "<" field (VBytes b) = Ok v ->
  len b = Z.of_nat n /\ v = VBytes (strip x00 b).
Proof.
  intros Hf Hp Hl Hn H. unfold unpack_field, dict_get in H.
  rewrite Hf in H. cbn [bind as_bytes] in H. unfold unpack in H.
  rewrite Hp in H. cbn [is_native] in H.
  change (size_of_items false [Cs n]) with (0 + Z.of_nat n)%Z in H.
  rewrite Z.add_0_l in H.
  destruct (len b =? Z.of_nat n)%Z eqn:E; [| discriminate H].
  apply Z.eqb_eq in E. split; [exact E |].
  apply String.eqb_neq in Hn. rewrite Hn in H.
  cbn [negb bind unpack_items item_start code_size] in H.
  rewrite Z.add_0_l, (slice_whole b _ E) in H.
  change (getitem [decode Little (Cs n) b] 0)
    with (Ok (decode Little (Cs n) b)) in H.
  cbn [bind decode] in H. rewrite Hl in H. cbn [bind] in H.
  change (Ascii.eqb "s" "s") with true in H. cbv iota in H.
  injection H as <-. reflexivity.
Qed.

(** X4.  A string field ([16s] or [48s]) is returned without the NUL
    bytes at its two ends, leading ones included: the bytes of the file
    are a run of NULs, the value, and a run of NULs, and the value neither
    starts nor ends with a NUL.  NULs inside the value are kept. *)
Theorem string_fields_are_stripped raw readdata scale r field off fmt :
  read host raw readdata scale = Ok r ->
  dict_find field lecroy_format = Some (off, fmt) ->
  fmt = "16s" \/ fmt = "48s" ->
  exists startpos v i j,
    startpos = find raw WAVEDESC
    /\ dict_find field (metadata_of r) = Some (VBytes v)
    /\ slice raw (startpos + off) (startpos + off + fieldlen fmt)
       = (repeat x00 i ++ v ++ repeat x00 j)%list
    /\ len v + Z.of_nat i + Z.of_nat j = fieldlen fmt
    /\ hd_error v <> Some x00
    /\ hd_error (rev v) <> Some x00.
Proof.
  intros H Hf Hfmt. apply read_Ok_metadata in H. destruct H as [s H].
  destruct (read_metadata_inv _ _ _ _ H) as (unpacked & Hu & Hp).
  destruct (unpack_header_field host raw s unpacked field off fmt Hu Hf)
    as (Hs & v & Hv & Hfind).
  pose proof (field_slice_len host _ _ _ _ _ _ Hu Hf) as Hlen.
  set (b := slice raw (s + off) (s + off + fieldlen fmt)) in *.
  assert (field <> "trigger_time") as Hn.
  { intros ->. destruct Hfmt; subst fmt; discriminate Hf. }
  assert (v = VBytes (strip x00 b)) as ->.
  { destruct Hfmt; subst fmt.
    - exact (proj2 (unpack_field_string _ _ _ 16 _ _ Hf eq_refl eq_refl
                      Hn Hv)).
    - exact (proj2 (unpack_field_string _ _ _ 48 _ _ Hf eq_refl eq_refl
                      Hn Hv)). }
  destruct (strip_split x00 b) as (i & j & Hsplit).
  exists s, (strip x00 b), i, j.
  split; [exact Hs |]. split; [| split; [exact Hsplit | split]].
  - rewrite (pretty_format_keeps _ _ _ Hp); [exact Hfind |].
    intros Hin. simpl in Hin.
    repeat (destruct Hin as [<- | Hin];
            [destruct Hfmt; subst fmt; discriminate Hf |]).
    exact Hin.
  - rewrite <- Hlen. rewrite Hsplit at 2.
    unfold len. rewrite !length_app, !repeat_length. lia.
  - apply strip_ends.
Qed.
End StringFields.

(** The descriptor name of the scenario: the eight bytes of the marker,
    followed in the file by eight NULs. *)
Lemma string_fields_are_stripped_witness :
  exists r v j,
    read Little scenario false true = Ok r
    /\ dict_find "descriptor_name" (metadata_of r) = Some (VBytes v)
    /\ slice scenario 0 16 = (v ++ repeat x00 j)%list.
Proof.
  pose (r := match read Little scenario false true with
             | Ok r => r
             | Raise _ => Metadata []
             end).
  assert (read Little scenario false true = Ok r) as H
      by (vm_compute; reflexivity).
  destruct (string_fields_are_stripped Little scenario false true r
              "descriptor_name" 0 "16s" H eq_refl (or_introl eq_refl))
    as (s & v & i & j & Hs & Hv & Hsplit & Hlen & Hhd & _).
  assert (s = 0) as -> by exact Hs.
  destruct i as [| i].
  - exists r, v, j. split; [exact H |]. split; [exact Hv | exact Hsplit].
  - exfalso. vm_compute in Hsplit. discriminate Hsplit.
Defined.

(** ** The pretty-formatting step *)

Section Translation.
#[local] Open Scope string_scope.
Variable host : endian.

Lemma indexes_dec (n code : Z) : {indexes n code} + {~ indexes n code}.
Proof.
  unfold indexes.
  destruct (Z_le_dec (- n) code); destruct (Z_lt_dec code n);
    first [left; lia | right; lia].
Qed.

Lemma getitem_indexes {A : Type} (l : list A) (i : Z) :
  (indexes (len l) i -> exists x, getitem l i = Ok x)
  /\ (~ indexes (len l) i -> getitem l i = Raise IndexError).
Proof.
  unfold indexes. split; intros H.
  - destruct (Z_lt_ge_dec i 0) as [Hneg | Hnn].
    + rewrite getitem_wraps by lia.
      destruct (getitem_nonneg l (i + len l) ltac:(lia)) as (x & -> & _).
      eauto.
    + destruct (getitem_nonneg l i ltac:(lia)) as (x & -> & _). eauto.
  - apply getitem_out_of_range. lia.
Qed.

(** The value lookup of [engineering] cannot fail; the prefix lookup
    decides. *)
Lemma engineering_cases (prefixes : list string) (unit : string) (code : Z) :
  (indexes (9 * len prefixes) code ->
   exists label, engineering prefixes unit code = Ok label)
  /\ (~ indexes (9 * len prefixes) code ->
      engineering prefixes unit code = Raise IndexError).
Proof.
  unfold engineering.
  rewrite (getitem_nth magnitudes 0)
    by (change (len magnitudes) with 9; apply Z.mod_pos_bound; lia).
  cbn [bind].
  assert (indexes (9 * len prefixes) code <-> indexes (len prefixes) (code / 9))
    as Hiff.
  { unfold indexes. pose proof (len_nonneg prefixes).
    Z.to_euclidean_division_equations. lia. }
  destruct (getitem_indexes prefixes (code / 9)) as [Hok Hbad].
  split; intros H.
  - destruct (Hok (proj1 Hiff H)) as [x ->]. eexists. reflexivity.
  - rewrite Hbad; [reflexivity |]. intros Hi. apply H, Hiff, Hi.
Qed.

Lemma time_base_label_cases (tb : Z) :
  (tb = 100 \/ indexes 54 tb ->
   exists label, time_base_label (VInt tb) = Ok label)
  /\ (~ (tb = 100 \/ indexes 54 tb) ->
      time_base_label (VInt tb) = Raise IndexError).
Proof.
  unfold time_base_label. cbn [py_eq].
  destruct (tb =? 100)%Z eqn:E.
  - apply Z.eqb_eq in E. split; [eexists; reflexivity | tauto].
  - apply Z.eqb_neq in E. cbn [as_int bind].
    destruct (engineering_cases time_prefixes "s/div" tb) as [Hok Hbad].
    change (9 * len time_prefixes) with 54 in *.
    split; intros H.
    + apply Hok. tauto.
    + apply Hbad. tauto.
Qed.

Lemma fixed_vert_gain_label_cases (code : Z) :
  (indexes 36 code ->
   exists label, fixed_vert_gain_label (VInt code) = Ok label)
  /\ (~ indexes 36 code ->
      fixed_vert_gain_label (VInt code) = Raise IndexError).
Proof.
  unfold fixed_vert_gain_label. cbn [as_int bind].
  exact (engineering_cases gain_prefixes "V/div" code).
Qed.

(** The pretty-formatting step on an unpacked header: it goes through on
    valid codes and raises [IndexError] on any other. *)
Lemma pretty_format_cases raw startpos unpacked c1 c2 c3 tb fvt :
  unpack_header host raw = Ok (startpos, unpacked) ->
  get_int unpacked "record_type" = Ok c1 ->
  get_int unpacked "processing_done" = Ok c2 ->
  get_int unpacked "vert_coupling" = Ok c3 ->
  get_int unpacked "time_base" = Ok tb ->
  get_int unpacked "fixed_vert_gain" = Ok fvt ->
  (valid_codes c1 c2 c3 tb fvt ->
   exists metadata, pretty_format unpacked = Ok metadata)
  /\ (~ valid_codes c1 c2 c3 tb fvt ->
      pretty_format unpacked = Raise IndexError).
Proof.
  intros H H1 H2 H3 Htb Hfvt.
  rewrite pretty_format_eq. unfold dict_get.
  rewrite (header_trigger_time _ _ _ _ H).
  cbn [bind trigger_time_list to_list]. rewrite H1, H2, H3.
  apply get_int_find in Htb. apply get_int_find in Hfvt.
  rewrite Htb, Hfvt. cbn [bind].
  destruct (getitem_indexes record_types c1) as [Ok1 Bad1].
  destruct (getitem_indexes processings c2) as [Ok2 Bad2].
  destruct (getitem_indexes couplings c3) as [Ok3 Bad3].
  destruct (time_base_label_cases tb) as [Ok4 Bad4].
  destruct (fixed_vert_gain_label_cases fvt) as [Ok5 Bad5].
  change (len record_types) with 10 in *.
  change (len processings) with 8 in *.
  change (len couplings) with 5 in *.
  unfold valid_codes. split.
  - intros (V1 & V2 & V3 & V4 & V5).
    destruct (Ok1 V1) as [l1 ->]. destruct (Ok2 V2) as [l2 ->].
    destruct (Ok3 V3) as [l3 ->]. destruct (Ok4 V4) as [l4 ->].
    destruct (Ok5 V5) as [l5 ->]. cbn [bind]. eexists. reflexivity.
  - intros Hbad.
    destruct (indexes_dec 10 c1) as [V1 | V1];
      [destruct (Ok1 V1) as [l1 ->] | rewrite (Bad1 V1); reflexivity].
    cbn [bind].
    destruct (indexes_dec 8 c2) as [V2 | V2];
      [destruct (Ok2 V2) as [l2 ->] | rewrite (Bad2 V2); reflexivity].
    cbn [bind].
    destruct (indexes_dec 5 c3) as [V3 | V3];
      [destruct (Ok3 V3) as [l3 ->] | rewrite (Bad3 V3); reflexivity].
    cbn [bind].
    destruct (Z.eq_dec tb 100) as [V4 | V4];
      [destruct (Ok4 (or_introl V4)) as [l4 ->] |
       destruct (indexes_dec 54 tb) as [V4' | V4'];
       [destruct (Ok4 (or_intror V4')) as [l4 ->] |
        rewrite Bad4 by tauto; reflexivity]];
      cbn [bind];
      (destruct (indexes_dec 36 fvt) as [V5 | V5];
       [exfalso; apply Hbad; tauto | rewrite (Bad5 V5); reflexivity]).
Qed.

(** X5.  Once the header is unpacked, whether the metadata is returned is
    decided by five codes alone: [read] without [readdata] succeeds
    exactly when [record_type], [processing_done] and [vert_coupling]
    index their tables, [time_base] is 100 or lies in [-54, 54), and
    [fixed_vert_gain] lies in [-36, 36); on any other codes [read] raises
    [IndexError].  Neither the bytes after the descriptor nor [scale]
    matter. *)
Theorem metadata_read_succeeds_iff raw startpos unpacked c1 c2 c3 tb fvt :
  unpack_header host raw = Ok (startpos, unpacked) ->
  get_int unpacked "record_type" = Ok c1 ->
  get_int unpacked "processing_done" = Ok c2 ->
  get_int unpacked "vert_coupling" = Ok c3 ->
  get_int unpacked "time_base" = Ok tb ->
  get_int unpacked "fixed_vert_gain" = Ok fvt ->
  (forall scale,
      (exists metadata, read host raw false scale = Ok (Metadata metadata))
      <-> valid_codes c1 c2 c3 tb fvt)
  /\ (~ valid_codes c1 c2 c3 tb fvt ->
      forall readdata scale,
        read host raw readdata scale = Raise IndexError).
Proof.
  intros H H1 H2 H3 Htb Hfvt.
  destruct (pretty_format_cases _ _ _ _ _ _ _ _ H H1 H2 H3 Htb Hfvt)
    as [Hok Hbad].
  assert (~ valid_codes c1 c2 c3 tb fvt ->
          forall readdata scale,
            read host raw readdata scale = Raise IndexError) as Hraise.
  { intros Hv readdata scale. unfold read, read_metadata.
    rewrite H. cbn [bind]. rewrite (Hbad Hv). reflexivity. }
  split; [| exact Hraise].
  intros scale. split.
  - intros [md Hmd].
    assert ({valid_codes c1 c2 c3 tb fvt} + {~ valid_codes c1 c2 c3 tb fvt})
      as [V | V].
    { unfold valid_codes.
      destruct (indexes_dec 10 c1); destruct (indexes_dec 8 c2);
        destruct (indexes_dec 5 c3); destruct (indexes_dec 54 tb);
          destruct (Z.eq_dec tb 100); destruct (indexes_dec 36 fvt);
            first [left; tauto | right; tauto]. }
    + exact V.
    + rewrite (Hraise V) in Hmd. discriminate Hmd.
  - intros V. destruct (Hok V) as [md Hmd]. exists md.
    unfold read, read_metadata. rewrite H. cbn [bind]. rewrite Hmd.
    reflexivity.
Qed.
End Translation.

(** The scenario of the specification has five zero codes. *)
Lemma metadata_read_succeeds_iff_witness :
  valid_codes 0 0 0 0 0
  /\ exists metadata, read Little scenario false true = Ok (Metadata metadata).
Proof.
  pose (unpacked := match unpack_header Little scenario with
                    | Ok (_, md) => md
                    | Raise _ => []
                    end).
  assert (unpack_header Little scenario = Ok (0, unpacked)) as H
      by (vm_compute; reflexivity).
  assert (valid_codes 0 0 0 0 0) as V
      by (unfold valid_codes, indexes; lia).
  split; [exact V |].
  exact (proj2 (proj1 (metadata_read_succeeds_iff Little scenario 0 unpacked
                         0 0 0 0 0 H eq_refl eq_refl eq_refl eq_refl eq_refl)
                  true) V).
Defined.

Section GainTranslation.
#[local] Open Scope string_scope.

Lemma fixed_vert_gain_label_in_range code :
  0 <= code < 36 ->
  fixed_vert_gain_label (VInt code) = Ok (fixed_vert_gain_text code).
Proof.
  intros Hc. unfold fixed_vert_gain_label. cbn [as_int bind].
  unfold engineering.
  rewrite (getitem_nth magnitudes 0)
    by (change (len magnitudes) with 9; apply Z.mod_pos_bound; lia).
  cbn [bind].
  rewrite (getitem_nth gain_prefixes "").
  - reflexivity.
  - change (len gain_prefixes) with 4. split.
    + apply Z.div_pos; lia.
    + apply Z.div_lt_upper_bound; lia.
Qed.

Lemma pretty_format_fixed_vert_gain unpacked metadata code :
  get_int unpacked "fixed_vert_gain" = Ok code ->
  pretty_format unpacked = Ok metadata ->
  exists label,
    fixed_vert_gain_label (VInt code) = Ok label
    /\ dict_find "fixed_vert_gain" metadata = Some (VStr label).
Proof.
  intros Hc Hp. apply get_int_find in Hc.
  rewrite pretty_format_eq in Hp.
  bind_inv_as Hp t Ht. bind_inv_as Hp tlist Htl.
  bind_inv_as Hp c1 Hc1. bind_inv_as Hp l1 Hl1.
  bind_inv_as Hp c2 Hc2. bind_inv_as Hp l2 Hl2.
  bind_inv_as Hp c3 Hc3. bind_inv_as Hp l3 Hl3.
  bind_inv_as Hp tb Htb. bind_inv_as Hp tbs Htbs.
  bind_inv_as Hp fvt Hfvt. bind_inv_as Hp fvts Hfvts.
  injection Hp as <-.
  unfold dict_get in Hfvt. rewrite Hc in Hfvt. injection Hfvt as <-.
  exists fvts. split; [exact Hfvts |].
  apply dict_find_set_same.
Qed.

(** X6.  A [fixed_vert_gain] code in [0, 36) is translated to
    "<value> <prefix>V/div", with the value selected by [code mod 9] among
    1, 2, 5, ..., 500 and the prefix by [code div 9] among u, m, none, k.
    Unlike [time_base], the field has no special code: 100 is out of
    range and makes the translation raise [IndexError]. *)
Theorem fixed_vert_gain_translation unpacked code :
  get_int unpacked "fixed_vert_gain" = Ok code ->
  (0 <= code < 36 ->
     fixed_vert_gain_label (VInt code) = Ok (fixed_vert_gain_text code)
     /\ forall metadata,
         pretty_format unpacked = Ok metadata ->
         dict_find "fixed_vert_gain" metadata
         = Some (VStr (fixed_vert_gain_text code)))
  /\ (36 <= code ->
        fixed_vert_gain_label (VInt code) = Raise IndexError
        /\ forall metadata, pretty_format unpacked <> Ok metadata).
Proof.
  intros Hc. split.
  - intros Hr. split; [apply fixed_vert_gain_label_in_range; exact Hr |].
    intros metadata Hp.
    destruct (pretty_format_fixed_vert_gain _ _ _ Hc Hp) as (label & L & F).
    rewrite fixed_vert_gain_label_in_range in L by exact Hr.
    injection L as <-. exact F.
  - intros Hr.
    assert (fixed_vert_gain_label (VInt code) = Raise IndexError) as Hraise.
    { apply fixed_vert_gain_label_cases. unfold indexes. lia. }
    split; [exact Hraise |].
    intros metadata Hp.
    destruct (pretty_format_fixed_vert_gain _ _ _ Hc Hp) as (label & L & _).
    rewrite Hraise in L. discriminate L.
Qed.
End GainTranslation.

(** A gain code of 23: value index 5, prefix index 2. *)
Lemma fixed_vert_gain_translation_witness :
  exists unpacked metadata,
    unpack_header Little (with_fixed_vert_gain 23) = Ok (0, unpacked)
    /\ get_int unpacked "fixed_vert_gain" = Ok 23
    /\ pretty_format unpacked = Ok metadata
    /\ dict_find "fixed_vert_gain" metadata = Some (VStr "50 V/div").
Proof.
  pose (unpacked := match unpack_header Little (with_fixed_vert_gain 23) with
                    | Ok (_, md) => md
                    | Raise _ => []
                    end).
  pose (metadata := match pretty_format unpacked with
                    | Ok md => md
                    | Raise _ => []
                    end).
  assert (get_int unpacked "fixed_vert_gain" = Ok 23) as Hc by reflexivity.
  assert (pretty_format unpacked = Ok metadata) as Hp
      by (vm_compute; reflexivity).
  exists unpacked, metadata.
  split; [vm_compute; reflexivity |].
  split; [exact Hc |]. split; [exact Hp |].
  exact (proj2 (proj1 (fixed_vert_gain_translation unpacked 23 Hc)
                  ltac:(lia)) metadata Hp).
Defined.

(** ** The arrays *)

Section Arrays.
#[local] Open Scope string_scope.
Variable host : endian.

Lemma not_translated (field : string) :
  existsb (String.eqb field) translated = false -> ~ In field translated.
Proof.
  intros H Hin.
  assert (existsb (String.eqb field) translated = true) as T.
  { apply existsb_exists. exists field. split; [exact Hin |].
    apply String.eqb_refl. }
  congruence.
Qed.

(** The integer fields the array step reads are there. *)
Lemma array_fields raw startpos metadata :
  read_metadata host raw = Ok (startpos, metadata) ->
  exists wd ut tta ct wac n,
    get_int metadata "wave_descriptor" = Ok wd
    /\ get_int metadata "user_text" = Ok ut
    /\ get_int metadata "trig_time_array" = Ok tta
    /\ get_int metadata "comm_type" = Ok ct
    /\ get_int metadata "wave_array_count" = Ok wac
    /\ get_int metadata "subarray_count" = Ok n.
Proof.
  intros Hm.
  pose proof (fun field off fmt Hf Hfmt Hn =>
                metadata_int_field host raw startpos metadata field off fmt
                  Hm Hf Hfmt (not_translated field Hn)) as F.
  do 6 eexists.
  split; [apply (F "wave_descriptor" 36 "i"); auto |].
  split; [apply (F "user_text" 40 "i"); auto |].
  split; [apply (F "trig_time_array" 48 "i"); auto |].
  split; [apply (F "comm_type" 32 "h"); auto |].
  split; [apply (F "wave_array_count" 116 "i"); auto |].
  apply (F "subarray_count" 144 "i"); auto.
Qed.

Lemma read_samples_eq raw startpos metadata wd ut tta ct wac :
  get_int metadata "wave_descriptor" = Ok wd ->
  get_int metadata "user_text" = Ok ut ->
  get_int metadata "trig_time_array" = Ok tta ->
  get_int metadata "comm_type" = Ok ct ->
  get_int metadata "wave_array_count" = Ok wac ->
  read_samples host raw startpos metadata
  = fromstring host (slice_from raw (startpos + wd + ut + tta))
      (if (ct =? 0)%Z then int8 else int16) wac.
Proof.
  intros Hwd Hut Htta Hct Hwac. unfold read_samples, trigtimes_startpos.
  rewrite Hwd, Hut. cbn [bind]. apply get_int_find in Hct.
  unfold dict_get. rewrite Hct. cbn [bind]. rewrite Htta. cbn [bind].
  rewrite Hwac. cbn [bind truthy].
  destruct (ct =? 0)%Z; reflexivity.
Qed.

(** X7.  With fewer than eight bytes announced for the trigger times
    ([-8 < trig_time_array < 8], which covers the usual 0 of a
    single-sweep trace), no double is read: the trigger times are the
    empty array of shape (2, 0), and the step cannot fail, whatever the
    file holds after the descriptor. *)
Theorem no_trigger_times raw startpos metadata tta :
  read_metadata host raw = Ok (startpos, metadata) ->
  get_int metadata "trig_time_array" = Ok tta ->
  -8 < tta < 8 ->
  read_trigtimes host raw startpos metadata
  = Ok (NDArray float64 [2; 0] (Floats [])).
Proof.
  intros Hm Htta Hr.
  destruct (array_fields _ _ _ Hm)
    as (wd & ut & tta' & ct & wac & n & Hwd & Hut & Htta' & _).
  unfold read_trigtimes.
  rewrite (read_trigtimes_flat_eq host _ _ _ _ _ _ Hwd Hut Htta).
  assert (Z.quot tta 8 = 0) as -> by (apply Z.quot_small_iff; lia).
  rewrite fromstring_Ok
    by (pose proof (len_nonneg (slice_from raw (startpos + wd + ut))); lia).
  reflexivity.
Qed.
End Arrays.

(** The scenario of the specification announces no trigger time. *)
Lemma no_trigger_times_witness :
  exists metadata,
    read_metadata Little scenario = Ok (0, metadata)
    /\ read_trigtimes Little scenario 0 metadata
       = Ok (NDArray float64 [2; 0] (Floats [])).
Proof.
  pose (metadata := match read_metadata Little scenario with
                    | Ok (_, md) => md
                    | Raise _ => []
                    end).
  assert (read_metadata Little scenario = Ok (0, metadata)) as Hm
      by (vm_compute; reflexivity).
  exists metadata. split; [exact Hm |].
  exact (no_trigger_times Little scenario 0 metadata 0 Hm eq_refl
           ltac:(lia)).
Defined.

Section SampleArray.
#[local] Open Scope string_scope.
Variable host : endian.

Lemma chunks_lengths (n count : nat) (s : list byte) :
  (count * n <= List.length s)%nat ->
  Forall (fun c => List.length c = n) (chunks n count s).
Proof.
  revert s. induction count as [| count IH]; intros s Hs; simpl.
  - constructor.
  - constructor.
    + rewrite length_firstn. simpl in Hs. lia.
    + apply IH. rewrite length_skipn. simpl in Hs. lia.
Qed.

(** X8.  The samples are read from
    [base + wave_descriptor + user_text + trig_time_array] on, as
    [wave_array_count] integers of one byte when [comm_type] is 0 and of
    two bytes otherwise: sample [i] is the two's complement reading, in
    the byte order of the host, of the bytes at its place, and lies in the
    range of its width.  A file that holds fewer bytes makes the step
    raise [ValueError]. *)
Theorem samples_are_read raw startpos metadata wd ut tta ct wac :
  get_int metadata "wave_descriptor" = Ok wd ->
  get_int metadata "user_text" = Ok ut ->
  get_int metadata "trig_time_array" = Ok tta ->
  get_int metadata "comm_type" = Ok ct ->
  get_int metadata "wave_array_count" = Ok wac ->
  0 <= wac ->
  let tail := slice_from raw (startpos + wd + ut + tta) in
  let d := if (ct =? 0)%Z then int8 else int16 in
  let width := Z.to_nat (itemsize d) in
  (wac * itemsize d <= len tail ->
   exists samples,
     read_samples host raw startpos metadata
     = Ok (NDArray d [wac] (Ints samples))
     /\ len samples = wac
     /\ (forall i, (i < Z.to_nat wac)%nat ->
            nth_error samples i
            = Some (signed host (firstn width (skipn (i * width) tail))))
     /\ Forall (fits (8 * itemsize d)) samples)
  /\ (len tail < wac * itemsize d ->
      read_samples host raw startpos metadata = Raise ValueError).
Proof.
  intros Hwd Hut Htta Hct Hwac H0. cbv zeta.
  rewrite (read_samples_eq host _ _ _ _ _ _ _ _ Hwd Hut Htta Hct Hwac).
  set (tail := slice_from raw (startpos + wd + ut + tta)).
  set (d := if (ct =? 0)%Z then int8 else int16).
  assert (0 < itemsize d) as Hd by (unfold d; destruct (ct =? 0)%Z; simpl; lia).
  split.
  - intros Hlen. rewrite fromstring_Ok by lia.
    assert (decode_items host d
              (chunks (Z.to_nat (itemsize d)) (Z.to_nat wac) tail)
            = Ints (map (signed host)
                      (chunks (Z.to_nat (itemsize d)) (Z.to_nat wac) tail)))
      as -> by (unfold d; destruct (ct =? 0)%Z; reflexivity).
    eexists. split; [reflexivity |].
    split; [unfold len; rewrite length_map, length_chunks; lia |].
    split.
    + intros i Hi. rewrite nth_error_map, nth_error_chunks by exact Hi.
      reflexivity.
    + apply Forall_map.
      assert (Z.to_nat wac * Z.to_nat (itemsize d) <= List.length tail)%nat
        as Hn by (unfold len in Hlen; nia).
      eapply Forall_impl; [| exact (chunks_lengths _ _ _ Hn)].
      intros c Hc. cbv beta in Hc.
      replace (itemsize d) with (len c) by (unfold len; lia).
      apply signed_fits. unfold len. lia.
  - intros Hlen. apply fromstring_short; lia.
Qed.

Lemma read_full_eq raw startpos metadata scale :
  read_metadata host raw = Ok (startpos, metadata) ->
  read host raw true scale =
  (trigtimes <- read_trigtimes host raw startpos metadata ;;
   a <- read_samples host raw startpos metadata ;;
   a' <- scale_data scale metadata a ;;
   data <- segment_data metadata a' ;;
   Ok (Full metadata trigtimes data)).
Proof.
  intros Hm. unfold read. rewrite Hm. cbn [bind].
  destruct (read_trigtimes host raw startpos metadata); [| reflexivity].
  cbn [bind]. unfold read_data.
  destruct (read_samples host raw startpos metadata); [| reflexivity].
  cbn [bind].
  destruct (scale_data scale metadata _); [| reflexivity].
  reflexivity.
Qed.

(** What the samples are once scaled or not: an integer array, or the
    float64 array of the same shape and size. *)
Lemma scale_data_shape raw startpos metadata a scale :
  read_metadata host raw = Ok (startpos, metadata) ->
  read_samples host raw startpos metadata = Ok a ->
  exists a' k,
    scale_data scale metadata a = Ok a'
    /\ shape a = [k] /\ shape a' = [k] /\ size a = k /\ size a' = k
    /\ (dt a = int8 \/ dt a = int16)
    /\ dt a' = (if scale then float64 else dt a).
Proof.
  intros Hm Hs.
  destruct (array_fields host _ _ _ Hm)
    as (wd & ut & tta & ct & wac & n & Hwd & Hut & Htta & Hct & Hwac & _).
  pose proof Hs as Hs'.
  rewrite (read_samples_eq host _ _ _ _ _ _ _ _ Hwd Hut Htta Hct Hwac) in Hs'.
  apply fromstring_inv in Hs'. destruct Hs' as (k & Ha & _ & Hsz & _).
  destruct (metadata_float_field host raw startpos metadata
              "vertical_gain" 156 "f" Hm eq_refl (or_introl eq_refl))
    as (g & Hg).
  destruct (metadata_float_field host raw startpos metadata
              "vertical_offset" 160 "f" Hm eq_refl (or_introl eq_refl))
    as (o & Ho).
  set (cs := chunks (Z.to_nat (itemsize (if (ct =? 0)%Z then int8 else int16)))
               (Z.to_nat k) (slice_from raw (startpos + wd + ut + tta))) in Ha.
  assert (elems a = Ints (map (signed host) cs)) as He
      by (rewrite Ha; destruct (ct =? 0)%Z; reflexivity).
  assert (shape a = [k]) as Hsh by (rewrite Ha; reflexivity).
  assert (dt a = int8 \/ dt a = int16) as Hdt
      by (rewrite Ha; destruct (ct =? 0)%Z; simpl; auto).
  rewrite (scale_data_Ok scale _ _ _ _ _ He Hg Ho).
  eexists. exists k. split; [reflexivity |].
  split; [exact Hsh |]. destruct scale.
  - cbn [shape dt]. split; [exact Hsh |]. split; [exact Hsz |].
    split; [| split; [exact Hdt | reflexivity]].
    unfold size in *. rewrite He in Hsz. cbn [elems count_items] in *.
    unfold len in *. rewrite length_map. exact Hsz.
  - split; [exact Hsh |]. split; [exact Hsz |]. split; [exact Hsz |].
    split; [exact Hdt | reflexivity].
Qed.

Lemma segment_data_cases metadata a n :
  get_int metadata "subarray_count" = Ok n ->
  segment_data metadata a =
  if (n >? 1)%Z then
    if (size a mod n =? 0)%Z
    then Ok (NDArray (dt a) [n; size a / n] (elems a))
    else Raise ValueError
  else Ok a.
Proof.
  intros Hn. unfold segment_data. rewrite Hn. cbn [bind].
  destruct (n >? 1)%Z eqn:E; [| reflexivity].
  unfold reshape. destruct (n <=? 0)%Z eqn:E'; [lia |]. reflexivity.
Qed.

(** X9.  [scale] changes the element type and the values of the samples
    and nothing else: with and without it, [read] fails on the same files
    with the same exception, and returns the same metadata, the same
    trigger times and a sample array of the same shape, of dtype float64
    with [scale] and int8 or int16 without. *)
Theorem scale_changes_values_only raw :
  outline (read host raw true true) = outline (read host raw true false)
  /\ (forall metadata trigtimes data,
         read host raw true true = Ok (Full metadata trigtimes data) ->
         dt data = float64)
  /\ (forall metadata trigtimes data,
         read host raw true false = Ok (Full metadata trigtimes data) ->
         dt data = int8 \/ dt data = int16).
Proof.
  destruct (read_metadata host raw) as [[s md] | e] eqn:Hm.
  2:{ unfold read. rewrite Hm. cbn [bind].
      split; [reflexivity |]. split; intros; discriminate. }
  rewrite !(read_full_eq _ _ _ _ Hm).
  destruct (read_trigtimes host raw s md) as [trig | e]; cbn [bind].
  2:{ split; [reflexivity |]. split; intros; discriminate. }
  destruct (read_samples host raw s md) as [a | e] eqn:Hs; cbn [bind].
  2:{ split; [reflexivity |]. split; intros; discriminate. }
  destruct (scale_data_shape _ _ _ _ true Hm Hs)
    as (a1 & k & -> & Hsh & Hsh1 & Hsz & Hsz1 & Hdt & Hdt1).
  destruct (scale_data_shape _ _ _ _ false Hm Hs)
    as (a0 & k0 & -> & _ & Hsh0 & Hsz' & Hsz0 & _ & Hdt0).
  assert (k0 = k) as -> by congruence.
  cbn [bind].
  destruct (array_fields host _ _ _ Hm)
    as (wd & ut & tta & ct & wac & n & _ & _ & _ & _ & _ & Hn).
  rewrite !(segment_data_cases _ _ _ Hn).
  rewrite Hsz1, Hsz0.
  destruct (n >? 1)%Z; [destruct (k mod n =? 0)%Z |]; cbn [bind outline].
  - split; [reflexivity |].
    split; intros md' trig' data [= _ _ <-]; cbn [dt]; congruence.
  - split; [reflexivity |]. split; intros; discriminate.
  - split; [cbn [shape]; congruence |].
    split; intros md' trig' data [= _ _ <-]; congruence.
Qed.
End SampleArray.

(** Six 16-bit samples: [comm_type] is 1. *)
Lemma samples_are_read_witness :
  exists metadata samples,
    read_metadata Little two_segments = Ok (0, metadata)
    /\ read_samples Little two_segments 0 metadata
       = Ok (NDArray int16 [6] (Ints samples))
    /\ samples = [1; 2; 3; -1; -2; 300]
    /\ Forall (fits 16) samples.
Proof.
  pose (metadata := match read_metadata Little two_segments with
                    | Ok (_, md) => md
                    | Raise _ => []
                    end).
  assert (read_metadata Little two_segments = Ok (0, metadata)) as Hm
      by (vm_compute; reflexivity).
  destruct (proj1 (samples_are_read Little two_segments 0 metadata
                     346 0 0 1 6 eq_refl eq_refl eq_refl eq_refl eq_refl
                     ltac:(lia))
              ltac:(vm_compute; discriminate))
    as (samples & Hs & _ & _ & Hfit).
  assert (read_samples Little two_segments 0 metadata
          = Ok (NDArray int16 [6] (Ints [1; 2; 3; -1; -2; 300]))) as E
      by (vm_compute; reflexivity).
  rewrite E in Hs. injection Hs as <-.
  exists metadata, [1; 2; 3; -1; -2; 300].
  split; [exact Hm |]. split; [exact E |]. split; [reflexivity |].
  exact Hfit.
Defined.

Section ReadOutcomes.
#[local] Open Scope string_scope.
Variable host : endian.

(** X10.  With at most one segment ([subarray_count] 1, but also 0 or a
    negative number), the samples are returned as a one-dimensional array,
    of length [wave_array_count] when that count is not negative. *)
Theorem one_segment_stays_flat raw scale metadata trigtimes data n :
  read host raw true scale = Ok (Full metadata trigtimes data) ->
  get_int metadata "subarray_count" = Ok n ->
  n <= 1 ->
  exists k,
    shape data = [k] /\ size data = k
    /\ forall wac,
        get_int metadata "wave_array_count" = Ok wac -> 0 <= wac -> k = wac.
Proof.
  intros H Hn Hle.
  destruct (read_Ok_metadata host _ _ _ _ H) as [s Hm]. cbn [metadata_of] in Hm.
  rewrite (read_full_eq host _ _ _ _ Hm) in H.
  bind_inv_as H trig Htrig. bind_inv_as H a Ha.
  bind_inv_as H a' Ha'. bind_inv_as H data' Hdata.
  injection H as _ <-.
  destruct (scale_data_shape host _ _ _ _ scale Hm Ha)
    as (a'' & k & Hsc & Hsh & Hsh' & Hsz & Hsz' & _).
  rewrite Ha' in Hsc. injection Hsc as <-.
  rewrite (segment_data_cases _ _ _ Hn) in Hdata.
  destruct (n >? 1)%Z eqn:E; [lia |]. injection Hdata as <-.
  exists k. split; [exact Hsh' |]. split; [exact Hsz' |].
  intros wac Hwac H0.
  destruct (read_samples_inv host _ _ _ _ Ha)
    as (d & k' & wac' & cs & Hwac' & _ & Hk' & Hk).
  rewrite Hwac in Hwac'. injection Hwac' as <-.
  rewrite <- Hsz, Hk'. apply Hk. exact H0.
Qed.

Lemma unpack_header_Raise raw e :
  unpack_header host raw = Raise e -> e = StructError.
Proof.
  intros H.
  destruct (Z_lt_ge_dec (find raw WAVEDESC) 0) as [Hneg | Hnn];
    [rewrite unpack_header_short in H by lia; congruence |].
  destruct (Z_lt_ge_dec (len raw) (find raw WAVEDESC + 346)) as [Hsh | Hlong];
    [rewrite unpack_header_short in H by lia; congruence |].
  destruct (unpack_header_complete host raw) as [md Hmd]; [lia | lia |].
  rewrite Hmd in H. discriminate H.
Qed.

(** The five codes of an unpacked header are integers. *)
Lemma header_codes raw startpos unpacked :
  unpack_header host raw = Ok (startpos, unpacked) ->
  exists c1 c2 c3 tb fvt,
    get_int unpacked "record_type" = Ok c1
    /\ get_int unpacked "processing_done" = Ok c2
    /\ get_int unpacked "vert_coupling" = Ok c3
    /\ get_int unpacked "time_base" = Ok tb
    /\ get_int unpacked "fixed_vert_gain" = Ok fvt.
Proof.
  intros H.
  pose proof (fun field off Hf =>
                header_int_field host raw startpos unpacked field off "h"
                  H Hf (or_introl eq_refl)) as F.
  do 5 eexists.
  split; [apply (F "record_type" 316); reflexivity |].
  split; [apply (F "processing_done" 318); reflexivity |].
  split; [apply (F "vert_coupling" 326); reflexivity |].
  split; [apply (F "time_base" 324); reflexivity |].
  apply (F "fixed_vert_gain" 332); reflexivity.
Qed.

Lemma read_metadata_Raise raw e :
  read_metadata host raw = Raise e -> e = StructError \/ e = IndexError.
Proof.
  unfold read_metadata. intros H.
  destruct (unpack_header host raw) as [[s md] | e'] eqn:Hu; cbn [bind] in H.
  - right.
    destruct (header_codes _ _ _ Hu)
      as (c1 & c2 & c3 & tb & fvt & H1 & H2 & H3 & Htb & Hfvt).
    destruct (pretty_format_cases host _ _ _ _ _ _ _ _ Hu H1 H2 H3 Htb Hfvt)
      as [Hok Hbad].
    destruct (pretty_format md) as [md' | e''] eqn:Hp; [discriminate H |].
    injection H as <-.
    assert (~ valid_codes c1 c2 c3 tb fvt) as Hv.
    { intros V. destruct (Hok V) as [md' Hmd']. discriminate Hmd'. }
    specialize (Hbad Hv). congruence.
  - left. injection H as <-. eapply unpack_header_Raise. exact Hu.
Qed.

Lemma read_data_Raise raw startpos metadata scale e :
  read_metadata host raw = Ok (startpos, metadata) ->
  read host raw true scale = Raise e -> e = ValueError.
Proof.
  intros Hm H. rewrite (read_full_eq host _ _ _ _ Hm) in H.
  destruct (read_trigtimes host raw startpos metadata) as [trig | e'] eqn:Ht;
    cbn [bind] in H.
  2:{ injection H as <-. eapply read_trigtimes_Raise; eassumption. }
  destruct (array_fields host _ _ _ Hm)
    as (wd & ut & tta & ct & wac & n & Hwd & Hut & Htta & Hct & Hwac & Hn).
  destruct (read_samples host raw startpos metadata) as [a | e'] eqn:Hs;
    cbn [bind] in H.
  2:{ injection H as <-.
      rewrite (read_samples_eq host _ _ _ _ _ _ _ _ Hwd Hut Htta Hct Hwac)
        in Hs.
      eapply fromstring_Raise. exact Hs. }
  destruct (scale_data_shape host _ _ _ _ scale Hm Hs) as (a' & k & Hsc & _).
  rewrite Hsc in H. cbn [bind] in H. rewrite (segment_data_cases _ _ _ Hn) in H.
  destruct (n >? 1)%Z; [| discriminate H].
  destruct (size a' mod n =? 0)%Z; [discriminate H |].
  cbn [bind] in H. congruence.
Qed.

(** X11.  The exceptions of [read] are three: [struct.error] from the
    header, [IndexError] from the pretty-formatting step, [ValueError]
    from the arrays, the last one only with [readdata].  In particular a
    file can never make [read] raise [KeyError], [TypeError] or
    [AttributeError]. *)
Theorem read_raises_three_exceptions raw readdata scale e :
  read host raw readdata scale = Raise e ->
  e = StructError \/ e = IndexError \/ (e = ValueError /\ readdata = true).
Proof.
  intros H.
  destruct (read_metadata host raw) as [[s md] | e'] eqn:Hm.
  - destruct readdata.
    + right. right. split; [| reflexivity].
      eapply read_data_Raise; eassumption.
    + unfold read in H. rewrite Hm in H. discriminate H.
  - unfold read in H. rewrite Hm in H. injection H as <-.
    destruct (read_metadata_Raise _ _ Hm); auto.
Qed.
End ReadOutcomes.

(** Three samples in two segments: [ValueError]. *)
Lemma read_raises_three_exceptions_witness :
  read Little uneven true true = Raise ValueError
  /\ (ValueError = StructError \/ ValueError = IndexError
      \/ (ValueError = ValueError /\ true = true)).
Proof.
  assert (read Little uneven true true = Raise ValueError) as H
      by (vm_compute; reflexivity).
  split; [exact H |].
  exact (read_raises_three_exceptions Little uneven true true ValueError H).
Defined.

(** The scenario of the specification: one segment, four samples. *)
Lemma one_segment_stays_flat_witness :
  exists metadata trigtimes data,
    read Little scenario true true = Ok (Full metadata trigtimes data)
    /\ get_int metadata "subarray_count" = Ok 1
    /\ exists k, shape data = [k] /\ size data = k.
Proof.
  pose (metadata := match read_metadata Little scenario with
                    | Ok (_, md) => md
                    | Raise _ => []
                    end).
  pose (trigtimes := NDArray float64 [2; 0] (Floats [])).
  pose (data := NDArray float64 [4] (Floats [3; 5; 7; 9]%float)).
  assert (read Little scenario true true = Ok (Full metadata trigtimes data))
    as H by (vm_compute; reflexivity).
  exists metadata, trigtimes, data.
  split; [exact H |]. split; [reflexivity |].
  destruct (one_segment_stays_flat Little scenario true metadata trigtimes
              data 1 H eq_refl ltac:(lia)) as (k & Hk & Hsz & _).
  exists k. split; [exact Hk | exact Hsz].
Defined.

(** ** Scaling, on what [read] returns *)

Section ScaledSamples.
#[local] Open Scope string_scope.
Variable host : endian.

(** [x == x] fails on a NaN and on nothing else. *)
Lemma py_eq_float_refl (x : float) :
  py_eq (VFloat x) (VFloat x) = negb (PrimFloat.is_nan x).
Proof.
  cbn [py_eq]. unfold PrimFloat.is_nan. rewrite negb_involutive. reflexivity.
Qed.

(** C5.  A file that is read without [scale] is read with it, with the
    same metadata and trigger times and a float64 array of the same
    shape, in which every sample is the double
    [float(raw[i]) * vertical_gain + vertical_offset], gain and offset
    being those of the metadata.  [scaled[i] == raw[i] * vertical_gain +
    vertical_offset] holds for the samples that are not NaN, and for no
    other.  Without [scale] the stored integers are returned as they
    are. *)
Theorem scaling_is_linear raw metadata trigtimes data :
  read host raw true false = Ok (Full metadata trigtimes data) ->
  exists startpos a samples g o,
    read_metadata host raw = Ok (startpos, metadata)
    /\ read_samples host raw startpos metadata = Ok a
    /\ elems a = Ints samples
    /\ elems data = Ints samples
    /\ dt data = dt a
    /\ get_float metadata "vertical_gain" = Ok g
    /\ get_float metadata "vertical_offset" = Ok o
    /\ scale_data true metadata a
       = Ok (NDArray float64 (shape a) (Floats (map (scaled g o) samples)))
    /\ scale_data false metadata a = Ok a
    /\ read host raw true true
       = Ok (Full metadata trigtimes
               (NDArray float64 (shape data)
                  (Floats (map (scaled g o) samples))))
    /\ (forall i v,
           nth_error samples i = Some v ->
           exists x,
             nth_error (map (scaled g o) samples) i = Some x
             /\ x = PrimFloat.add (PrimFloat.mul (float_of_int v) g) o
             /\ py_eq (VFloat x)
                  (VFloat (PrimFloat.add (PrimFloat.mul (float_of_int v) g) o))
                = negb (PrimFloat.is_nan x)).
Proof.
  intros H.
  destruct (read_Ok_metadata host _ _ _ _ H) as [s Hm].
  cbn [metadata_of] in Hm.
  pose proof (read_full_eq host _ _ _ true Hm) as Htrue.
  rewrite (read_full_eq host _ _ _ _ Hm) in H.
  bind_inv_as H trig Ht. bind_inv_as H a Ha. bind_inv_as H a' Hsc.
  bind_inv_as H d Hd. injection H as <- <-.
  destruct (read_samples_inv _ _ _ _ _ Ha) as (d0 & k & wac & cs & _ & Ea & _).
  assert (elems a = Ints (map (signed host) cs)) as He
      by (rewrite Ea; reflexivity).
  destruct (metadata_float_field host raw s metadata
              "vertical_gain" 156 "f" Hm eq_refl (or_introl eq_refl))
    as (g & Hg).
  destruct (metadata_float_field host raw s metadata
              "vertical_offset" 160 "f" Hm eq_refl (or_introl eq_refl))
    as (o & Ho).
  pose proof (scale_data_Ok true _ _ _ _ _ He Hg Ho) as Hon.
  pose proof (scale_data_Ok false _ _ _ _ _ He Hg Ho) as Hoff.
  cbv iota in Hon, Hoff.
  assert (a' = a) as -> by congruence.
  set (samples := map (signed host) cs) in *.
  set (b := NDArray float64 (shape a) (Floats (map (scaled g o) samples)))
    in *.
  assert (size b = size a) as Hsize.
  { unfold size, b. rewrite He. cbn [elems count_items]. unfold len.
    rewrite length_map. reflexivity. }
  destruct (array_fields host _ _ _ Hm)
    as (_ & _ & _ & _ & _ & n & _ & _ & _ & _ & _ & Hn).
  rewrite (segment_data_cases _ _ _ Hn) in Hd.
  assert (elems d = Ints samples /\ dt d = dt a
          /\ segment_data metadata b
             = Ok (NDArray float64 (shape d)
                     (Floats (map (scaled g o) samples))))
    as (Hed & Hdd & Hseg).
  { rewrite (segment_data_cases _ _ _ Hn), Hsize.
    destruct (n >? 1)%Z.
    - destruct (size a mod n =? 0)%Z; [| discriminate Hd].
      injection Hd as <-. cbn [elems dt shape]. auto.
    - injection Hd as <-. auto. }
  exists s, a, samples, g, o.
  split; [exact Hm |]. split; [exact Ha |]. split; [exact He |].
  split; [exact Hed |]. split; [exact Hdd |].
  split; [exact Hg |]. split; [exact Ho |].
  split; [exact Hon |]. split; [exact Hoff |]. split.
  - rewrite Htrue, Ht. cbn [bind]. rewrite Ha. cbn [bind].
    rewrite Hon. cbn [bind]. rewrite Hseg. reflexivity.
  - intros i v Hv. exists (scaled g o v).
    split; [rewrite nth_error_map, Hv; reflexivity |].
    split; [reflexivity |]. exact (py_eq_float_refl _).
Qed.
End ScaledSamples.

(** The scenario of the specification: samples 1, 2, 3, 4 with gain 2.0
    and offset 1.0 are read as 3.0, 5.0, 7.0, 9.0, each equal to
    [raw[i] * 2.0 + 1.0]. *)
Lemma scaling_is_linear_witness :
  exists metadata trigtimes,
    read Little scenario true false
    = Ok (Full metadata trigtimes (NDArray int8 [4] (Ints [1; 2; 3; 4])))
    /\ read Little scenario true true
       = Ok (Full metadata trigtimes
               (NDArray float64 [4] (Floats [3; 5; 7; 9]%float)))
    /\ forall i v,
         nth_error [1; 2; 3; 4] i = Some v ->
         exists x,
           nth_error [3; 5; 7; 9]%float i = Some x
           /\ py_eq (VFloat x)
                (VFloat (PrimFloat.add (PrimFloat.mul (float_of_int v) 2) 1))
              = true.
Proof.
  pose (metadata := match read_metadata Little scenario with
                    | Ok (_, md) => md
                    | Raise _ => []
                    end).
  pose (trigtimes := NDArray float64 [2; 0] (Floats [])).
  pose (data := NDArray int8 [4] (Ints [1; 2; 3; 4])).
  assert (read Little scenario true false = Ok (Full metadata trigtimes data))
    as H by (vm_compute; reflexivity).
  destruct (scaling_is_linear Little scenario metadata trigtimes data H)
    as (s & a & samples & g & o & _ & _ & _ & Hed & _ & Hg & Ho & _ & _
        & Hread & Hall).
  injection Hed as <-.
  assert (Ok 2%float = Ok g) as Eg by exact Hg.
  assert (Ok 1%float = Ok o) as Eo by exact Ho.
  injection Eg as <-. injection Eo as <-.
  exists metadata, trigtimes.
  split; [exact H |]. split; [exact Hread |].
  intros i v Hv. destruct (Hall i v Hv) as (x & Hx & _ & Heq).
  exists x. split; [exact Hx |]. rewrite Heq.
  do 4 (destruct i as [| i];
        [injection Hx as <-; vm_compute; reflexivity |]).
  destruct i; discriminate Hx.
Defined.

(** C5 as stated fails on samples that are not numbers: with a NaN gain
    the four samples are read, scaled to NaN, and none of them is [==] to
    [raw[i] * vertical_gain + vertical_offset]. *)
Lemma nan_samples_are_not_equal :
  exists metadata trigtimes out g o,
    read Little nan_gain true false
    = Ok (Full metadata trigtimes (NDArray int8 [4] (Ints [1; 2; 3; 4])))
    /\ read Little nan_gain true true
       = Ok (Full metadata trigtimes (NDArray float64 [4] (Floats out)))
    /\ get_float metadata "vertical_gain" = Ok g
    /\ get_float metadata "vertical_offset" = Ok o
    /\ List.length out = 4%nat
    /\ forall i v x,
         nth_error [1; 2; 3; 4] i = Some v ->
         nth_error out i = Some x ->
         py_eq (VFloat x)
           (VFloat (PrimFloat.add (PrimFloat.mul (float_of_int v) g) o))
         = false.
Proof.
  do 5 eexists.
  split; [vm_compute; reflexivity |].
  split; [vm_compute; reflexivity |].
  split; [vm_compute; reflexivity |].
  split; [vm_compute; reflexivity |].
  split; [reflexivity |].
  intros i v x Hv Hx.
  do 4 (destruct i as [| i];
        [injection Hv as <-; injection Hx as <-; vm_compute; reflexivity |]).
  destruct i; discriminate Hv.
Qed.

(** ** Printing the metadata *)

Section Printing.
#[local] Open Scope string_scope.

Lemma length_spaces (n : Z) : String.length (spaces n) = Z.to_nat n.
Proof.
  unfold spaces. induction (Z.to_nat n) as [| k IH]; simpl;
    [reflexivity | f_equal; exact IH].
Qed.

Lemma print_field_Ok metadata key l :
  print_field metadata key = Ok l ->
  exists k v,
    key = VStr k /\ dict_find k metadata = Some v /\ l = field_line (k, v).
Proof.
  unfold print_field. intros H.
  bind_inv_as H n Hn. bind_inv_as H v Hv. injection H as <-.
  destruct key; cbn [lookup] in Hv;
    try (destruct (hashable _); discriminate Hv).
  exists s, v. cbn [py_len] in Hn. injection Hn as <-.
  unfold dict_get in Hv.
  destruct (dict_find s metadata) as [v' |]; [| discriminate Hv].
  injection Hv as ->. auto.
Qed.

Lemma print_field_present metadata k v :
  dict_find k metadata = Some v ->
  print_field metadata (VStr k) = Ok (field_line (k, v)).
Proof.
  intros H. unfold print_field. cbn [py_len lookup bind].
  unfold dict_get. rewrite H. reflexivity.
Qed.

Lemma print_field_absent metadata k :
  dict_find k metadata = None ->
  print_field metadata (VStr k) = Raise KeyError.
Proof.
  intros H. unfold print_field. cbn [py_len lookup bind].
  unfold dict_get. rewrite H. reflexivity.
Qed.

Lemma dict_find_None {V : Type} (d : dict V) (k : string) :
  dict_find k d = None <-> ~ In k (keys d).
Proof.
  induction d as [| [k0 v0] d IH]; simpl.
  - tauto.
  - destruct (String.eqb k k0) eqn:E.
    + apply String.eqb_eq in E. subst k0.
      split; [discriminate | intros H; exfalso; apply H; auto].
    + apply String.eqb_neq in E. rewrite IH. split.
      * intros H [Hk | Hk]; [congruence | tauto].
      * tauto.
Qed.

Lemma dict_find_NoDup {V : Type} (d : dict V) (k : string) (v : V) :
  NoDup (keys d) -> In (k, v) d -> dict_find k d = Some v.
Proof.
  induction d as [| [k0 v0] d IH]; simpl; intros ND Hin; [destruct Hin |].
  apply NoDup_cons_iff in ND. destruct ND as [Hfresh ND].
  destruct Hin as [Hin | Hin].
  - injection Hin as -> ->. rewrite String.eqb_refl. reflexivity.
  - destruct (String.eqb k k0) eqn:E; [| auto].
    apply String.eqb_eq in E. subst k0. exfalso. apply Hfresh.
    apply (in_map fst) in Hin. exact Hin.
Qed.

(** Printing the fields of some entries that are all found. *)
Lemma print_fields_entries metadata (entries : dict value) :
  (forall k v, In (k, v) entries -> dict_find k metadata = Some v) ->
  print_fields metadata (map VStr (keys entries))
  = (map field_line entries, Ok tt).
Proof.
  induction entries as [| [k v] entries IH]; intros H; [reflexivity |].
  cbn [keys map fst print_fields].
  rewrite (print_field_present _ _ _ (H k v (or_introl eq_refl))).
  change (map VStr (map fst entries)) with (map VStr (keys entries)).
  rewrite IH; [reflexivity |].
  intros k0 v0 Hin. apply H. right. exact Hin.
Qed.

(** Every line that is printed shows a field of the dictionary. *)
Lemma print_fields_lines metadata ks out res :
  print_fields metadata ks = (out, res) ->
  Forall (fun l => exists k v,
              dict_find k metadata = Some v /\ l = field_line (k, v)) out.
Proof.
  revert out res. induction ks as [| key ks IH]; intros out res H.
  - injection H as <- _. constructor.
  - cbn [print_fields] in H.
    destruct (print_field metadata key) as [l |] eqn:Hl.
    + destruct (print_fields metadata ks) as [out' res'] eqn:Hrest.
      injection H as <- _. constructor.
      * destruct (print_field_Ok _ _ _ Hl) as (k & v & _ & Hv & ->). eauto.
      * eapply IH. reflexivity.
    + injection H as <- _. constructor.
Qed.

Lemma pretty_metadata_lines metadata include out res :
  pretty_metadata metadata include = (out, res) ->
  Forall (fun l => exists k v,
              dict_find k metadata = Some v /\ l = field_line (k, v)) out.
Proof.
  unfold pretty_metadata. intros H.
  destruct (py_eq include (VList []));
    [eapply print_fields_lines; exact H |].
  destruct (py_eq include (VStr "main"));
    [eapply print_fields_lines; exact H |].
  destruct (iterate include) as [ks |].
  - eapply print_fields_lines; exact H.
  - injection H as <- _. constructor.
Qed.

(** X12.  With the default [include], [pretty_metadata] prints one line
    for every field of the metadata that [read] returned, 56 lines in the
    order of the table, each made of the key, its padding and the value,
    and it does not raise. *)
Theorem pretty_metadata_prints_every_field host raw readdata scale r :
  read host raw readdata scale = Ok r ->
  pretty_metadata (metadata_of r) (VList [])
  = (map field_line (metadata_of r), Ok tt)
  /\ List.length (map field_line (metadata_of r)) = 56%nat.
Proof.
  intros H.
  assert (NoDup (keys (metadata_of r))
          /\ List.length (metadata_of r) = 56%nat) as [ND Hlen].
  { destruct (read_Ok_metadata host _ _ _ _ H) as [s Hm].
    pose proof (read_metadata_keys host _ _ _ Hm) as Hk.
    split.
    - rewrite Hk. apply lecroy_format_keys_nodup.
    - transitivity (List.length (keys (metadata_of r))).
      + unfold keys. rewrite length_map. reflexivity.
      + rewrite Hk. reflexivity. }
  split; [| rewrite length_map; exact Hlen].
  unfold pretty_metadata. cbn [py_eq]. cbv iota.
  apply print_fields_entries.
  intros k v Hin. apply dict_find_NoDup; assumption.
Qed.
End Printing.

(** The scenario of the specification. *)
Lemma pretty_metadata_prints_every_field_witness :
  exists r,
    read Little scenario false true = Ok r
    /\ pretty_metadata (metadata_of r) (VList [])
       = (map field_line (metadata_of r), Ok tt).
Proof.
  pose (r := match read Little scenario false true with
             | Ok r => r
             | Raise _ => Metadata []
             end).
  assert (read Little scenario false true = Ok r) as H
      by (vm_compute; reflexivity).
  exists r. split; [exact H |].
  exact (proj1 (pretty_metadata_prints_every_field Little scenario false true
                  r H)).
Defined.

Section PrintingSelections.
#[local] Open Scope string_scope.

(** Printing keys that are all in the dictionary. *)
Lemma print_fields_present metadata (ks : list string) :
  (forall k, In k ks -> In k (keys metadata)) ->
  exists out,
    print_fields metadata (map VStr ks) = (out, Ok tt)
    /\ Forall2 (fun k l => exists v,
                    dict_find k metadata = Some v /\ l = field_line (k, v))
         ks out.
Proof.
  induction ks as [| k ks IH]; intros H.
  - exists []. split; [reflexivity | constructor].
  - destruct IH as (out & Hout & Hall);
      [intros k0 Hin; apply H; right; exact Hin |].
    destruct (dict_find k metadata) as [v |] eqn:Hv.
    + exists (field_line (k, v) :: out). split.
      * cbn [map print_fields]. rewrite (print_field_present _ _ _ Hv).
        rewrite Hout. reflexivity.
      * constructor; [eauto | exact Hall].
    + exfalso. apply dict_find_None in Hv. apply Hv, H. left. reflexivity.
Qed.

(** X13.  With [include='main'], [pretty_metadata] prints the eleven main
    fields of the metadata that [read] returned, in the order of its list,
    each with its value, and it does not raise: every main key is a key
    of the table. *)
Theorem pretty_metadata_prints_main_fields host raw readdata scale r :
  read host raw readdata scale = Ok r ->
  exists out,
    pretty_metadata (metadata_of r) (VStr "main") = (out, Ok tt)
    /\ List.length out = 11%nat
    /\ Forall2 (fun k l => exists v,
                    dict_find k (metadata_of r) = Some v
                    /\ l = field_line (k, v))
         main_keys out.
Proof.
  intros H.
  destruct (read_Ok_metadata host _ _ _ _ H) as [s Hm].
  pose proof (read_metadata_keys host _ _ _ Hm) as Hk.
  destruct (print_fields_present (metadata_of r) main_keys)
    as (out & Hout & Hall).
  { intros k Hin. rewrite Hk. apply In_by_eqb.
    repeat (destruct Hin as [<- | Hin]; [reflexivity |]). destruct Hin. }
  exists out. split; [exact Hout |]. split; [| exact Hall].
  apply Forall2_length in Hall. rewrite <- Hall. reflexivity.
Qed.

Lemma table_keys_are_short :
  Forall (fun k => (String.length k <= 18)%nat) (keys lecroy_format).
Proof.
  apply Forall_forall. intros k Hin.
  repeat (destruct Hin as [<- | Hin]; [vm_compute; lia |]). destruct Hin.
Qed.

(** X14.  Whatever [include] is and however the call ends, every line
    that [pretty_metadata] prints for the metadata of [read] shows a field
    of the table with the value stored under it, and the key and its
    padding fill exactly 20 columns, so that the values are aligned. *)
Theorem printed_lines_are_aligned host raw readdata scale r include out res :
  read host raw readdata scale = Ok r ->
  pretty_metadata (metadata_of r) include = (out, res) ->
  Forall (fun l => exists k v,
              In k (keys lecroy_format)
              /\ dict_find k (metadata_of r) = Some v
              /\ l = [VStr k; VStr (spaces (20 - Z.of_nat (String.length k))); v]
              /\ (String.length k
                  + String.length (spaces (20 - Z.of_nat (String.length k)))
                  = 20)%nat)
    out.
Proof.
  intros H Hp.
  destruct (read_Ok_metadata host _ _ _ _ H) as [s Hm].
  pose proof (read_metadata_keys host _ _ _ Hm) as Hk.
  eapply Forall_impl; [| exact (pretty_metadata_lines _ _ _ _ Hp)].
  intros l (k & v & Hv & ->). exists k, v.
  assert (In k (keys lecroy_format)) as Hin.
  { rewrite <- Hk. apply dict_find_In in Hv.
    apply (in_map fst) in Hv. exact Hv. }
  split; [exact Hin |]. split; [exact Hv |]. split; [reflexivity |].
  pose proof (proj1 (Forall_forall _ _) table_keys_are_short k Hin) as Hs.
  cbv beta in Hs. rewrite length_spaces. lia.
Qed.

(** X15.  With an explicit list of keys, [pretty_metadata] prints the
    lines of the keys that come before the first one missing from the
    dictionary, then raises [KeyError]: what was printed stays printed,
    and the keys after the missing one are not looked at. *)
Theorem pretty_metadata_stops_at_missing_key metadata before missing after :
  (forall k, In k before -> In k (keys metadata)) ->
  ~ In missing (keys metadata) ->
  exists out,
    pretty_metadata metadata (VList (map VStr (before ++ missing :: after)))
    = (out, Raise KeyError)
    /\ Forall2 (fun k l => exists v,
                    dict_find k metadata = Some v /\ l = field_line (k, v))
         before out.
Proof.
  intros Hbefore Hmissing.
  assert (pretty_metadata metadata
            (VList (map VStr (before ++ missing :: after)))
          = print_fields metadata (map VStr (before ++ missing :: after)))
    as ->.
  { unfold pretty_metadata.
    destruct before; reflexivity. }
  clear - Hbefore Hmissing.
  induction before as [| k before IH].
  - exists []. split; [| constructor].
    cbn [app map print_fields].
    rewrite print_field_absent by (apply dict_find_None; exact Hmissing).
    reflexivity.
  - destruct IH as (out & Hout & Hall);
      [intros k0 Hin; apply Hbefore; right; exact Hin |].
    destruct (dict_find k metadata) as [v |] eqn:Hv.
    + exists (field_line (k, v) :: out). split.
      * cbn [app map print_fields] in *.
        rewrite (print_field_present _ _ _ Hv). rewrite Hout. reflexivity.
      * constructor; [eauto | exact Hall].
    + exfalso. apply dict_find_None in Hv. apply Hv, Hbefore. left.
      reflexivity.
Qed.

Lemma no_one_character_key (c : ascii) :
  ~ In (String c "") (keys lecroy_format).
Proof.
  intros Hin.
  pose proof (proj1 (Forall_forall
                       (fun k => (2 <= String.length k)%nat)
                       (keys lecroy_format))) as F.
  assert (Forall (fun k => (2 <= String.length k)%nat) (keys lecroy_format))
    as Hall.
  { apply Forall_forall. intros k Hk.
    repeat (destruct Hk as [<- | Hk]; [vm_compute; lia |]). destruct Hk. }
  specialize (F Hall _ Hin). simpl in F. lia.
Qed.

(** X16.  A string passed as [include] is taken for a list of keys unless
    it is 'main': the loop then draws its characters one by one, and on
    the metadata of [read], which has no one-character key, the call
    raises [KeyError] before printing anything.  This is what passing a
    single field name as a bare string does. *)
Theorem pretty_metadata_of_a_bare_string host raw readdata scale r c name :
  read host raw readdata scale = Ok r ->
  String c name <> "main" ->
  pretty_metadata (metadata_of r) (VStr (String c name))
  = ([], Raise KeyError).
Proof.
  intros H Hname.
  destruct (read_Ok_metadata host _ _ _ _ H) as [s Hm].
  pose proof (read_metadata_keys host _ _ _ Hm) as Hk.
  unfold pretty_metadata. cbn [py_eq].
  apply String.eqb_neq in Hname. rewrite Hname.
  cbn [iterate list_ascii_of_string map print_fields].
  rewrite print_field_absent; [reflexivity |].
  apply dict_find_None. rewrite Hk. apply no_one_character_key.
Qed.
End PrintingSelections.

Section PrintingWitnesses.
#[local] Open Scope string_scope.

(** The scenario of the specification. *)
Lemma pretty_metadata_prints_main_fields_witness :
  exists r out,
    read Little scenario true true = Ok r
    /\ pretty_metadata (metadata_of r) (VStr "main") = (out, Ok tt)
    /\ List.length out = 11%nat.
Proof.
  pose (r := match read Little scenario true true with
             | Ok r => r
             | Raise _ => Metadata []
             end).
  assert (read Little scenario true true = Ok r) as H
      by (vm_compute; reflexivity).
  destruct (pretty_metadata_prints_main_fields Little scenario true true r H)
    as (out & Hout & Hlen & _).
  exists r, out. split; [exact H |]. split; [exact Hout | exact Hlen].
Defined.

(** One key that is there and one that is not. *)
Lemma printed_lines_are_aligned_witness :
  exists r out,
    read Little scenario false true = Ok r
    /\ pretty_metadata (metadata_of r) (VList [VStr "time_base"; VStr "nope"])
       = (out, Raise KeyError)
    /\ out = [[VStr "time_base"; VStr "           "; VStr "1 ps/div"]]
    /\ Forall (fun l => exists k v,
                  In k (keys lecroy_format)
                  /\ dict_find k (metadata_of r) = Some v
                  /\ l = [VStr k;
                          VStr (spaces (20 - Z.of_nat (String.length k))); v]
                  /\ (String.length k
                      + String.length
                          (spaces (20 - Z.of_nat (String.length k)))
                      = 20)%nat)
         out.
Proof.
  pose (r := match read Little scenario false true with
             | Ok r => r
             | Raise _ => Metadata []
             end).
  assert (read Little scenario false true = Ok r) as H
      by (vm_compute; reflexivity).
  assert (pretty_metadata (metadata_of r)
            (VList [VStr "time_base"; VStr "nope"])
          = ([[VStr "time_base"; VStr "           "; VStr "1 ps/div"]],
             Raise KeyError)) as Hp by (vm_compute; reflexivity).
  eexists r, _. split; [exact H |]. split; [exact Hp |].
  split; [reflexivity |].
  exact (printed_lines_are_aligned Little scenario false true r _ _ _ H Hp).
Defined.

Lemma pretty_metadata_stops_at_missing_key_witness :
  exists metadata out,
    read Little scenario false true = Ok (Metadata metadata)
    /\ pretty_metadata metadata
         (VList [VStr "comm_type"; VStr "nope"; VStr "comm_order"])
       = (out, Raise KeyError)
    /\ List.length out = 1%nat.
Proof.
  pose (metadata := match read Little scenario false true with
                    | Ok (Metadata md) => md
                    | _ => []
                    end).
  assert (read Little scenario false true = Ok (Metadata metadata)) as H
      by (vm_compute; reflexivity).
  destruct (pretty_metadata_stops_at_missing_key metadata
              ["comm_type"] "nope" ["comm_order"])
    as (out & Hout & Hall).
  - intros k [<- | []]. apply In_by_eqb. vm_compute. reflexivity.
  - apply dict_find_None. vm_compute. reflexivity.
  - exists metadata, out. split; [exact H |]. split; [exact Hout |].
    apply Forall2_length in Hall. rewrite <- Hall. reflexivity.
Defined.

(** A field name passed as a string. *)
Lemma pretty_metadata_of_a_bare_string_witness :
  exists r,
    read Little scenario false true = Ok r
    /\ pretty_metadata (metadata_of r) (VStr "time_base")
       = ([], Raise KeyError).
Proof.
  pose (r := match read Little scenario false true with
             | Ok r => r
             | Raise _ => Metadata []
             end).
  assert (read Little scenario false true = Ok r) as H
      by (vm_compute; reflexivity).
  exists r. split; [exact H |].
  exact (pretty_metadata_of_a_bare_string Little scenario false true r
           "t"%char "ime_base" H ltac:(discriminate)).
Defined.
End PrintingWitnesses.

(** ** The class [Trace] *)

Section TraceFacts.
#[local] Open Scope string_scope.
Variable host : endian.
Variable room : N.

(** X17.  [Trace] cannot be built without the data: with
    [readdata=False], [read] returns the metadata dictionary alone, whose
    56 keys cannot be unpacked into the three attributes, so the
    constructor raises [ValueError] whenever [read] succeeds, and the
    exception of [read] when it does not. *)
Theorem Trace_needs_the_data raw scale :
  (forall trace, Trace_init host room raw false scale <> Ok trace)
  /\ (forall r,
         read host raw false scale = Ok r ->
         (exists metadata, r = Metadata metadata)
         /\ List.length (keys (metadata_of r)) = 56%nat
         /\ Trace_init host room raw false scale = Raise ValueError)
  /\ (forall e,
         read host raw false scale = Raise e ->
         Trace_init host room raw false scale = Raise e).
Proof.
  assert (forall r, read host raw false scale = Ok r ->
                    exists metadata, r = Metadata metadata) as Hmeta.
  { intros r H. unfold read in H. bind_inv H. destruct a as [s md].
    injection H as <-. eauto. }
  split; [| split].
  - intros trace H. unfold Trace_init in H.
    destruct (read host raw false scale) as [r | e] eqn:Hr;
      [| discriminate H].
    destruct (Hmeta r eq_refl) as [md ->]. discriminate H.
  - intros r H. pose proof (Hmeta r H) as [md ->].
    split; [eauto |]. split.
    + destruct (read_Ok_metadata host _ _ _ _ H) as [s Hm].
      rewrite (read_metadata_keys host _ _ _ Hm). reflexivity.
    + unfold Trace_init. rewrite H. reflexivity.
  - intros e H. unfold Trace_init. rewrite H. reflexivity.
Qed.

Lemma Trace_init_Ok raw readdata scale trace :
  Trace_init host room raw readdata scale = Ok trace ->
  readdata = true
  /\ read host raw true scale
     = Ok (Full (trace_metadata trace) (trace_trigtimes trace)
             (trace_data trace))
  /\ get_times room (trace_data trace) (trace_metadata trace)
     = Ok (trace_time trace)
  /\ trace_readdata trace = true /\ trace_scale trace = scale.
Proof.
  unfold Trace_init. intros H. bind_inv_as H r Hr.
  destruct r as [md | md trig data]; [discriminate H |].
  bind_inv_as H time Htime. injection H as <-. cbn.
  assert (readdata = true) as ->.
  { destruct readdata; [reflexivity |].
    unfold read in Hr. bind_inv Hr. destruct a as [s md'].
    discriminate Hr. }
  auto.
Qed.

(** X18.  [repr] of a [Trace] prints the eleven main fields of its
    metadata and then raises [TypeError]: [__repr__] hands back what
    [pretty_metadata] returns, which is not a string. *)
Theorem Trace_repr_prints_then_raises raw readdata scale trace :
  Trace_init host room raw readdata scale = Ok trace ->
  exists out,
    Trace_repr trace = (out, Raise TypeError)
    /\ List.length out = 11%nat
    /\ Forall2 (fun k l => exists v,
                    dict_find k (trace_metadata trace) = Some v
                    /\ l = field_line (k, v))
         main_keys out.
Proof.
  intros H. apply Trace_init_Ok in H. destruct H as (_ & Hr & _).
  destruct (read_Ok_metadata host _ _ _ _ Hr) as [s Hm].
  cbn [metadata_of] in Hm.
  pose proof (read_metadata_keys host _ _ _ Hm) as Hk.
  destruct (print_fields_present (trace_metadata trace) main_keys)
    as (out & Hout & Hall).
  { intros k Hin. rewrite Hk. apply In_by_eqb.
    repeat (destruct Hin as [<- | Hin]; [reflexivity |]). destruct Hin. }
  exists out. split; [| split; [| exact Hall]].
  - unfold Trace_repr, pretty_metadata. cbn [py_eq]. cbv iota.
    change ("main" =? "main") with true. cbv iota. rewrite Hout.
    reflexivity.
  - apply Forall2_length in Hall. rewrite <- Hall. reflexivity.
Qed.
End TraceFacts.

(** The scenario of the specification. *)
Lemma Trace_repr_prints_then_raises_witness :
  exists trace out,
    Trace_init Little 4 scenario true true = Ok trace
    /\ Trace_repr trace = (out, Raise TypeError)
    /\ List.length out = 11%nat.
Proof.
  pose (trace := match Trace_init Little 4 scenario true true with
                 | Ok t => t
                 | Raise _ =>
                     mkTrace true true [] (NDArray float64 [] (Floats []))
                       (NDArray float64 [] (Floats []))
                       (NDArray float64 [] (Floats []))
                 end).
  assert (Trace_init Little 4 scenario true true = Ok trace) as H
      by (vm_compute; reflexivity).
  destruct (Trace_repr_prints_then_raises Little 4 scenario true true trace H)
    as (out & Hout & Hlen & _).
  exists trace, out. split; [exact H |]. split; [exact Hout | exact Hlen].
Defined.

Section TraceOutcomes.
#[local] Open Scope string_scope.
Variable host : endian.
Variable room : N.

(** The sample array [read] returns has one or two dimensions. *)
Lemma read_full_shape raw scale metadata trigtimes data :
  read host raw true scale = Ok (Full metadata trigtimes data) ->
  (exists startpos, read_metadata host raw = Ok (startpos, metadata))
  /\ exists points, getitem (shape data) (-1) = Ok points.
Proof.
  intros H.
  destruct (read_Ok_metadata host _ _ _ _ H) as [s Hm].
  cbn [metadata_of] in Hm. split; [eauto |].
  rewrite (read_full_eq host _ _ _ _ Hm) in H.
  bind_inv_as H trig Ht. bind_inv_as H a Ha. bind_inv_as H a' Hsc.
  bind_inv_as H d Hd. injection H as _ <-.
  destruct (scale_data_shape host _ _ _ _ scale Hm Ha)
    as (a2 & k & Hsc2 & _ & Hsh & _).
  assert (a2 = a') as -> by congruence.
  destruct (array_fields host _ _ _ Hm)
    as (wd & ut & tta & ct & wac & n & _ & _ & _ & _ & _ & Hn).
  rewrite (segment_data_cases _ _ _ Hn) in Hd.
  destruct (n >? 1)%Z.
  - destruct (size a' mod n =? 0)%Z; [| discriminate Hd].
    injection Hd as <-. eexists. reflexivity.
  - injection Hd as <-. rewrite Hsh. eexists. reflexivity.
Qed.

(** When [np.arange] raises, and what. *)
Lemma arange_Raise (stop : float) e :
  arange room stop = Raise e ->
  (e = ValueError
   /\ (PrimFloat.is_nan stop = true
       \/ ceil stop = None
       \/ exists n, ceil stop = Some n
                    /\ (n < - 2 ^ 63 \/ 2 ^ 63 < n \/ 2 ^ 60 <= n < 2 ^ 63)))%Z
  \/ (e = MemoryError
      /\ exists n, ceil stop = Some n /\ Z.of_N room < n < 2 ^ 60)%Z.
Proof.
  unfold arange. intros H.
  destruct (PrimFloat.is_nan stop); [left; split; [congruence | auto] |].
  destruct (ceil stop) as [n |]; [| left; split; [congruence | auto]].
  destruct ((n <? - 2 ^ 63) || (2 ^ 63 <? n))%Z eqn:E1.
  { left. split; [congruence |]. right. right. exists n.
    split; [reflexivity |].
    apply orb_true_iff in E1. destruct E1 as [E1 | E1]; lia. }
  apply orb_false_iff in E1. destruct E1 as [E1 E1'].
  cbv zeta in H.
  destruct (n =? 2 ^ 63)%Z eqn:E2.
  { rewrite Z.max_r in H by lia.
    change (2 ^ 63 <=? 8 * 0)%Z with false in H.
    destruct (Z.of_N room <? 0)%Z eqn:E4; [| discriminate H].
    apply Z.ltb_lt in E4. lia. }
  destruct (2 ^ 63 <=? 8 * Z.max n 0)%Z eqn:E3.
  { left. split; [congruence |]. right. right. exists n.
    split; [reflexivity |]. lia. }
  destruct (Z.of_N room <? Z.max n 0)%Z eqn:E4; [| discriminate H].
  right. split; [congruence |]. exists n. split; [reflexivity |].
  apply Z.ltb_lt in E4. apply Z.leb_gt in E3. lia.
Qed.

(** X19.  The constructor of [Trace] raises four exceptions and no
    other: [struct.error], [IndexError], [ValueError] and [MemoryError].
    Either [read] raised, one of its three; or [read] returned the
    metadata alone and the unpacking raises [ValueError]; or [read]
    returned the data and [np.arange] raised on the stop
    [points * dt + offset]: [ValueError] when the stop is NaN or infinite
    or its ceiling lies outside [-2^63, 2^63] or is 2^60 or more,
    [MemoryError] when its ceiling is a length below 2^60 that the machine
    cannot allocate.  The attribute and key accesses of [get_times] never
    fail. *)
Theorem Trace_raises_four_exceptions raw readdata scale e :
  Trace_init host room raw readdata scale = Raise e ->
  (read host raw readdata scale = Raise e
   /\ (e = StructError \/ e = IndexError
       \/ (e = ValueError /\ readdata = true)))
  \/ (readdata = false /\ e = ValueError
      /\ exists metadata,
           read host raw readdata scale = Ok (Metadata metadata))
  \/ (readdata = true
      /\ exists metadata trigtimes data points dt offset stop,
           read host raw readdata scale = Ok (Full metadata trigtimes data)
           /\ getitem (shape data) (-1) = Ok points
           /\ get_float metadata "horiz_interval" = Ok dt
           /\ get_float metadata "horiz_offset" = Ok offset
           /\ stop = PrimFloat.add (PrimFloat.mul (float_of_int points) dt)
                       offset
           /\ arange room stop = Raise e
           /\ ((e = ValueError
                /\ (PrimFloat.is_nan stop = true
                    \/ ceil stop = None
                    \/ exists n,
                         ceil stop = Some n
                         /\ (n < - 2 ^ 63 \/ 2 ^ 63 < n
                             \/ 2 ^ 60 <= n < 2 ^ 63)))
               \/ (e = MemoryError
                   /\ exists n,
                        ceil stop = Some n
                        /\ Z.of_N room < n < 2 ^ 60)))%Z.
Proof.
  intros H. unfold Trace_init in H.
  destruct (read host raw readdata scale) as [r | e'] eqn:Hr; cbn [bind] in H.
  2:{ injection H as <-. left. split; [reflexivity |].
      destruct (read_metadata host raw) as [[s md] | e''] eqn:Hm.
      - destruct readdata.
        + right. right. split; [| reflexivity].
          eapply read_data_Raise; eassumption.
        + unfold read in Hr. rewrite Hm in Hr. discriminate Hr.
      - unfold read in Hr. rewrite Hm in Hr. injection Hr as <-.
        destruct (read_metadata_Raise _ _ _ Hm); auto. }
  right. destruct r as [md | md trig data].
  - left. injection H as <-.
    assert (readdata = false) as ->.
    { destruct readdata; [| reflexivity].
      destruct (read_metadata host raw) as [[s md'] | e''] eqn:Hm.
      - rewrite (read_full_eq host _ _ _ _ Hm) in Hr.
        bind_inv Hr. bind_inv Hr. bind_inv Hr. bind_inv Hr. discriminate Hr.
      - unfold read in Hr. rewrite Hm in Hr. discriminate Hr. }
    split; [reflexivity |]. split; [reflexivity |]. eauto.
  - right.
    assert (readdata = true) as ->.
    { destruct readdata; [reflexivity |].
      unfold read in Hr. bind_inv Hr. destruct a as [s md'].
      discriminate Hr. }
    split; [reflexivity |].
    destruct (read_full_shape _ _ _ _ _ Hr) as ((s & Hm) & points & Hp).
    destruct (metadata_float_field host raw s md "horiz_interval" 176 "f"
                Hm eq_refl (or_introl eq_refl)) as (step & Hstep).
    destruct (metadata_float_field host raw s md "horiz_offset" 180 "d"
                Hm eq_refl (or_intror eq_refl)) as (offset & Hoffset).
    unfold get_times in H. rewrite Hp, Hstep, Hoffset in H. cbn [bind] in H.
    destruct (arange room _) as [time | e'] eqn:Har; [discriminate H |].
    injection H as <-.
    exists md, trig, data, points, step, offset.
    eexists. split; [reflexivity |]. split; [exact Hp |].
    split; [exact Hstep |]. split; [exact Hoffset |].
    split; [reflexivity |]. split; [exact Har |].
    exact (arange_Raise _ _ Har).
Qed.
End TraceOutcomes.

(** A time axis of 10^18 numbers on a machine with room for 2^32: the file
    is read, the axis is not allocated. *)
Lemma Trace_raises_four_exceptions_witness :
  Trace_init Little (2 ^ 32) (poke timed 180 (le_bytes 8 0x43abc16d674ec800))
    true true
  = Raise MemoryError
  /\ exists metadata trigtimes data stop,
       read Little (poke timed 180 (le_bytes 8 0x43abc16d674ec800)) true true
       = Ok (Full metadata trigtimes data)
       /\ arange (2 ^ 32) stop = Raise MemoryError
       /\ exists n, ceil stop = Some n /\ (2 ^ 32 < n < 2 ^ 60)%Z.
Proof.
  assert (Trace_init Little (2 ^ 32)
            (poke timed 180 (le_bytes 8 0x43abc16d674ec800)) true true
          = Raise MemoryError) as H by (vm_compute; reflexivity).
  split; [exact H |].
  destruct (Trace_raises_four_exceptions Little (2 ^ 32) _ true true
              MemoryError H)
    as [(_ & [E | [E | (E & _)]])
       | [(E & _)
         | (_ & md & trig & data & points & step & offset & stop & Hr & _
            & _ & _ & _ & Har & [(E & _) | (_ & n & Hn & Hlen)])]];
    try discriminate E.
  exists md, trig, data, stop. split; [exact Hr |]. split; [exact Har |].
  exists n. split; [exact Hn | exact Hlen].
Defined.

(** ** The descriptor and the rest of the file *)

Section SliceOfSlice.
Context {A : Type}.

(** [l[a:a+n][c:d]] is [l[a+c:a+d]] inside the first slice. *)
Lemma slice_of_slice (l : list A) (a n c d : Z) :
  0 <= a -> 0 <= c -> c <= d -> d <= n ->
  slice (slice l a (a + n)) c d = slice l (a + c) (a + d).
Proof.
  intros Ha Hc Hcd Hdn.
  unfold slice at 1. rewrite len_slice.
  unfold slice. unfold clamp.
  pose proof (len_nonneg l) as Hl.
  destruct (a <? 0) eqn:E1; [lia |].
  destruct (a + n <? 0) eqn:E2; [lia |].
  destruct (c <? 0) eqn:E3; [lia |].
  destruct (d <? 0) eqn:E4; [lia |].
  destruct (a + c <? 0) eqn:E5; [lia |].
  destruct (a + d <? 0) eqn:E6; [lia |].
  rewrite skipn_firstn_comm, skipn_skipn, firstn_firstn.
  f_equal; [lia | f_equal; lia].
Qed.
End SliceOfSlice.

(** Where [find] finds [sub], [sub] is. *)
Lemma find_from_found (sub s : list byte) (i : Z) :
  find_from sub s i <> -1 -> 0 <= i ->
  i <= find_from sub s i
  /\ starts_with sub (skipn (Z.to_nat (find_from sub s i - i)) s) = true.
Proof.
  revert i. induction s as [| x s IH]; intros i H Hi; simpl in *.
  - destruct (starts_with sub []) eqn:E; [| congruence].
    split; [lia |]. rewrite Z.sub_diag. exact E.
  - destruct (starts_with sub (x :: s)) eqn:E.
    + split; [lia |]. rewrite Z.sub_diag. exact E.
    + destruct (IH (i + 1) H ltac:(lia)) as [Hle Hst].
      split; [lia |].
      replace (Z.to_nat (find_from sub s (i + 1) - i))
        with (S (Z.to_nat (find_from sub s (i + 1) - (i + 1)))) by lia.
      exact Hst.
Qed.

Section StripKeeps.

(** Stripping stops at the first byte that is not the stripped one. *)
Lemma lstrip_app_stop (c x : byte) (a b : list byte) :
  x <> c -> lstrip c (a ++ x :: b) = lstrip c a ++ x :: b.
Proof.
  intros Hx. induction a as [| y a IH]; simpl.
  - destruct (Byte.eqb x c) eqn:E; [| reflexivity].
    apply byte_eqb_eq in E. contradiction.
  - destruct (Byte.eqb y c); [exact IH | reflexivity].
Qed.

Lemma strip_keeps_marker (post : list byte) :
  exists rest,
    strip x00 (WAVEDESC ++ post) = WAVEDESC ++ rest
    /\ (List.length rest <= List.length post)%nat.
Proof.
  exists (rev (lstrip x00 (rev post))). split.
  - unfold strip.
    change (lstrip x00 (WAVEDESC ++ post)) with (WAVEDESC ++ post).
    rewrite rev_app_distr.
    change (rev WAVEDESC) with (x43 :: tl (rev WAVEDESC)).
    rewrite lstrip_app_stop by discriminate.
    rewrite rev_app_distr. reflexivity.
  - rewrite length_rev.
    assert (forall l, (List.length (lstrip x00 l) <= List.length l)%nat)
      as Hle.
    { induction l as [| y l IH]; simpl; [lia |].
      destruct (Byte.eqb y x00); simpl; lia. }
    rewrite <- (length_rev post). apply Hle.
Qed.
End StripKeeps.

Section Descriptor.
#[local] Open Scope string_scope.
Variable host : endian.

(** The raw fields are cut out of the 346 bytes that start at the
    marker. *)
Lemma field_bytes_of_descriptor raw startpos :
  (0 <= startpos)%Z ->
  map (field_bytes raw startpos) lecroy_format
  = map (field_bytes (slice raw startpos (startpos + 346)) 0) lecroy_format.
Proof.
  intros Hs. apply map_ext_in. intros [field [off fmt]] Hin.
  destruct (unpack_field_table host field off fmt [] Hin)
    as ((Hoff & Hlen & Hend) & _).
  unfold field_bytes. rewrite Z.add_0_l.
  rewrite slice_of_slice by lia. rewrite Z.add_assoc. reflexivity.
Qed.

Lemma read_metadata_of_descriptor raw :
  (0 <= find raw WAVEDESC)%Z ->
  read host raw false false
  = (let descriptor :=
       slice raw (find raw WAVEDESC) (find raw WAVEDESC + 346) in
     let metadata := map (field_bytes descriptor 0) lecroy_format in
     _ <- byte_order_char host metadata ;;
     metadata <- map_items (unpack_field host "<") metadata ;;
     metadata <- pretty_format metadata ;;
     Ok (Metadata metadata)).
Proof.
  intros Hs. unfold read, read_metadata. rewrite unpack_header_eq. cbv zeta.
  rewrite (field_bytes_of_descriptor raw _ Hs).
  destruct (byte_order_char host _); [| reflexivity]. cbn [bind].
  destruct (map_items _ _); [| reflexivity]. cbn [bind].
  destruct (pretty_format _); reflexivity.
Qed.

Lemma read_ignores_scale_without_data raw scale :
  read host raw false scale = read host raw false false.
Proof.
  unfold read. destruct (read_metadata host raw) as [[s md] |]; reflexivity.
Qed.

(** X20.  The metadata depend on the 346 bytes that start at the first
    [WAVEDESC] and on nothing else of the file: two files in which these
    bytes are the same (fewer when the file ends before) give the same
    dictionary, or the same exception, wherever the marker is and whatever
    comes before or after, and [scale] plays no part. *)
Theorem metadata_depend_on_the_descriptor raw raw' scale scale' :
  (0 <= find raw WAVEDESC)%Z ->
  (0 <= find raw' WAVEDESC)%Z ->
  slice raw (find raw WAVEDESC) (find raw WAVEDESC + 346)
  = slice raw' (find raw' WAVEDESC) (find raw' WAVEDESC + 346) ->
  read host raw false scale = read host raw' false scale'.
Proof.
  intros Hs Hs' E.
  rewrite (read_ignores_scale_without_data raw scale),
    (read_ignores_scale_without_data raw' scale').
  rewrite !read_metadata_of_descriptor by assumption.
  cbv zeta. rewrite E. reflexivity.
Qed.

(** X21.  In what [read] returns, [descriptor_name] starts with
    [WAVEDESC]: the field lies at offset 0 of the descriptor, which is
    where the marker was found, and stripping NULs leaves the marker in
    place.  At most eight bytes follow. *)
Theorem descriptor_name_starts_with_marker raw readdata scale r :
  read host raw readdata scale = Ok r ->
  exists rest,
    dict_find "descriptor_name" (metadata_of r)
    = Some (VBytes (WAVEDESC ++ rest)%list)
    /\ (List.length rest <= 8)%nat.
Proof.
  intros H. apply read_Ok_metadata in H. destruct H as [s H].
  destruct (read_metadata_inv _ _ _ _ H) as (unpacked & Hu & Hp).
  destruct (unpack_header_field host raw s unpacked "descriptor_name" 0 "16s"
              Hu eq_refl) as (Hs & v & Hv & Hfind).
  destruct (unpack_header_bounds host _ _ _ Hu) as (_ & Hs0 & Hlen).
  assert (fieldlen "16s" = 16)%Z as Hsize by reflexivity.
  pose proof (slice_exact raw (s + 0) (s + 0 + fieldlen "16s")
                ltac:(lia) ltac:(lia) ltac:(lia)) as Hl.
  set (b := slice raw (s + 0) (s + 0 + fieldlen "16s")) in *.
  assert (v = VBytes (strip x00 b)) as ->.
  { assert ("descriptor_name" <> "trigger_time") as Hn by discriminate.
    exact (proj2 (unpack_field_string host "descriptor_name" 0 "16s" 16 _ _
                    eq_refl eq_refl eq_refl Hn Hv)). }
  assert (exists post, b = (WAVEDESC ++ post)%list
                       /\ List.length post = 8%nat) as (post & Hb & Hpost).
  { assert (find_from WAVEDESC raw 0 <> -1)%Z as Hfound
        by (fold (find raw WAVEDESC); lia).
    destruct (find_from_found WAVEDESC raw 0 Hfound ltac:(lia)) as [_ Hst].
    fold (find raw WAVEDESC) in Hst. rewrite <- Hs, Z.sub_0_r in Hst.
    apply starts_with_spec in Hst. destruct Hst as [post' Hpost'].
    assert (b = firstn 16 (skipn (Z.to_nat s) raw)) as Eb.
    { unfold b, slice, clamp. change (fieldlen "16s") with 16%Z.
      destruct (s + 0 <? 0)%Z eqn:E1; [lia |].
      destruct (s + 0 + 16 <? 0)%Z eqn:E2; [lia |].
      f_equal; [lia | f_equal; lia]. }
    rewrite Hpost' in Eb.
    change 16%nat with (List.length WAVEDESC + 8)%nat in Eb.
    rewrite firstn_app_2 in Eb.
    exists (firstn 8 post'). split; [exact Eb |].
    assert (len b = 16)%Z as Hl16
        by (rewrite Hl; change (fieldlen "16s") with 16%Z; lia).
    unfold len in Hl16. rewrite Eb, length_app in Hl16.
    change (List.length WAVEDESC) with 8%nat in Hl16. lia. }
  destruct (strip_keeps_marker post) as (rest & Hrest & Hle).
  exists rest. split; [| lia].
  rewrite (pretty_format_keeps _ _ _ Hp);
    [| simpl; intuition discriminate].
  rewrite Hfind, Hb, Hrest. reflexivity.
Qed.
End Descriptor.

(** The scenario of the specification, alone and after two stray bytes
    and before four more. *)
Lemma metadata_depend_on_the_descriptor_witness :
  read Little ([x07; x08] ++ scenario ++ [x01; x02; x03; x04])%list false true
  = read Little scenario false false
  /\ exists metadata, read Little scenario false false = Ok (Metadata metadata).
Proof.
  split.
  - apply metadata_depend_on_the_descriptor.
    + vm_compute. discriminate.
    + vm_compute. discriminate.
    + vm_compute. reflexivity.
  - eexists. vm_compute. reflexivity.
Defined.

(** The scenario of the specification. *)
Lemma descriptor_name_starts_with_marker_witness :
  exists r rest,
    read Little scenario true true = Ok r
    /\ dict_find "descriptor_name"%string (metadata_of r)
       = Some (VBytes (WAVEDESC ++ rest)%list).
Proof.
  pose (r := match read Little scenario true true with
             | Ok r => r
             | Raise _ => Metadata []
             end).
  assert (read Little scenario true true = Ok r) as H
      by (vm_compute; reflexivity).
  destruct (descriptor_name_starts_with_marker Little scenario true true r H)
    as (rest & Hrest & _).
  exists r, rest. split; [exact H | exact Hrest].
Defined.
